(** * IT/PEI registry: field normalisation, record mapping, form
      reconciliation and the history store gateway

    A shallow embedding of [app.py] and [db_it_pei.py].  Python values are
    a small tagged union, [str] is a list of Unicode code points, a [dict]
    is an insertion-ordered association list, exceptions are an explicit
    result type, and the two store calls are the statements handed to the
    engine. *)

From Stdlib Require Import ZArith NArith Lia List Bool String Ascii.
From stdpp Require Import base gmap strings.
Import ListNotations.

Local Open Scope Z_scope.

(** ** Strings as sequences of code points *)

Definition str := list N.

(** UTF-8 decoding, used only to write the source's literals. *)
Fixpoint utf8_decode (bs : list N) : str :=
  match bs with
  | [] => []
  | b0 :: r0 =>
    if (b0 <? 128)%N then b0 :: utf8_decode r0
    else match r0 with
    | [] => []
    | b1 :: r1 =>
      if (b0 <? 224)%N
      then ((b0 mod 32) * 64 + b1 mod 64)%N :: utf8_decode r1
      else match r1 with
      | [] => []
      | b2 :: r2 =>
        if (b0 <? 240)%N
        then ((b0 mod 16) * 4096 + (b1 mod 64) * 64 + b2 mod 64)%N
               :: utf8_decode r2
        else match r2 with
        | [] => []
        | b3 :: r3 =>
          ((b0 mod 8) * 262144 + (b1 mod 64) * 4096
           + (b2 mod 64) * 64 + b3 mod 64)%N :: utf8_decode r3
        end
      end
    end
  end.

Fixpoint bytes_of_string (s : string) : list N :=
  match s with
  | EmptyString => []
  | String a r => N_of_ascii a :: bytes_of_string r
  end.

Definition u (s : string) : str := utf8_decode (bytes_of_string s).

Definition str_eqb (a b : str) : bool := bool_decide (a = b).

(** [str.isspace] of one character: the code points CPython's
    [Py_UNICODE_ISSPACE] accepts.  [str.strip()] and the pattern [\s] use
    the same set. *)
Definition isspace (c : N) : bool :=
  ((9 <=? c) && (c <=? 13) || (28 <=? c) && (c <=? 32)
   || (c =? 133) || (c =? 160) || (c =? 5760)
   || (8192 <=? c) && (c <=? 8202)
   || (c =? 8232) || (c =? 8233) || (c =? 8239) || (c =? 8287)
   || (c =? 12288))%N.

(** The C locale's [Py_ISSPACE], used by the number parsers once the
    string has been brought to ASCII. *)
Definition c_isspace (c : N) : bool :=
  ((9 <=? c) && (c <=? 13) || (c =? 32))%N.

Definition is_ascii_digit (c : N) : bool := ((48 <=? c) && (c <=? 57))%N.

Fixpoint drop_while (p : N -> bool) (s : str) : str :=
  match s with
  | [] => []
  | c :: r => if p c then drop_while p r else s
  end.

Definition strip_with (p : N -> bool) (s : str) : str :=
  rev (drop_while p (rev (drop_while p s))).

(** [s.strip()] *)
Definition strip (s : str) : str := strip_with isspace s.

(** The information separators U+001C to U+001F: whitespace for
    [str.strip()], not for the number parsers. *)
Definition is_separator (c : N) : bool := ((28 <=? c) && (c <=? 31))%N.

Definition plain_space (c : N) : bool := isspace c && negb (is_separator c).

(** No information separator stands among the leading or trailing
    whitespace of [s]. *)
Definition plain_margins (s : str) : bool :=
  str_eqb (strip_with plain_space s) (strip s).

(** [s.replace("_", " ")] *)
Definition replace_underscore (s : str) : str :=
  map (fun c => if (c =? 95)%N then 32%N else c) s.

(** [re.sub(r"\s+", " ", s)]: every maximal run of whitespace becomes one
    space.  [in_run] records that the previous character was whitespace. *)
Fixpoint sub_spaces_from (in_run : bool) (s : str) : str :=
  match s with
  | [] => []
  | c :: r =>
    if isspace c
    then (if in_run then sub_spaces_from true r
          else 32%N :: sub_spaces_from true r)
    else c :: sub_spaces_from false r
  end.

Definition re_sub_spaces (s : str) : str := sub_spaces_from false s.

(** No two whitespace characters follow each other. *)
Fixpoint single_spaced (prev_space : bool) (s : str) : bool :=
  match s with
  | [] => true
  | c :: r =>
    negb (prev_space && isspace c) && single_spaced (isspace c) r
  end.

(** [t] is [s] without its leading and trailing characters satisfying
    [p]. *)
Definition trimmed_of (p : N -> bool) (s t : str) : Prop :=
  exists l r,
    s = l ++ t ++ r
    /\ forallb p l = true /\ forallb p r = true
    /\ (forall c t', t = c :: t' -> p c = false)
    /\ (forall c t', t = t' ++ [c] -> p c = false).

(** A string of decimal digits: what [str] of a natural number is. *)
Definition all_digits (s : str) : Prop :=
  Forall (fun c => is_ascii_digit c = true) s.

(** [str.lower] on a character of the Latin-1 block. *)
Definition lower_latin1 (c : N) : N :=
  if ((65 <=? c) && (c <=? 90)
      || (192 <=? c) && (c <=? 222) && negb (c =? 215))%N
  then (c + 32)%N else c.

(** ** Numbers *)

(** A float is not-a-number, an infinity or sign, mantissa and binary
    exponent: the value is [m * 2^e].  [float()] of a decimal literal or
    of an int is the nearest binary64 number, ties to even. *)
Inductive pyfloat :=
| FNaN
| FInf (neg : bool)
| FFin (neg : bool) (m e : Z).

(** The finite values of binary64. *)
Definition is_binary64 (m e : Z) : bool :=
  (0 <=? m) && (m <? 2 ^ 53) && (-1074 <=? e) && (e <=? 971).

(** Round-half-even of [a / b] to an integer, for [0 <= a] and [0 < b]. *)
Definition round_half_even (a b : Z) : Z :=
  let k := a / b in
  let r := a mod b in
  if 2 * r <? b then k
  else if b <? 2 * r then k + 1
  else if Z.even k then k else k + 1.

(** [floor (log2 (n / d))] for positive [n] and [d]. *)
Definition floor_log2_ratio (n d : Z) : Z :=
  let e0 := Z.log2 n - Z.log2 d in
  let below :=
    if 0 <=? e0 then n <? d * 2 ^ e0 else n * 2 ^ (- e0) <? d in
  if below then e0 - 1 else e0.

(** The binary64 number nearest to [n / d] (ties to even), as mantissa
    and exponent; [None] when the rounded value exceeds the largest
    finite float. *)
Definition round_binary64 (n d : Z) : option (Z * Z) :=
  if n =? 0 then Some (0, 0)
  else
    let q := Z.max (floor_log2_ratio n d - 52) (-1074) in
    let m :=
      if 0 <=? q then round_half_even n (d * 2 ^ q)
      else round_half_even (n * 2 ^ (- q)) d in
    if (0 <=? q) && (2 ^ 1024 <=? m * 2 ^ q) then None else Some (m, q).

(** The integer part of [m * 2^e], for [0 <= m]. *)
Definition trunc_float (m e : Z) : Z :=
  if 0 <=? e then m * 2 ^ e else m / 2 ^ (- e).

(** What [round_binary64] returns: a mantissa of at most 53 bits and a
    value below [2^1024]. *)
Definition float_parts (m q : Z) : Prop :=
  0 <= m <= 2 ^ 53 /\ (0 <= q -> m * 2 ^ q < 2 ^ 1024).

(** Decimal digits, least significant first; [fuel] bounds their number. *)
Fixpoint lsd_digits (fuel : nat) (n : N) : list N :=
  match fuel with
  | O => []
  | S f =>
    (n mod 10)%N ::
      (if (n / 10 =? 0)%N then [] else lsd_digits f (n / 10)%N)
  end.

Definition digits_of_N (n : N) : list N :=
  rev (lsd_digits (S (N.to_nat (N.log2 n))) n).

Definition digits_value (ds : list N) : N :=
  fold_left (fun a d => (10 * a + d)%N) ds 0%N.

Definition digit_chars (n : N) : str := map (N.add 48) (digits_of_N n).

(** [str(n)] for an int.  The interpreter's optional limit on the number
    of digits of such a conversion is not modelled. *)
Definition str_of_Z (z : Z) : str :=
  if z <? 0 then 45%N :: digit_chars (Z.to_N (- z))
  else digit_chars (Z.to_N z).

Definition zero_pad (width : nat) (s : str) : str :=
  repeat 48%N (width - length s) ++ s.

(** ** Values and exceptions *)

Inductive pyval :=
| PNone
| PBool (b : bool)
| PInt (n : Z)
| PFloat (f : pyfloat)
| PStr (s : str)
| PDate (y m d : Z)
| PNaT.

(** A float is a binary64 number and a date has its fields in range. *)
Definition wf_val (x : pyval) : bool :=
  match x with
  | PFloat (FFin _ m e) => is_binary64 m e
  | PDate y m d =>
    (1 <=? y) && (y <=? 9999) && (1 <=? m) && (m <=? 12)
    && (1 <=? d) && (d <=? 31)
  | _ => true
  end.

(** The message of [ValueError] is kept: [insert_it_pei] builds one.  The
    interpreter's own messages are not modelled and left empty. *)
Inductive exn :=
| ValueError (msg : str)
| TypeError
| OverflowError
| NotFoundError.

Inductive result (A : Type) :=
| Ok (a : A)
| Raise (e : exn).
Arguments Ok {A} a.
Arguments Raise {A} e.

Definition bind {A B} (r : result A) (k : A -> result B) : result B :=
  match r with
  | Ok a => k a
  | Raise e => Raise e
  end.

Declare Scope py_scope.
Notation "'let!' x ':=' c 'in' k" := (bind c (fun x => k))
  (at level 10, x name, c at level 100, k at level 200) : py_scope.
Local Open Scope py_scope.

(** [try: body except Exception: handler] *)
Definition try_except {A} (body : result A) (handler : A) : A :=
  match body with
  | Ok a => a
  | Raise _ => handler
  end.

(** What the code takes from the interpreter and from pandas and that is
    not written out here: case folding and decimal digits outside
    Latin-1/ASCII, the shortest [repr] of a finite float, and
    [pd.to_datetime(x).date()] ([None] when it raises). *)
Class PyLib := {
  lower_wide : str -> str;
  decimal_wide : N -> option N;
  float_repr : bool -> Z -> Z -> str;
  to_datetime_date : pyval -> option pyval
}.

(** A library for running the code on Latin-1 text: the wide tables are
    empty, [repr] is that of a float with an integer value (as in [23.0]),
    and a date is the only value converted to a date. *)
Definition narrow_lib : PyLib := {|
  lower_wide := fun s => s;
  decimal_wide := fun _ => None;
  float_repr := fun neg m e =>
    (if neg then [45%N] else []) ++ digit_chars (Z.to_N (trunc_float m e))
      ++ [46%N; 48%N];
  to_datetime_date := fun x =>
    match x with
    | PDate y m d => Some (PDate y m d)
    | _ => None
    end
|}.

Section Interpreter.
Context {L : PyLib}.

(** [s.lower()] *)
Definition lower (s : str) : str :=
  if forallb (fun c => (c <? 256)%N) s then map lower_latin1 s
  else lower_wide s.

(** [Py_UNICODE_TODECIMAL] *)
Definition decimal_value (c : N) : option N :=
  if (c <? 128)%N
  then (if is_ascii_digit c then Some (c - 48)%N else None)
  else decimal_wide c.

(** [str(x)] *)
Definition py_str (x : pyval) : str :=
  match x with
  | PNone => u "None"
  | PBool true => u "True"
  | PBool false => u "False"
  | PInt n => str_of_Z n
  | PFloat FNaN => u "nan"
  | PFloat (FInf false) => u "inf"
  | PFloat (FInf true) => u "-inf"
  | PFloat (FFin neg m e) => float_repr neg m e
  | PStr s => s
  | PDate y m d =>
    zero_pad 4 (str_of_Z y) ++ [45%N] ++ zero_pad 2 (str_of_Z m)
      ++ [45%N] ++ zero_pad 2 (str_of_Z d)
  | PNaT => u "NaT"
  end.

(** [pd.isna(x)] on a scalar *)
Definition isna (x : pyval) : bool :=
  match x with
  | PNone | PNaT | PFloat FNaN => true
  | _ => false
  end.

Definition is_none (x : pyval) : bool :=
  match x with PNone => true | _ => false end.

(** [bool(x)]; NaT, a datetime, is truthy. *)
Definition truthy (x : pyval) : bool :=
  match x with
  | PNone => false
  | PBool b => b
  | PInt n => negb (n =? 0)
  | PFloat (FFin _ m _) => negb (m =? 0)
  | PFloat _ => true
  | PStr s => match s with [] => false | _ => true end
  | PDate _ _ _ => true
  | PNaT => true
  end.

(** *** [float(s)] and [int(s)] of a string *)

(** The number parsers first bring the string to ASCII: a wide space
    becomes a blank, a wide decimal digit its ASCII digit, and anything
    else ends the string with a question mark. *)
Fixpoint transform_wide (s : str) : str :=
  match s with
  | [] => []
  | c :: r =>
    if (c <? 127)%N then c :: transform_wide r
    else if isspace c then 32%N :: transform_wide r
    else match decimal_value c with
         | Some d => (48 + d)%N :: transform_wide r
         | None => [63%N]
         end
  end.

Definition to_ascii_decimal (s : str) : str :=
  if forallb (fun c => (c <? 128)%N) s then s else transform_wide s.

(** Every character of [a] survives the transformation. *)
Definition clean (a : str) : bool :=
  forallb (fun c => (c <? 127)%N || isspace c
                    || match decimal_value c with
                       | Some _ => true
                       | None => false
                       end) a.

End Interpreter.

(** An underscore is dropped when it stands between two digits and is an
    error anywhere else; [prev] is the character before [s]. *)
Fixpoint scan_underscores (prev : N) (s : str) : option str :=
  match s with
  | [] => if (prev =? 95)%N then None else Some []
  | c :: r =>
    if (c =? 95)%N
    then (if is_ascii_digit prev then scan_underscores c r else None)
    else if (prev =? 95)%N && negb (is_ascii_digit c) then None
    else option_map (cons c) (scan_underscores c r)
  end.

(** A previous character that is neither a digit nor an underscore: the
    scan goes on after it as it does at the start of the string. *)
Definition neutral (p : N) : Prop :=
  (p =? 95)%N = false /\ is_ascii_digit p = false.

Definition parse_sign (s : str) : bool * str :=
  match s with
  | [] => (false, [])
  | c :: r =>
    if (c =? 45)%N then (true, r)
    else if (c =? 43)%N then (false, r)
    else (false, s)
  end.

(** The longest prefix of ASCII digits, as digit values, and the rest. *)
Fixpoint span_digits (s : str) : list N * str :=
  match s with
  | [] => ([], [])
  | c :: r =>
    if is_ascii_digit c
    then (let (ds, t) := span_digits r in ((c - 48)%N :: ds, t))
    else ([], s)
  end.

(** An exponent part is read only when a digit follows. *)
Definition parse_exponent (s : str) : Z * str :=
  match s with
  | [] => (0, [])
  | c :: r =>
    if ((c =? 101) || (c =? 69))%N
    then
      let (neg, r1) := parse_sign r in
      let (ds, r2) := span_digits r1 in
      match ds with
      | [] => (0, s)
      | _ :: _ =>
        let v := Z.of_N (digits_value ds) in
        (if neg then - v else v, r2)
      end
    else (0, s)
  end.

Inductive literal :=
| LitNaN
| LitInf (neg : bool)
| LitDec (neg : bool) (mant : N) (exp10 : Z).

(** sign, digits, optional point and digits, optional exponent; at least
    one digit. *)
Definition parse_decimal (s : str) : option (literal * str) :=
  let (neg, s1) := parse_sign s in
  let (ip, s2) := span_digits s1 in
  let (fp, s3) :=
    match s2 with
    | c :: t => if (c =? 46)%N then span_digits t else ([], s2)
    | [] => ([], [])
    end in
  match ip ++ fp with
  | [] => None
  | _ :: _ =>
    let (ex, s4) := parse_exponent s3 in
    Some (LitDec neg (digits_value (ip ++ fp)) (ex - Z.of_nat (length fp)),
          s4)
  end.

Definition ascii_lower (c : N) : N :=
  if ((65 <=? c) && (c <=? 90))%N then (c + 32)%N else c.

Fixpoint starts_with (p s : str) : bool :=
  match p, s with
  | [], _ => true
  | a :: p', b :: s' => (a =? ascii_lower b)%N && starts_with p' s'
  | _ :: _, [] => false
  end.

(** sign, then [inf], [infinity] or [nan] in any case. *)
Definition parse_inf_nan (s : str) : option (literal * str) :=
  let (neg, r) := parse_sign s in
  if starts_with (u "inf") r
  then (let r3 := skipn 3 r in
        if starts_with (u "inity") r3 then Some (LitInf neg, skipn 5 r3)
        else Some (LitInf neg, r3))
  else if starts_with (u "nan") r then Some (LitNaN, skipn 3 r)
  else None.

(** The float a literal denotes; a decimal too large becomes an infinity. *)
Definition float_of_literal (l : literal) : pyfloat :=
  match l with
  | LitNaN => FNaN
  | LitInf neg => FInf neg
  | LitDec neg mant e10 =>
    let r :=
      if 0 <=? e10 then round_binary64 (Z.of_N mant * 10 ^ e10) 1
      else round_binary64 (Z.of_N mant) (10 ^ (- e10)) in
    match r with
    | Some (m, e) => FFin neg m e
    | None => FInf neg
    end
  end.

(** The part of [float(s)] after the string is ASCII and trimmed. *)
Definition parse_float_literal (t : str) : result pyfloat :=
  match parse_decimal t with
  | Some (l, []) => Ok (float_of_literal l)
  | Some (_, _ :: _) => Raise (ValueError [])
  | None =>
    match parse_inf_nan t with
    | Some (l, []) => Ok (float_of_literal l)
    | _ => Raise (ValueError [])
    end
  end.

(** The part of [int(s)] (base ten) after the string is ASCII and
    trimmed: sign and digits. *)
Definition parse_int_literal (t : str) : result Z :=
  let (neg, r) := parse_sign t in
  match span_digits r with
  | ((_ :: _) as ds, []) =>
    let v := Z.of_N (digits_value ds) in Ok (if neg then - v else v)
  | _ => Raise (ValueError [])
  end.

(** The two characters the transformation to ASCII can leave in a string
    that no literal contains: DEL and the question mark. *)
Definition bad_char (c : N) : bool := ((c =? 127) || (c =? 63))%N.

Definition no_bad (s : str) : Prop := Forall (fun c => bad_char c = false) s.

(** Digits and hyphens: the characters of [str] of an int or of a date. *)
Definition token_char (c : N) : bool := is_ascii_digit c || (c =? 45)%N.

Definition token (s : str) : Prop := Forall (fun c => token_char c = true) s.

(** [float(s)] and [int(s)] once the string is ASCII: underscores, then
    the blanks around the literal, then the literal. *)
Definition float_of_ascii (t : str) : result pyfloat :=
  match scan_underscores 0%N t with
  | None => Raise (ValueError [])
  | Some t' => parse_float_literal (strip_with c_isspace t')
  end.

Definition int_of_ascii (t : str) : result Z :=
  match scan_underscores 0%N t with
  | None => Raise (ValueError [])
  | Some t' => parse_int_literal (strip_with c_isspace t')
  end.

Section Builtins.
Context {L : PyLib}.

Definition float_of_str (s : str) : result pyfloat :=
  float_of_ascii (to_ascii_decimal s).

Definition int_of_str (s : str) : result Z :=
  int_of_ascii (to_ascii_decimal s).

(** [float(x)] *)
Definition py_float (x : pyval) : result pyfloat :=
  match x with
  | PNone | PDate _ _ _ | PNaT => Raise TypeError
  | PBool b => Ok (FFin false (if b then 1 else 0) 0)
  | PInt n =>
    match round_binary64 (Z.abs n) 1 with
    | Some (m, e) => Ok (FFin (n <? 0) m e)
    | None => Raise OverflowError
    end
  | PFloat f => Ok f
  | PStr s => float_of_str s
  end.

(** [int(f)] of a float: truncation toward zero. *)
Definition int_of_float (f : pyfloat) : result Z :=
  match f with
  | FNaN => Raise (ValueError [])
  | FInf _ => Raise OverflowError
  | FFin neg m e =>
    let t := trunc_float m e in Ok (if neg then - t else t)
  end.

(** [int(x)] *)
Definition py_int (x : pyval) : result Z :=
  match x with
  | PNone | PDate _ _ _ | PNaT => Raise TypeError
  | PBool b => Ok (if b then 1 else 0)
  | PInt n => Ok n
  | PFloat f => int_of_float f
  | PStr s => int_of_str s
  end.

(** ** Field Normalizer *)

(** [normalizar_codigo], defined twice in [app.py] with the same body. *)
Definition normalizar_codigo (x : pyval) : str :=
  if isna x || is_none x then []
  else try_except
         (let! f := py_float x in
          let! n := int_of_float f in
          Ok (str_of_Z n))
         (strip (py_str x)).

(** The integer [float(x)] truncates to, when it is finite. *)
Definition int_via_float (x : pyval) : result Z :=
  let! f := py_float x in int_of_float f.

(** The inputs on which [normalizar_codigo] is idempotent: a string with
    no information separator in its margins, or any other value. *)
Definition plain_input (x : pyval) : bool :=
  match x with
  | PStr s => plain_margins s
  | _ => true
  end.

End Builtins.

(** ** Dictionaries

    A [dict] keeps its keys in insertion order; assigning to a key that
    is present keeps its place.  A row ([pd.Series]) is read through
    [.get] in the same way. *)

Definition pydict := list (string * pyval).

Fixpoint dict_get (d : pydict) (k : string) : option pyval :=
  match d with
  | [] => None
  | (k', v) :: r => if String.eqb k' k then Some v else dict_get r k
  end.

(** [d.get(k, default)] *)
Definition get_or (d : pydict) (k : string) (default : pyval) : pyval :=
  match dict_get d k with
  | Some v => v
  | None => default
  end.

(** [d[k] = v] *)
Fixpoint dict_set (d : pydict) (k : string) (v : pyval) : pydict :=
  match d with
  | [] => [(k, v)]
  | (k', v') :: r =>
    if String.eqb k' k then (k, v) :: r else (k', v') :: dict_set r k v
  end.

Definition dict_keys (d : pydict) : list string := map fst d.

(** [mapping.get(s, default)] for the choice tables, keyed by [str]. *)
Fixpoint choice_get (mapping : list (str * str)) (s : str) : option str :=
  match mapping with
  | [] => None
  | (k, v) :: r => if str_eqb k s then Some v else choice_get r s
  end.

(** ** Record Mapper *)

Definition FORM_DEFAULTS : pydict :=
  [ ("tipo_pei"%string, PStr (u "Formulado"));
    ("etapa_revision"%string, PStr (u "IT Emitido"));
    ("fecha_recepcion"%string, PNone);
    ("articulacion"%string, PStr []);
    ("fecha_derivacion"%string, PNone);
    ("periodo"%string, PStr []);
    ("cantidad_revisiones"%string, PInt 0);
    ("comentario"%string, PStr []);
    ("vigencia"%string, PStr (u "Sí"));
    ("estado"%string, PStr (u "En proceso"));
    ("expediente"%string, PStr []);
    ("fecha_it"%string, PNone);
    ("fecha_oficio"%string, PNone);
    ("numero_it"%string, PStr []);
    ("numero_oficio"%string, PStr []) ].

Definition estado_map : list (str * str) :=
  [ (u "emitido", u "Emitido");
    (u "en proceso", u "En proceso");
    (u "proceso", u "En proceso") ].

Definition vigencia_map : list (str * str) :=
  [ (u "sí", u "Sí"); (u "si", u "Sí"); (u "no", u "No") ].

Definition tipo_pei_map : list (str * str) :=
  [ (u "formulado", u "Formulado");
    (u "ampliado", u "Ampliado");
    (u "actualizado", u "Actualizado") ].

Definition etapa_map : list (str * str) :=
  [ (u "it emitido", u "IT Emitido");
    (u "para emisión de it", u "Para emisión de IT");
    (u "para emision de it", u "Para emisión de IT");
    (u "revisión dncp", u "Revisión DNCP");
    (u "revision dncp", u "Revisión DNCP");
    (u "revisión dnse", u "Revisión DNSE");
    (u "revision dnse", u "Revisión DNSE");
    (u "revisión dnpe", u "Revisión DNPE");
    (u "revision dnpe", u "Revisión DNPE");
    (u "subsanación del pliego", u "Subsanación del pliego");
    (u "subsanacion del pliego", u "Subsanación del pliego") ].

(** [FORM_DEFAULTS[k]] for a key of the table *)
Definition form_default (k : string) : pyval := get_or FORM_DEFAULTS k PNone.

(** How a logical field is read: a choice table, a date, an int or a
    string. *)
Inductive field_kind :=
| KChoice (mapping : list (str * str))
| KDate
| KInt
| KStr.

(** Each field of the form with the row keys tried for it, in order. *)
Definition logical_fields : list (string * list string * field_kind) :=
  [ ("tipo_pei", ["tipo_pei"; "Tipo de PEI"], KChoice tipo_pei_map);
    ("etapa_revision",
     ["etapas_revision"; "etapa_revision"; "Etapas de revisión"],
     KChoice etapa_map);
    ("fecha_recepcion", ["fecha_recepcion"; "Fecha de recepción"], KDate);
    ("articulacion", ["articulacion"; "Articulación"], KStr);
    ("fecha_derivacion", ["fecha_derivacion"; "Fecha de derivación"], KDate);
    ("periodo", ["periodo_pei"; "periodo"; "Periodo PEI"], KStr);
    ("cantidad_revisiones",
     ["cantidad_revisiones"; "Cantidad de revisiones"], KInt);
    ("comentario",
     ["comentario_adicional_emisor_it"; "comentario";
      "Comentario adicional/ Emisor de I.T"], KStr);
    ("vigencia", ["vigencia"; "Vigencia"], KChoice vigencia_map);
    ("estado", ["estado"; "Estado"], KChoice estado_map);
    ("expediente", ["expediente"; "Expediente"], KStr);
    ("fecha_it", ["fecha_it"; "Fecha de I.T"], KDate);
    ("numero_it", ["numero_it"; "Número de I.T"], KStr);
    ("fecha_oficio", ["fecha_oficio"; "Fecha Oficio"; "Fecha del Oficio"],
     KDate);
    ("numero_oficio",
     ["numero_oficio"; "Número Oficio"; "Número del Oficio"], KStr)
  ]%string.

(** [row.get(k1, row.get(k2, ... default))] *)
Fixpoint get_chain (row : pydict) (keys : list string) (default : pyval)
    : pyval :=
  match keys with
  | [] => default
  | k :: r => get_or row k (get_chain row r default)
  end.

(** The value of the first key of [keys] the row has. *)
Fixpoint first_present (row : pydict) (keys : list string) : option pyval :=
  match keys with
  | [] => None
  | k :: r =>
    match dict_get row k with
    | Some v => Some v
    | None => first_present row r
    end
  end.

Section Mapper.
Context {L : PyLib}.

(** [_safe_str] of [set_form_state_from_row] *)
Definition _safe_str (x : pyval) : str :=
  if isna x then [] else strip (py_str x).

Definition _safe_int (x : pyval) : Z :=
  try_except (py_int x) 0.

Definition _safe_date (x : pyval) : pyval :=
  if isna x || is_none x || str_eqb (strip (py_str x)) [] then PNone
  else match to_datetime_date x with
       | Some d => d
       | None => PNone
       end.

Definition norm_choice (val : pyval) (mapping : list (str * str))
    (default : pyval) : pyval :=
  let s := lower (_safe_str val) in
  let s := re_sub_spaces s in
  let s := strip (replace_underscore s) in
  match choice_get mapping s with
  | Some v => PStr v
  | None => default
  end.

Definition set_form_state_from_row (row : pydict) : pydict :=
  let form := FORM_DEFAULTS in
  let tipo_pei_val :=
    get_or row "tipo_pei"
      (get_or row "Tipo de PEI" (form_default "tipo_pei")) in
  let etapa_val :=
    get_or row "etapas_revision"
      (get_or row "etapa_revision"
         (get_or row "Etapas de revisión"
            (form_default "etapa_revision"))) in
  let periodo_val :=
    get_or row "periodo_pei"
      (get_or row "periodo" (get_or row "Periodo PEI" (PStr []))) in
  let comentario_val :=
    get_or row "comentario_adicional_emisor_it"
      (get_or row "comentario"
         (get_or row "Comentario adicional/ Emisor de I.T" (PStr []))) in
  let form := dict_set form "tipo_pei"
    (norm_choice tipo_pei_val tipo_pei_map (form_default "tipo_pei")) in
  let form := dict_set form "etapa_revision"
    (norm_choice etapa_val etapa_map (form_default "etapa_revision")) in
  let form := dict_set form "fecha_recepcion"
    (_safe_date (get_or row "fecha_recepcion"
                   (get_or row "Fecha de recepción" PNone))) in
  let form := dict_set form "articulacion"
    (PStr (_safe_str (get_or row "articulacion"
                        (get_or row "Articulación" (PStr []))))) in
  let form := dict_set form "fecha_derivacion"
    (_safe_date (get_or row "fecha_derivacion"
                   (get_or row "Fecha de derivación" PNone))) in
  let form := dict_set form "periodo" (PStr (_safe_str periodo_val)) in
  let form := dict_set form "cantidad_revisiones"
    (PInt (_safe_int (get_or row "cantidad_revisiones"
                        (get_or row "Cantidad de revisiones" (PInt 0))))) in
  let form := dict_set form "comentario" (PStr (_safe_str comentario_val)) in
  let form := dict_set form "vigencia"
    (norm_choice
       (get_or row "vigencia"
          (get_or row "Vigencia" (form_default "vigencia")))
       vigencia_map (form_default "vigencia")) in
  let form := dict_set form "estado"
    (norm_choice
       (get_or row "estado" (get_or row "Estado" (form_default "estado")))
       estado_map (form_default "estado")) in
  let form := dict_set form "expediente"
    (PStr (_safe_str (get_or row "expediente"
                        (get_or row "Expediente" (PStr []))))) in
  let form := dict_set form "fecha_it"
    (_safe_date (get_or row "fecha_it" (get_or row "Fecha de I.T" PNone))) in
  let form := dict_set form "numero_it"
    (PStr (_safe_str (get_or row "numero_it"
                        (get_or row "Número de I.T" (PStr []))))) in
  let form := dict_set form "fecha_oficio"
    (_safe_date (get_or row "fecha_oficio"
                   (get_or row "Fecha Oficio"
                      (get_or row "Fecha del Oficio" PNone)))) in
  let form := dict_set form "numero_oficio"
    (PStr (_safe_str (get_or row "numero_oficio"
                        (get_or row "Número Oficio"
                           (get_or row "Número del Oficio" (PStr [])))))) in
  form.

(** The key [norm_choice] looks up. *)
Definition choice_key (val : pyval) : str :=
  strip (replace_underscore (re_sub_spaces (lower (_safe_str val)))).

Definition convert (kind : field_kind) (default v : pyval) : pyval :=
  match kind with
  | KChoice mapping => norm_choice v mapping default
  | KDate => _safe_date v
  | KInt => PInt (_safe_int v)
  | KStr => PStr (_safe_str v)
  end.

(** A value the field's reader cannot use: a choice outside the table, a
    date that is missing, blank or rejected by [pd.to_datetime], an int
    [int()] raises on, a missing string. *)
Definition malformed (kind : field_kind) (v : pyval) : Prop :=
  match kind with
  | KChoice mapping => choice_get mapping (choice_key v) = None
  | KDate =>
    isna v = true \/ strip (py_str v) = [] \/ to_datetime_date v = None
  | KInt => exists e, py_int v = Raise e
  | KStr => isna v = true
  end.

End Mapper.

(** ** History Store Gateway ([db_it_pei.py]) *)

Section Gateway.
Context {L : PyLib}.

Definition _clean_str (x : pyval) : pyval :=
  if is_none x then PNone
  else match strip (py_str x) with
       | [] => PNone
       | s => PStr s
       end.

Definition is_float_nan (x : pyval) : bool :=
  match x with PFloat FNaN => true | _ => false end.

Definition _to_int (x : pyval) : pyval :=
  if is_none x || is_float_nan x then PNone
  else try_except
         (let! f := py_float x in
          let! n := int_of_float f in
          Ok (PInt n))
         PNone.

(** What [insert_it_pei] hands to [conn.execute]: the column list of the
    statement text and the bound parameters. *)
Record insert_stmt := InsertInto {
  stmt_cols : list string;
  stmt_params : pydict
}.

(** [", ".join(ks)] *)
Fixpoint join_comma (ks : list string) : str :=
  match ks with
  | [] => []
  | [k] => u k
  | k :: r => u k ++ u ", " ++ join_comma r
  end.

Definition required : list string := ["id_ue"; "fecha_recepcion"]%string.

(** [[k for k in required if not record.get(k)]] *)
Definition missing_of (record : pydict) : list string :=
  List.filter (fun k => negb (truthy (get_or record k PNone))) required.

Definition insert_it_pei (record : pydict) : result insert_stmt :=
  match missing_of record with
  | (_ :: _) as missing =>
    Raise (ValueError (u "Faltan campos obligatorios: " ++ join_comma missing))
  | [] =>
    let record := dict_set record "id_ue"
                    (_clean_str (get_or record "id_ue" PNone)) in
    let record := dict_set record "anio"
                    (_to_int (get_or record "anio" PNone)) in
    let record := dict_set record "cantidad_revisiones"
                    (_to_int (get_or record "cantidad_revisiones" PNone)) in
    Ok (InsertInto (dict_keys record) record)
  end.

End Gateway.

(** Modelled from the spec: [update_it_pei], which [app.py] calls and no
    source file defines.  The table maps a row identifier to the row's
    columns; the update applies the fields of the changeset to the row
    with the given identifier and fails with NotFoundError when there is
    none. *)
Definition update_it_pei (table : gmap Z (gmap string pyval)) (id : Z)
    (changes : pydict) : result (gmap Z (gmap string pyval)) :=
  match table !! id with
  | None => Raise NotFoundError
  | Some row => Ok (<[id := list_to_map changes ∪ row]> table)
  end.

(** ** Form Reconciler (the [form_pei] block of [app.py]) *)

(** The pattern of the period field, item by item. *)
Inductive re_item :=
| ReBol
| ReEol
| ReDigit
| ReChar (c : N).

Section Reconciler.
Context {L : PyLib}.

(** [\d] on a [str] pattern: a Unicode decimal digit. *)
Definition is_decimal (c : N) : bool :=
  match decimal_value c with Some _ => true | None => false end.

(** [re.match]: the items in sequence from the start of [s]; [$] holds at
    the end and before a final newline. *)
Fixpoint match_items (items : list re_item) (at_start : bool) (s : str)
    : bool :=
  match items with
  | [] => true
  | ReBol :: r => at_start && match_items r at_start s
  | ReEol :: r =>
    match s with
    | [] | [10%N] => match_items r at_start s
    | _ => false
    end
  | ReDigit :: r =>
    match s with
    | c :: t => is_decimal c && match_items r false t
    | [] => false
    end
  | ReChar a :: r =>
    match s with
    | c :: t => (a =? c)%N && match_items r false t
    | [] => false
    end
  end.

Definition re_match (items : list re_item) (s : str) : bool :=
  match_items items true s.

(** [r"^\d{4}-\d{4}$"] *)
Definition pattern : list re_item :=
  [ReBol] ++ repeat ReDigit 4 ++ [ReChar 45] ++ repeat ReDigit 4 ++ [ReEol].

(** The values the widgets return on a run of the form. *)
Record widgets := {
  tipo_pei : str;
  etapa_revision : str;
  fecha_recepcion : pyval;
  articulacion : pyval;
  fecha_derivacion : pyval;
  periodo : str;
  cantidad_revisiones : Z;
  comentario : str;
  vigencia : str;
  estado : str;
  expediente : str;
  fecha_it : pyval;
  fecha_oficio : pyval;
  numero_it : str;
  numero_oficio : str
}.

(** What the block reads besides the widgets: the edit flags of the
    session, the selected unit's code, the selected responsible, the
    session's user and the current year. *)
Record session := {
  edit_mode : bool;
  edit_id : option Z;
  codigo : str;
  resp_sel : str;
  usuario : pyval;
  year_now : Z
}.

(** [if periodo and not re.match(pattern, periodo)]: the form shows the
    format error. *)
Definition periodo_error (w : widgets) : bool :=
  truthy (PStr (periodo w)) && negb (re_match pattern (periodo w)).

Definition expediente_ok (w : widgets) : bool :=
  truthy (PStr (strip (py_str (PStr (expediente w))))).

Definition fecha_it_ok (w : widgets) : bool := negb (is_none (fecha_it w)).

Definition numero_it_ok (w : widgets) : bool :=
  truthy (PStr (strip (py_str (PStr (numero_it w))))).

Definition puede_emitir (w : widgets) : bool :=
  expediente_ok w && fecha_it_ok w && numero_it_ok w.

(** [edit_mode and edit_id]: the identifier to update, [int(edit_id)],
    when the test holds. *)
Definition update_target (ss : session) : option Z :=
  if edit_mode ss
  then match edit_id ss with
       | Some n => if truthy (PInt n) then Some n else None
       | None => None
       end
  else None.

(** [int(cantidad_revisiones or 0)] *)
Definition revisiones_int (w : widgets) : Z :=
  if truthy (PInt (cantidad_revisiones w)) then cantidad_revisiones w else 0.

Definition cambios (ss : session) (w : widgets) : pydict :=
  [ ("estado"%string, PStr (estado w));
    ("responsable_institucional"%string, PStr (resp_sel ss));
    ("cantidad_revisiones"%string, PInt (revisiones_int w));
    ("fecha_derivacion"%string, fecha_derivacion w);
    ("etapas_revision"%string, PStr (etapa_revision w));
    ("comentario_adicional_emisor_it"%string, PStr (comentario w));
    ("expediente"%string, PStr (expediente w));
    ("fecha_it"%string, fecha_it w);
    ("numero_it"%string, PStr (numero_it w));
    ("fecha_oficio"%string, fecha_oficio w);
    ("numero_oficio"%string, PStr (numero_oficio w)) ].

Definition nuevo_pg (ss : session) (w : widgets) : pydict :=
  [ ("id_ue"%string, PStr (strip (py_str (PStr (codigo ss)))));
    ("anio"%string, PInt (year_now ss));
    ("fecha_recepcion"%string, fecha_recepcion w);
    ("periodo_pei"%string, PStr (periodo w));
    ("vigencia"%string, PStr (vigencia w));
    ("tipo_pei"%string, PStr (tipo_pei w));
    ("articulacion"%string, articulacion w);
    ("estado"%string, PStr (estado w));
    ("responsable_institucional"%string, PStr (resp_sel ss));
    ("cantidad_revisiones"%string, PInt (revisiones_int w));
    ("fecha_derivacion"%string, fecha_derivacion w);
    ("etapas_revision"%string, PStr (etapa_revision w));
    ("comentario_adicional_emisor_it"%string, PStr (comentario w));
    ("expediente"%string, PStr (expediente w));
    ("fecha_it"%string, fecha_it w);
    ("numero_it"%string, PStr (numero_it w));
    ("fecha_oficio"%string, fecha_oficio w);
    ("numero_oficio"%string, PStr (numero_oficio w));
    ("created_by"%string, usuario ss) ].

(** What the [if submitted:] block does: stop with the error of the
    issue check, or call the gateway.  [app.py] names [insert_it_pei] and
    [update_it_pei] without importing them; the calls are read as calls of
    the gateway's operations.  [nombre_ue], computed before the call and
    never used, is left out: the selected option always holds the
    separator it is split on. *)
Inductive submit_step :=
| Stop
| CallUpdate (id : Z) (changes : pydict)
| CallInsert (record : pydict).

Definition on_submit (ss : session) (w : widgets) : submit_step :=
  if str_eqb (estado w) (u "Emitido") && negb (puede_emitir w) then Stop
  else match update_target ss with
       | Some id => CallUpdate id (cambios ss w)
       | None => CallInsert (nuevo_pg ss w)
       end.

End Reconciler.

(** The five fields the form locks in update mode. *)
Definition frozen_keys : list string :=
  ["fecha_recepcion"; "periodo_pei"; "vigencia"; "tipo_pei";
   "articulacion"]%string.

(** [del d[k]] *)
Fixpoint dict_remove (d : pydict) (k : string) : pydict :=
  match d with
  | [] => []
  | (k', v) :: r =>
    if String.eqb k' k then dict_remove r k else (k', v) :: dict_remove r k
  end.

(** ** Sample inputs *)

Definition sample_widgets : widgets := {|
  tipo_pei := u "Formulado";
  etapa_revision := u "Revisión DNCP";
  fecha_recepcion := PDate 2024 1 10;
  articulacion := PStr (u "PEDN 2050");
  fecha_derivacion := PDate 2024 1 12;
  periodo := u "2025-2027";
  cantidad_revisiones := 2;
  comentario := [];
  vigencia := u "Sí";
  estado := u "En proceso";
  expediente := u "2024-0001234";
  fecha_it := PDate 2024 2 1;
  fecha_oficio := PDate 2024 2 2;
  numero_it := u "D000012-2024";
  numero_oficio := u "D000034-2024"
|}.

Definition with_estado (e : str) (w : widgets) : widgets := {|
  tipo_pei := tipo_pei w; etapa_revision := etapa_revision w;
  fecha_recepcion := fecha_recepcion w; articulacion := articulacion w;
  fecha_derivacion := fecha_derivacion w; periodo := periodo w;
  cantidad_revisiones := cantidad_revisiones w; comentario := comentario w;
  vigencia := vigencia w; estado := e; expediente := expediente w;
  fecha_it := fecha_it w; fecha_oficio := fecha_oficio w;
  numero_it := numero_it w; numero_oficio := numero_oficio w
|}.

Definition with_expediente (e : str) (w : widgets) : widgets := {|
  tipo_pei := tipo_pei w; etapa_revision := etapa_revision w;
  fecha_recepcion := fecha_recepcion w; articulacion := articulacion w;
  fecha_derivacion := fecha_derivacion w; periodo := periodo w;
  cantidad_revisiones := cantidad_revisiones w; comentario := comentario w;
  vigencia := vigencia w; estado := estado w; expediente := e;
  fecha_it := fecha_it w; fecha_oficio := fecha_oficio w;
  numero_it := numero_it w; numero_oficio := numero_oficio w
|}.

Definition with_periodo (p : str) (w : widgets) : widgets := {|
  tipo_pei := tipo_pei w; etapa_revision := etapa_revision w;
  fecha_recepcion := fecha_recepcion w; articulacion := articulacion w;
  fecha_derivacion := fecha_derivacion w; periodo := p;
  cantidad_revisiones := cantidad_revisiones w; comentario := comentario w;
  vigencia := vigencia w; estado := estado w; expediente := expediente w;
  fecha_it := fecha_it w; fecha_oficio := fecha_oficio w;
  numero_it := numero_it w; numero_oficio := numero_oficio w
|}.

Definition new_session : session := {|
  edit_mode := false; edit_id := None; codigo := u "23";
  resp_sel := u "DNCP"; usuario := PNone; year_now := 2024
|}.

Definition edit_session : session := {|
  edit_mode := true; edit_id := Some 7; codigo := u "23";
  resp_sel := u "DNCP"; usuario := PNone; year_now := 2024
|}.

Definition blank_expediente_widgets : widgets :=
  with_expediente (u " ") (with_estado (u "Emitido") sample_widgets).

Definition short_period_widgets : widgets :=
  with_periodo (u "25-27") sample_widgets.

Definition sample_record : pydict :=
  [ ("id_ue"%string, PStr (u " 23 "));
    ("fecha_recepcion"%string, PDate 2024 1 10);
    ("estado"%string, PStr (u "En proceso")) ].

Definition empty_unit_record : pydict :=
  [ ("id_ue"%string, PStr []);
    ("fecha_recepcion"%string, PDate 2024 1 10);
    ("estado"%string, PStr (u "En proceso")) ].

Definition sample_table : gmap Z (gmap string pyval) :=
  {[ 7 := {[ "estado"%string := PStr (u "En proceso");
             "periodo_pei"%string := PStr (u "2025-2027") ]} ]}.

Definition legacy_row : pydict :=
  [ ("Estado"%string, PStr (u " EMITIDO "));
    ("vigencia"%string, PStr (u "quizás"));
    ("cantidad_revisiones"%string, PStr (u "3.0"));
    ("fecha_it"%string, PStr (u "   ")) ].

(** ** The form's select boxes *)

Definition tipo_pei_opts : list str :=
  [u "Formulado"; u "Ampliado"; u "Actualizado"].

Definition etapas_opts : list str :=
  [ u "IT Emitido"; u "Para emisión de IT"; u "Revisión DNCP";
    u "Revisión DNSE"; u "Revisión DNPE"; u "Subsanación del pliego" ].

Definition vigencia_opts : list str := [u "Sí"; u "No"].

Definition estado_opts : list str := [u "En proceso"; u "Emitido"].

(** [opciones_articulacion], chosen by the unit's government level. *)
Definition opciones_articulacion (nivel : str) : list str :=
  if str_eqb nivel (u "Gobierno regional")
  then [u "PEDN 2050"; u "PDRC"]
  else if str_eqb nivel (u "Gobierno nacional")
  then [u "PEDN 2050"; u "PESEM NO vigente"; u "PESEM vigente"]
  else if str_eqb nivel (u "Municipalidad distrital")
          || str_eqb nivel (u "Municipalidad provincial")
  then [u "PEDN 2050"; u "PDRC"; u "PDLC Provincial"; u "PDLC Distrital"]
  else [].

(** [o == value] for an option [o], a [str]. *)
Definition eq_str_val (o : str) (value : pyval) : bool :=
  match value with
  | PStr s => str_eqb o s
  | _ => false
  end.

(** [options.index(value)]: a ValueError when no option equals the
    value. *)
Fixpoint list_index (options : list str) (value : pyval) : result nat :=
  match options with
  | [] => Raise (ValueError [])
  | o :: r =>
    if eq_str_val o value then Ok 0%nat
    else (let! i := list_index r value in Ok (S i))
  end.

Definition index_of (options : list str) (value : pyval) (fallback : nat)
    : nat :=
  try_except (list_index options value) fallback.

(** The index given to the Articulación select box:
    [index_of(...) if opciones_articulacion else 0]. *)
Definition articulacion_index (nivel : str) (form : pydict) : nat :=
  match opciones_articulacion nivel with
  | [] => 0%nat
  | (_ :: _) as opts => index_of opts (get_or form "articulacion" PNone) 0
  end.

(** ** Session state *)

(** What [st.session_state] holds under [FORM_STATE_KEY]: a dict or
    something else. *)
Inductive slot :=
| SlotDict (d : pydict)
| SlotOther (v : pyval).

(** The entries of [st.session_state] the script uses; [None] is an
    absent entry. *)
Record app_state := {
  st_modo : option str;
  st_form : option slot;
  st_edit_mode : option bool;
  st_edit_id : option (option Z);
  st_usuario : option pyval
}.

Definition with_form (f : slot) (st : app_state) : app_state := {|
  st_modo := st_modo st; st_form := Some f;
  st_edit_mode := st_edit_mode st; st_edit_id := st_edit_id st;
  st_usuario := st_usuario st
|}.

Definition with_modo (m : str) (st : app_state) : app_state := {|
  st_modo := Some m; st_form := st_form st;
  st_edit_mode := st_edit_mode st; st_edit_id := st_edit_id st;
  st_usuario := st_usuario st
|}.

Definition with_edit (mode : bool) (id : option Z) (st : app_state)
    : app_state := {|
  st_modo := st_modo st; st_form := st_form st;
  st_edit_mode := Some mode; st_edit_id := Some id;
  st_usuario := st_usuario st
|}.

(** [d.setdefault(k, v)] *)
Definition dict_setdefault (d : pydict) (k : string) (v : pyval) : pydict :=
  match dict_get d k with
  | Some _ => d
  | None => dict_set d k v
  end.

Definition init_form_state (st : app_state) : app_state :=
  match st_form st with
  | Some (SlotDict d) =>
    with_form
      (SlotDict (fold_left (fun acc kv => dict_setdefault acc (fst kv) (snd kv))
                   FORM_DEFAULTS d)) st
  | _ => with_form (SlotDict FORM_DEFAULTS) st
  end.

Definition reset_form_state (st : app_state) : app_state :=
  with_form (SlotDict FORM_DEFAULTS) st.

(** [form = st.session_state[FORM_STATE_KEY]] after [init_form_state]. *)
Definition form_of (st : app_state) : pydict :=
  match st_form st with
  | Some (SlotDict d) => d
  | _ => []
  end.

(** The button "Historial PEI". *)
Definition click_historial (st : app_state) : app_state :=
  with_modo (u "historial") st.

(** The button "Nuevo registro". *)
Definition click_nuevo (st : app_state) : app_state :=
  reset_form_state (with_modo (u "nuevo") st).

(** How the button that loads the latest record ends: done, or stopped at
    [ultimo["id"]] (KeyError), or at [int(...)] of it. *)
Inductive load_outcome :=
| Loaded
| IdMissing
| IdNotInt (e : exn).

Section Session.
Context {L : PyLib}.

(** The button "Cargar último registro disponible al formulario"; the
    state is the one reached when the handler ends or raises. *)
Definition click_cargar (st : app_state) (ultimo : pydict)
    : app_state * load_outcome :=
  let st := init_form_state st in
  let st := with_form (SlotDict (set_form_state_from_row ultimo)) st in
  let st := {| st_modo := st_modo st; st_form := st_form st;
               st_edit_mode := Some true; st_edit_id := st_edit_id st;
               st_usuario := st_usuario st |} in
  match dict_get ultimo "id" with
  | None => (st, IdMissing)
  | Some v =>
    match py_int v with
    | Raise e => (st, IdNotInt e)
    | Ok n =>
      (with_modo (u "nuevo")
         {| st_modo := st_modo st; st_form := st_form st;
            st_edit_mode := st_edit_mode st; st_edit_id := Some (Some n);
            st_usuario := st_usuario st |},
       Loaded)
    end
  end.

(** What the form block reads from the session and from the selection. *)
Definition session_of (st : app_state) (codigo resp_sel : str)
    (year_now : Z) : session := {|
  edit_mode := match st_edit_mode st with Some b => b | None => false end;
  edit_id := match st_edit_id st with Some i => i | None => None end;
  codigo := codigo;
  resp_sel := resp_sel;
  usuario := match st_usuario st with Some v => v | None => PNone end;
  year_now := year_now
|}.

(** A pressed submit button in mode "nuevo": the [if submitted:] block
    with the gateway call [store]; after a call that returns the mode goes
    back to the history and the edit flags are cleared, after one that
    raises the error is shown and nothing is written. *)
Definition submit_form (st : app_state) (codigo resp_sel : str)
    (year_now : Z) (w : widgets) (store : submit_step -> result unit)
    : app_state :=
  match on_submit (session_of st codigo resp_sel year_now) w with
  | Stop => st
  | step =>
    match store step with
    | Ok _ => with_edit false None (with_modo (u "historial") st)
    | Raise _ => st
    end
  end.

(** The key of the history query, [normalizar_codigo(codigo)], and the
    key an insert writes, [nuevo_pg["id_ue"]]. *)
Definition codigo_norm (codigo : str) : str := normalizar_codigo (PStr codigo).

Definition option_label (codigo nombre : pyval) : str :=
  strip (py_str codigo) ++ u " - " ++ strip (py_str nombre).

End Session.

(** ** The selected option *)

(** [s] begins with [p]. *)
Fixpoint has_prefix (p s : str) : bool :=
  match p, s with
  | [], _ => true
  | a :: p', b :: s' => (a =? b)%N && has_prefix p' s'
  | _ :: _, [] => false
  end.

(** [s.split(sep)] for a separator that is not empty: [cur] holds the
    current part in reverse, [skip] counts the characters of a separator
    still to pass. *)
Fixpoint split_from (sep : str) (cur : str) (skip : nat) (s : str)
    : list str :=
  match s with
  | [] => [rev cur]
  | c :: r =>
    match skip with
    | S k => split_from sep cur k r
    | O =>
      if has_prefix sep s
      then rev cur :: split_from sep [] (length sep - 1) r
      else split_from sep (c :: cur) 0 r
    end
  end.

Definition split (sep s : str) : list str := split_from sep [] 0 s.

(** [seleccion.split(" - ")[0].strip()] *)
Definition selected_code (seleccion : str) : str :=
  strip (hd [] (split (u " - ") seleccion)).

(** [seleccion.split(" - ")[1].strip()]; [None] is the IndexError. *)
Definition selected_name (seleccion : str) : option str :=
  option_map strip (nth_error (split (u " - ") seleccion) 1).

(** ** [search_history] *)

(** One optional filter: when [filters.get(key)] is truthy, its clause is
    appended and its value bound under [name]. *)
Definition add_filter (filters : pydict) (key clause name : string)
    (acc : list string * pydict) : list string * pydict :=
  if truthy (get_or filters key PNone)
  then (fst acc ++ [clause], dict_set (snd acc) name (get_or filters key PNone))
  else acc.

Definition search_where (filters : pydict) : list string * pydict :=
  let acc := ([], []) in
  let acc := add_filter filters "id_ue" "id_ue = :id_ue" "id_ue" acc in
  let acc := add_filter filters "estado" "estado = :estado" "estado" acc in
  let acc := add_filter filters "tipo_pei" "tipo_pei = :tipo_pei" "tipo_pei"
               acc in
  let acc := add_filter filters "fecha_recepcion_desde"
               "fecha_recepcion >= :fr_desde" "fr_desde" acc in
  let acc := add_filter filters "fecha_recepcion_hasta"
               "fecha_recepcion <= :fr_hasta" "fr_hasta" acc in
  acc.

(** [" AND ".join(where)] *)
Fixpoint join_and (clauses : list string) : string :=
  match clauses with
  | [] => ""
  | [c] => c
  | c :: r => c ++ " AND " ++ join_and r
  end.

Definition where_sql (clauses : list string) : string :=
  match clauses with
  | [] => ""
  | _ :: _ => "WHERE " ++ join_and clauses
  end.

(** The f-string of the query, with [where_sql] in its place. *)
Definition query_text (filled : string) : string :=
  ("
        SELECT
          id, id_ue,
          anio, ng1, ng2, fecha_recepcion, periodo_pei, vigencia, tipo_pei, estado,
          responsable_institucional, cantidad_revisiones, fecha_derivacion, etapas_revision,
          comentario_adicional_emisor_it, articulacion, expediente, fecha_it, numero_it,
          fecha_oficio, numero_oficio,
          created_at, created_by
        FROM it_pei_historial
        " ++ filled ++ "
        ORDER BY fecha_recepcion DESC NULLS LAST, created_at DESC
        LIMIT :limit
    ")%string.

(** The text and the parameters [search_history] hands to [pd.read_sql]. *)
Definition search_history (filters : pydict) (limit : pyval)
    : string * pydict :=
  let (clauses, params) := search_where filters in
  let params := dict_set params "limit" limit in
  (query_text (where_sql clauses), params).

(** [sub in s] *)
Fixpoint occurs_in (sub s : string) : bool :=
  String.prefix sub s
  || match s with
     | EmptyString => false
     | String _ r => occurs_in sub r
     end.

(** The form's select boxes over a fixed list: the key of the form state
    each starts from and its options. *)
Definition select_boxes : list (string * list str) :=
  [ ("tipo_pei", tipo_pei_opts);
    ("etapa_revision", etapas_opts);
    ("vigencia", vigencia_opts);
    ("estado", estado_opts) ]%string.

(** ** More sample inputs *)

Definition blank_unit_record : pydict :=
  [ ("id_ue"%string, PStr (u "   "));
    ("fecha_recepcion"%string, PDate 2024 1 10) ].

Definition empty_state : app_state := {|
  st_modo := None; st_form := None; st_edit_mode := None;
  st_edit_id := None; st_usuario := None
|}.

Definition partial_state : app_state :=
  with_form (SlotDict [("estado"%string, PStr (u "Emitido"))]) empty_state.

Definition stored_row : pydict :=
  [ ("id"%string, PInt 7);
    ("estado"%string, PStr (u "Emitido"));
    ("periodo_pei"%string, PStr (u "2025-2027")) ].

Definition sample_filters : pydict :=
  [ ("id_ue"%string, PStr (u "23")); ("estado"%string, PStr []) ].

Definition padded_session : session := {|
  edit_mode := false; edit_id := None; codigo := u "023";
  resp_sel := u "DNCP"; usuario := PNone; year_now := 2024
|}.

(** ** Tactics *)

(** One case for each entry of [logical_fields]; each holds by
    computation. *)
Ltac each_field H :=
  simpl in H;
  repeat (destruct H as [H|H]; [injection H as <- <- <-; reflexivity|]);
  contradiction.

(** Membership in a list written out, by position. *)
Ltac pick_field := repeat (first [left; reflexivity | right]).

(** * Properties *)

(** ** Dictionaries *)

Lemma dict_get_set_eq (d : pydict) (k : string) (v : pyval) :
  dict_get (dict_set d k v) k = Some v.
Proof.
  induction d as [|[k' v'] r IH]; simpl.
  - now rewrite String.eqb_refl.
  - destruct (String.eqb k' k) eqn:E; simpl.
    + now rewrite String.eqb_refl.
    + now rewrite E.
Qed.

Lemma dict_get_set_ne (d : pydict) (k k' : string) (v : pyval) :
  k <> k' -> dict_get (dict_set d k v) k' = dict_get d k'.
Proof.
  intros Hne. induction d as [|[k0 v0] r IH]; simpl.
  - destruct (String.eqb k k') eqn:E; [|reflexivity].
    apply String.eqb_eq in E. contradiction.
  - destruct (String.eqb k0 k) eqn:E; simpl.
    + apply String.eqb_eq in E. subst k0.
      destruct (String.eqb k k') eqn:E'; [|reflexivity].
      apply String.eqb_eq in E'. contradiction.
    + destruct (String.eqb k0 k'); [reflexivity|exact IH].
Qed.

Lemma dict_get_remove_eq (d : pydict) (k : string) :
  dict_get (dict_remove d k) k = None.
Proof.
  induction d as [|[k' v'] r IH]; simpl; [reflexivity|].
  destruct (String.eqb k' k) eqn:E; simpl; [exact IH|].
  now rewrite E.
Qed.

Lemma dict_get_remove_ne (d : pydict) (k k' : string) :
  k <> k' -> dict_get (dict_remove d k) k' = dict_get d k'.
Proof.
  intros Hne. induction d as [|[k0 v0] r IH]; simpl; [reflexivity|].
  destruct (String.eqb k0 k) eqn:E; simpl.
  - apply String.eqb_eq in E. subst k0.
    destruct (String.eqb k k') eqn:E'; [|exact IH].
    apply String.eqb_eq in E'. contradiction.
  - destruct (String.eqb k0 k'); [reflexivity|exact IH].
Qed.

Lemma dict_get_in_keys (d : pydict) (k : string) :
  dict_get d k = None <-> ~ In k (dict_keys d).
Proof.
  induction d as [|[k' v'] r IH]; simpl.
  - tauto.
  - destruct (String.eqb k' k) eqn:E.
    + apply String.eqb_eq in E. split; [discriminate|tauto].
    + apply String.eqb_neq in E. rewrite IH. tauto.
Qed.

Lemma list_to_map_dict_get (d : pydict) (k : string) :
  (list_to_map d : gmap string pyval) !! k = dict_get d k.
Proof.
  induction d as [|[k' v'] r IH]; simpl.
  - apply lookup_empty.
  - destruct (String.eqb k' k) eqn:E.
    + apply String.eqb_eq in E. subst. apply lookup_insert_eq.
    + apply String.eqb_neq in E. rewrite lookup_insert_ne; [exact IH|exact E].
Qed.

(** ** Form Reconciler *)

Section ReconcilerFacts.
Context {L : PyLib}.

Lemma on_submit_update_inv (ss : session) (w : widgets) (id : Z)
    (changes : pydict) :
  on_submit ss w = CallUpdate id changes ->
  update_target ss = Some id /\ changes = cambios ss w.
Proof.
  unfold on_submit.
  destruct (str_eqb (estado w) (u "Emitido") && negb (puede_emitir w));
    [discriminate|].
  destruct (update_target ss) as [n|]; [|discriminate].
  intros H. injection H as -> <-. split; reflexivity.
Qed.

(** C1: in update mode the changeset handed to the update operation holds
    none of [fecha_recepcion], [periodo_pei], [vigencia], [tipo_pei] and
    [articulacion], whatever the form holds. *)
Theorem update_changeset_excludes_frozen (ss : session) (w : widgets)
    (id : Z) (changes : pydict) :
  on_submit ss w = CallUpdate id changes ->
  forall k, In k frozen_keys ->
    dict_get changes k = None /\ ~ In k (dict_keys changes).
Proof.
  intros H k Hk.
  apply on_submit_update_inv in H as [_ ->].
  assert (Hnone : dict_get (cambios ss w) k = None).
  { simpl in Hk.
    destruct Hk as [<-|[<-|[<-|[<-|[<-|[]]]]]]; reflexivity. }
  split; [exact Hnone|].
  apply dict_get_in_keys. exact Hnone.
Qed.

End ReconcilerFacts.

Lemma update_changeset_excludes_frozen_witness :
  @on_submit narrow_lib edit_session sample_widgets
    = CallUpdate 7 (cambios edit_session sample_widgets)
  /\ forall k, In k frozen_keys ->
       dict_get (cambios edit_session sample_widgets) k = None
       /\ ~ In k (dict_keys (cambios edit_session sample_widgets)).
Proof.
  split; [reflexivity|].
  apply (@update_changeset_excludes_frozen narrow_lib edit_session
           sample_widgets 7).
  reflexivity.
Defined.

Section IssueCheck.
Context {L : PyLib}.

Lemma strip_nil : strip [] = [].
Proof. reflexivity. Qed.

Lemma puede_emitir_true (w : widgets) :
  puede_emitir w = true <->
  strip (expediente w) <> [] /\ fecha_it w <> PNone
  /\ strip (numero_it w) <> [].
Proof.
  unfold puede_emitir, expediente_ok, fecha_it_ok, numero_it_ok.
  cbn [py_str]. rewrite !andb_true_iff, negb_true_iff.
  assert (Hs : forall s, truthy (PStr s) = true <-> s <> []).
  { intros s. destruct s; simpl; split; congruence. }
  rewrite !Hs.
  assert (Hn : is_none (fecha_it w) = false <-> fecha_it w <> PNone).
  { destruct (fecha_it w); simpl; split; congruence. }
  rewrite Hn. tauto.
Qed.

Lemma on_submit_issued (ss : session) (w : widgets) :
  estado w = u "Emitido" ->
  on_submit ss w =
    if puede_emitir w
    then match update_target ss with
         | Some id => CallUpdate id (cambios ss w)
         | None => CallInsert (nuevo_pg ss w)
         end
    else Stop.
Proof.
  intros He. unfold on_submit. rewrite He.
  unfold str_eqb. rewrite bool_decide_eq_true_2 by reflexivity.
  destruct (puede_emitir w); reflexivity.
Qed.

(** C3 (amended): with status Emitido, a submission whose expediente or
    numero_it is empty or blank, or whose fecha_it is absent, stops before
    any store call; one whose expediente and numero_it are not blank and
    whose fecha_it is present goes on to the store call. *)
Theorem issue_check_gates_store_call (ss : session) (w : widgets) :
  estado w = u "Emitido" ->
  (expediente w = [] \/ numero_it w = [] \/ fecha_it w = PNone ->
   on_submit ss w = Stop)
  /\ (strip (expediente w) = [] \/ strip (numero_it w) = []
      \/ fecha_it w = PNone -> on_submit ss w = Stop)
  /\ (strip (expediente w) <> [] -> strip (numero_it w) <> [] ->
      fecha_it w <> PNone ->
      on_submit ss w =
        match update_target ss with
        | Some id => CallUpdate id (cambios ss w)
        | None => CallInsert (nuevo_pg ss w)
        end).
Proof.
  intros He. rewrite (on_submit_issued ss w He).
  assert (Hblank : strip (expediente w) = [] \/ strip (numero_it w) = []
                   \/ fecha_it w = PNone -> puede_emitir w = false).
  { intros H. destruct (puede_emitir w) eqn:E; [|reflexivity].
    apply puede_emitir_true in E as (H1 & H2 & H3).
    destruct H as [H|[H|H]]; contradiction. }
  split; [|split].
  - intros H. rewrite Hblank; [reflexivity|].
    destruct H as [H|[H|H]]; [left|right; left|right; right];
      try rewrite H; auto using strip_nil.
  - intros H. now rewrite Hblank.
  - intros H1 H2 H3.
    assert (E : puede_emitir w = true) by (apply puede_emitir_true; tauto).
    now rewrite E.
Qed.

End IssueCheck.

Lemma issue_check_gates_store_call_witness :
  estado (with_estado (u "Emitido") sample_widgets) = u "Emitido"
  /\ @on_submit narrow_lib new_session
       (with_estado (u "Emitido") sample_widgets)
     = CallInsert
         (@nuevo_pg narrow_lib new_session
            (with_estado (u "Emitido") sample_widgets))
  /\ @on_submit narrow_lib new_session
       (with_expediente [] (with_estado (u "Emitido") sample_widgets))
     = Stop.
Proof.
  split; [reflexivity|]. split.
  - apply (proj2 (proj2 (@issue_check_gates_store_call narrow_lib new_session
                           (with_estado (u "Emitido") sample_widgets)
                           eq_refl)));
      vm_compute; discriminate.
  - apply (proj1 (@issue_check_gates_store_call narrow_lib new_session
                    (with_expediente []
                       (with_estado (u "Emitido") sample_widgets))
                    eq_refl)).
    left. reflexivity.
Defined.

(** C3 as stated fails: an expediente of one blank is not empty, the other
    two fields are filled, and the submission still stops. *)
Lemma issue_check_blank_expediente_stops :
  estado blank_expediente_widgets = u "Emitido"
  /\ expediente blank_expediente_widgets <> []
  /\ numero_it blank_expediente_widgets <> []
  /\ fecha_it blank_expediente_widgets <> PNone
  /\ @on_submit narrow_lib new_session blank_expediente_widgets = Stop.
Proof. vm_compute. repeat split; discriminate. Qed.

(** ** History Store Gateway *)

Section GatewayFacts.
Context {L : PyLib}.

Lemma missing_of_nil (record : pydict) :
  missing_of record = [] <->
  truthy (get_or record "id_ue" PNone) = true
  /\ truthy (get_or record "fecha_recepcion" PNone) = true.
Proof.
  unfold missing_of, required. simpl.
  destruct (truthy (get_or record "id_ue" PNone));
    destruct (truthy (get_or record "fecha_recepcion" PNone));
    simpl; split; intros H; try discriminate; try tauto;
    destruct H; discriminate.
Qed.

Lemma missing_of_in (record : pydict) (k : string) :
  In k (missing_of record) <->
  In k required /\ truthy (get_or record k PNone) = false.
Proof.
  unfold missing_of. rewrite filter_In, negb_true_iff. tauto.
Qed.

Lemma insert_raises_iff_missing (record : pydict) :
  missing_of record <> [] ->
  insert_it_pei record =
    Raise (ValueError (u "Faltan campos obligatorios: "
                         ++ join_comma (missing_of record))).
Proof.
  intros H. unfold insert_it_pei.
  destruct (missing_of record); [contradiction|reflexivity].
Qed.

Lemma insert_ok_params (record : pydict) :
  missing_of record = [] ->
  exists stmt,
    insert_it_pei record = Ok stmt
    /\ stmt_cols stmt = dict_keys (stmt_params stmt)
    /\ dict_get (stmt_params stmt) "id_ue"
       = Some (_clean_str (get_or record "id_ue" PNone))
    /\ dict_get (stmt_params stmt) "anio"
       = Some (_to_int (get_or record "anio" PNone))
    /\ dict_get (stmt_params stmt) "cantidad_revisiones"
       = Some (_to_int (get_or record "cantidad_revisiones" PNone))
    /\ forall k : string,
         k <> "id_ue"%string -> k <> "anio"%string ->
         k <> "cantidad_revisiones"%string ->
         dict_get (stmt_params stmt) k = dict_get record k.
Proof.
  intros H. unfold insert_it_pei. rewrite H.
  eexists. split; [reflexivity|]. simpl.
  split; [reflexivity|].
  assert (Hanio : forall d v, get_or (dict_set d "id_ue" v) "anio" PNone
                    = get_or d "anio" PNone).
  { intros d v. unfold get_or. rewrite dict_get_set_ne; [reflexivity|].
    discriminate. }
  assert (Hcant : forall d v w,
             get_or (dict_set (dict_set d "id_ue" v) "anio" w)
               "cantidad_revisiones" PNone
             = get_or d "cantidad_revisiones" PNone).
  { intros d v w. unfold get_or.
    rewrite !dict_get_set_ne by discriminate. reflexivity. }
  rewrite Hanio, Hcant.
  repeat split.
  - rewrite !dict_get_set_ne by discriminate. apply dict_get_set_eq.
  - rewrite dict_get_set_ne by discriminate. apply dict_get_set_eq.
  - apply dict_get_set_eq.
  - intros k H1 H2 H3.
    rewrite !dict_get_set_ne by congruence. reflexivity.
Qed.

(** C4 (amended): [insert_it_pei] raises its ValueError, and hands no
    statement to the engine, when [id_ue] or [fecha_recepcion] is absent;
    when both are present and truthy it hands over one INSERT whose
    columns are the keys of its parameters, with [id_ue] bound to
    [_clean_str] of it (its trimmed string form, or None when that is
    blank), [anio] and [cantidad_revisiones] coerced to int, and every
    other field as supplied. *)
Theorem insert_requires_unit_and_reception (record : pydict) :
  (dict_get record "id_ue" = None \/ dict_get record "fecha_recepcion" = None ->
   exists msg, insert_it_pei record = Raise (ValueError msg))
  /\ (forall v1 v2,
        dict_get record "id_ue" = Some v1 ->
        dict_get record "fecha_recepcion" = Some v2 ->
        truthy v1 = true -> truthy v2 = true ->
        exists stmt,
          insert_it_pei record = Ok stmt
          /\ stmt_cols stmt = dict_keys (stmt_params stmt)
          /\ dict_get (stmt_params stmt) "id_ue" = Some (_clean_str v1)
          /\ dict_get (stmt_params stmt) "anio"
             = Some (_to_int (get_or record "anio" PNone))
          /\ dict_get (stmt_params stmt) "cantidad_revisiones"
             = Some (_to_int (get_or record "cantidad_revisiones" PNone))
          /\ forall k : string,
               k <> "id_ue"%string -> k <> "anio"%string ->
               k <> "cantidad_revisiones"%string ->
               dict_get (stmt_params stmt) k = dict_get record k).
Proof.
  split.
  - intros H. eexists. apply insert_raises_iff_missing.
    intros Hnil. apply missing_of_nil in Hnil as [H1 H2].
    unfold get_or in H1, H2.
    destruct H as [H|H]; rewrite H in *; discriminate.
  - intros v1 v2 H1 H2 T1 T2.
    destruct (insert_ok_params record) as (stmt & Hs).
    { apply missing_of_nil. unfold get_or. now rewrite H1, H2. }
    exists stmt. unfold get_or in Hs at 1. rewrite H1 in Hs. exact Hs.
Qed.

(** C10: a required key bound to a falsy value is reported exactly as an
    absent one: the same ValueError, naming the key, and no statement. *)
Theorem insert_falsy_required_as_absent (record : pydict) (k : string)
    (v : pyval) :
  In k required ->
  dict_get record k = Some v ->
  truthy v = false ->
  insert_it_pei record = insert_it_pei (dict_remove record k)
  /\ In k (missing_of record)
  /\ insert_it_pei record =
       Raise (ValueError (u "Faltan campos obligatorios: "
                            ++ join_comma (missing_of record))).
Proof.
  intros Hk Hget Hv.
  assert (Hin : In k (missing_of record)).
  { apply missing_of_in. split; [exact Hk|].
    unfold get_or. now rewrite Hget. }
  assert (Hsame : missing_of (dict_remove record k) = missing_of record).
  { unfold missing_of. apply filter_ext_in_iff. intros k' _.
    f_equal. unfold get_or.
    destruct (string_dec k k') as [<-|Hne].
    - rewrite dict_get_remove_eq, Hget. simpl. now rewrite Hv.
    - now rewrite dict_get_remove_ne. }
  assert (Hne : missing_of record <> []).
  { intros E. rewrite E in Hin. contradiction. }
  repeat split; [|exact Hin|now apply insert_raises_iff_missing].
  rewrite (insert_raises_iff_missing record Hne).
  rewrite insert_raises_iff_missing by now rewrite Hsame.
  now rewrite Hsame.
Qed.

End GatewayFacts.

Lemma insert_requires_unit_and_reception_witness :
  (exists msg,
     @insert_it_pei narrow_lib [("id_ue"%string, PStr (u "23"))]
     = Raise (ValueError msg))
  /\ exists stmt,
       @insert_it_pei narrow_lib sample_record = Ok stmt
       /\ stmt_cols stmt
          = ["id_ue"; "fecha_recepcion"; "estado"; "anio";
             "cantidad_revisiones"]%string
       /\ dict_get (stmt_params stmt) "id_ue" = Some (PStr (u "23"))
       /\ dict_get (stmt_params stmt) "estado"
          = Some (PStr (u "En proceso")).
Proof.
  split.
  - apply (proj1 (@insert_requires_unit_and_reception narrow_lib
                    [("id_ue"%string, PStr (u "23"))])).
    right. reflexivity.
  - destruct (proj2 (@insert_requires_unit_and_reception narrow_lib
                       sample_record)
                (PStr (u " 23 ")) (PDate 2024 1 10)
                eq_refl eq_refl eq_refl eq_refl)
      as (stmt & Hok & Hcols & Hid & _ & _ & Hrest).
    exists stmt. split; [exact Hok|].
    split; [|split].
    + vm_compute in Hok. injection Hok as <-. reflexivity.
    + exact Hid.
    + rewrite Hrest by discriminate. reflexivity.
Defined.

(** C4 as stated fails: both required keys are present, the unit code is
    the empty string, and the insert raises instead of persisting. *)
Lemma insert_present_but_empty_raises :
  dict_get empty_unit_record "id_ue" = Some (PStr [])
  /\ dict_get empty_unit_record "fecha_recepcion" = Some (PDate 2024 1 10)
  /\ @insert_it_pei narrow_lib empty_unit_record
     = Raise (ValueError (u "Faltan campos obligatorios: id_ue")).
Proof. vm_compute. repeat split. Qed.

Lemma insert_falsy_required_as_absent_witness :
  @insert_it_pei narrow_lib empty_unit_record
  = @insert_it_pei narrow_lib (dict_remove empty_unit_record "id_ue")
  /\ In "id_ue"%string (missing_of empty_unit_record)
  /\ @insert_it_pei narrow_lib empty_unit_record
     = Raise (ValueError
                (u "Faltan campos obligatorios: "
                   ++ join_comma (missing_of empty_unit_record))).
Proof.
  apply (@insert_falsy_required_as_absent narrow_lib empty_unit_record
           "id_ue" (PStr [])).
  - left. reflexivity.
  - reflexivity.
  - reflexivity.
Defined.

Section PeriodCheck.
Context {L : PyLib}.

(** The submit block never reads the period: whatever it holds, the
    block stops or calls the gateway as before, and an insert carries the
    period as typed. *)
Lemma on_submit_period_blind (ss : session) (w : widgets) (p : str) :
  on_submit ss (with_periodo p w) =
    match on_submit ss w with
    | Stop => Stop
    | CallUpdate id changes => CallUpdate id changes
    | CallInsert _ => CallInsert (nuevo_pg ss (with_periodo p w))
    end.
Proof.
  unfold on_submit, puede_emitir, expediente_ok, fecha_it_ok, numero_it_ok.
  cbn [with_periodo estado expediente fecha_it numero_it].
  destruct (str_eqb (estado w) (u "Emitido") && _); [reflexivity|].
  destruct (update_target ss); reflexivity.
Qed.

End PeriodCheck.

(** C2: the format error of the period field is shown and nothing else
    follows from it.  With a new record and the period [25-27] the error
    is shown, the submit block still calls the insert, and the insert
    binds [25-27] to [periodo_pei]; [2025-2027] matches the pattern. *)
Theorem malformed_period_reaches_insert :
  @re_match narrow_lib pattern (u "2025-2027") = true
  /\ @re_match narrow_lib pattern (u "25-27") = false
  /\ @periodo_error narrow_lib short_period_widgets = true
  /\ @on_submit narrow_lib new_session short_period_widgets
     = CallInsert (@nuevo_pg narrow_lib new_session short_period_widgets)
  /\ exists stmt,
       @insert_it_pei narrow_lib
         (@nuevo_pg narrow_lib new_session short_period_widgets) = Ok stmt
       /\ dict_get (stmt_params stmt) "periodo_pei"
          = Some (PStr (u "25-27")).
Proof.
  repeat split; try reflexivity.
  eexists. split; [vm_compute; reflexivity|reflexivity].
Qed.

(** ** The update operation *)

(** C5: the update applies the fields of the changeset to the row with
    the given identifier, leaves that row's other fields and every other
    row as they were, and fails with NotFoundError when no row has the
    identifier. *)
Theorem update_applies_changeset (table : gmap Z (gmap string pyval))
    (id : Z) (changes : pydict) :
  (table !! id = None -> update_it_pei table id changes = Raise NotFoundError)
  /\ (forall row, table !! id = Some row ->
      exists table' row',
        update_it_pei table id changes = Ok table'
        /\ table' !! id = Some row'
        /\ (forall k v, dict_get changes k = Some v -> row' !! k = Some v)
        /\ (forall k, dict_get changes k = None -> row' !! k = row !! k)
        /\ (forall id', id' <> id -> table' !! id' = table !! id')).
Proof.
  unfold update_it_pei. split.
  - intros ->. reflexivity.
  - intros row ->. eexists _, _. split; [reflexivity|].
    split; [apply lookup_insert_eq|].
    split; [|split].
    + intros k v Hk. apply lookup_union_Some_l.
      now rewrite list_to_map_dict_get.
    + intros k Hk. apply lookup_union_r.
      now rewrite list_to_map_dict_get.
    + intros id' Hne. now apply lookup_insert_ne.
Qed.

Lemma update_applies_changeset_witness :
  update_it_pei sample_table 8 (cambios edit_session sample_widgets)
    = Raise NotFoundError
  /\ exists table' row',
       update_it_pei sample_table 7
         [("estado"%string, PStr (u "Emitido"))] = Ok table'
       /\ table' !! 7 = Some row'
       /\ row' !! "estado"%string = Some (PStr (u "Emitido"))
       /\ row' !! "periodo_pei"%string = Some (PStr (u "2025-2027")).
Proof.
  split.
  - apply (proj1 (update_applies_changeset sample_table 8
                    (cambios edit_session sample_widgets))).
    reflexivity.
  - destruct (proj2 (update_applies_changeset sample_table 7
                       [("estado"%string, PStr (u "Emitido"))])
                {[ "estado"%string := PStr (u "En proceso");
                   "periodo_pei"%string := PStr (u "2025-2027") ]})
      as (table' & row' & Hok & Hrow & Hset & Hkeep & _).
    { unfold sample_table. apply lookup_singleton_eq. }
    exists table', row'. split; [exact Hok|]. split; [exact Hrow|].
    split.
    + apply Hset. reflexivity.
    + rewrite Hkeep by reflexivity.
      rewrite lookup_insert_ne by discriminate.
      apply lookup_insert_eq.
Defined.

(** ** Field Normalizer: trimming *)

Lemma drop_while_split (p : N -> bool) (s : str) :
  exists l,
    s = l ++ drop_while p s /\ forallb p l = true
    /\ forall c t, drop_while p s = c :: t -> p c = false.
Proof.
  induction s as [|c r (l & Hs & Hl & Hhd)]; simpl.
  - exists []. repeat split. discriminate.
  - destruct (p c) eqn:E.
    + exists (c :: l). simpl. rewrite E, Hl. repeat split; [|exact Hhd].
      now rewrite <- Hs.
    + exists []. repeat split. intros c' t [= <- _]. exact E.
Qed.

Lemma forallb_rev (p : N -> bool) (l : str) :
  forallb p (rev l) = forallb p l.
Proof.
  induction l as [|c r IH]; simpl; [reflexivity|].
  rewrite forallb_app, IH. simpl. rewrite andb_true_r. apply andb_comm.
Qed.

Lemma strip_with_spec (p : N -> bool) (s : str) :
  trimmed_of p s (strip_with p s).
Proof.
  unfold strip_with.
  destruct (drop_while_split p s) as (l & Hs & Hl & Hhd).
  destruct (drop_while_split p (rev (drop_while p s)))
    as (r & Hr & Hrp & Hlast).
  set (a := drop_while p s) in *.
  set (b := drop_while p (rev a)) in *.
  assert (Ha : a = rev b ++ rev r).
  { rewrite <- rev_app_distr, <- Hr. symmetry. apply rev_involutive. }
  exists l, (rev r). repeat split.
  - now rewrite <- Ha.
  - exact Hl.
  - now rewrite forallb_rev.
  - intros c t' Hb. apply (Hhd c (t' ++ rev r)).
    rewrite Ha, Hb. reflexivity.
  - intros c t' Hb. apply (Hlast c (rev t')).
    rewrite <- (rev_involutive b), Hb, rev_app_distr. reflexivity.
Qed.

Lemma strip_with_sub (P : N -> Prop) (p : N -> bool) (s : str) :
  Forall P s -> Forall P (strip_with p s).
Proof.
  intros H. destruct (strip_with_spec p s) as (l & r & Hs & _).
  rewrite Hs in H. apply Forall_app in H as [_ H].
  now apply Forall_app in H as [H _].
Qed.

Section CleanString.
Context {L : PyLib}.

(** C9 (amended): [_safe_str] returns the trimmed string form of every
    value that is not missing and the empty string for a missing one;
    [_clean_str] returns the trimmed string form when it is not empty, and
    None both for None and for a value whose string form is blank. *)
Theorem clean_string_forms (x : pyval) :
  (isna x = true -> _safe_str x = [])
  /\ (isna x = false ->
      _safe_str x = strip (py_str x)
      /\ trimmed_of isspace (py_str x) (_safe_str x))
  /\ (is_none x = true \/ strip (py_str x) = [] -> _clean_str x = PNone)
  /\ (is_none x = false -> strip (py_str x) <> [] ->
      _clean_str x = PStr (strip (py_str x))
      /\ trimmed_of isspace (py_str x) (strip (py_str x))).
Proof.
  unfold _safe_str, _clean_str. repeat split.
  - now intros ->.
  - now rewrite H.
  - rewrite H. apply strip_with_spec.
  - intros [->| ->]; [reflexivity|]. now destruct (is_none x).
  - rewrite H. destruct (strip (py_str x)); [contradiction|reflexivity].
  - apply strip_with_spec.
Qed.

End CleanString.

Lemma clean_string_forms_witness :
  @_safe_str narrow_lib PNone = []
  /\ @_safe_str narrow_lib (PStr (u "  PEDN 2050 ")) = u "PEDN 2050"
  /\ @_clean_str narrow_lib (PStr (u "   ")) = PNone
  /\ @_clean_str narrow_lib (PStr (u " 23 ")) = PStr (u "23").
Proof.
  destruct (@clean_string_forms narrow_lib PNone) as (H1 & _).
  destruct (@clean_string_forms narrow_lib (PStr (u "  PEDN 2050 ")))
    as (_ & H2 & _).
  destruct (@clean_string_forms narrow_lib (PStr (u "   ")))
    as (_ & _ & H3 & _).
  destruct (@clean_string_forms narrow_lib (PStr (u " 23 ")))
    as (_ & _ & _ & H4).
  split; [apply H1; reflexivity|].
  split; [rewrite (proj1 (H2 eq_refl)); reflexivity|].
  split; [apply H3; right; reflexivity|].
  rewrite (proj1 (H4 eq_refl ltac:(vm_compute; discriminate))).
  reflexivity.
Defined.

(** C9 as stated fails on the gateway's [_clean_str]: a missing value
    comes back as None, not as the empty string. *)
Lemma clean_str_missing_is_none :
  @_clean_str narrow_lib PNone = PNone
  /\ @_clean_str narrow_lib PNone <> PStr [].
Proof. split; [reflexivity|discriminate]. Qed.

(** ** Field Normalizer: choices *)

Lemma sub_spaces_blank_only (b : bool) (s : str) :
  Forall (fun c => isspace c = true -> c = 32%N) (sub_spaces_from b s).
Proof.
  revert b. induction s as [|c r IH]; intros b; simpl; [constructor|].
  destruct (isspace c) eqn:E.
  - destruct b; [apply IH|]. constructor; [reflexivity|apply IH].
  - constructor; [congruence|apply IH].
Qed.

Lemma sub_spaces_single_spaced (b : bool) (s : str) :
  single_spaced b (sub_spaces_from b s) = true.
Proof.
  revert b. induction s as [|c r IH]; intros b; simpl; [reflexivity|].
  destruct (isspace c) eqn:E.
  - destruct b; [apply IH|]. simpl. apply (IH true).
  - simpl. rewrite E, andb_false_r. simpl. apply (IH false).
Qed.

Lemma sub_spaces_keeps_text (b : bool) (s : str) :
  List.filter (fun c => negb (isspace c)) (sub_spaces_from b s)
  = List.filter (fun c => negb (isspace c)) s.
Proof.
  revert b. induction s as [|c r IH]; intros b; simpl; [reflexivity|].
  destruct (isspace c) eqn:E; simpl.
  - destruct b; simpl; apply IH.
  - rewrite E. simpl. f_equal. apply IH.
Qed.

Lemma replace_underscore_none (s : str) :
  Forall (fun c => c <> 95%N) (replace_underscore s).
Proof.
  unfold replace_underscore. apply Forall_map, Forall_forall. intros c _.
  destruct (N.eqb_spec c 95); [discriminate|assumption].
Qed.

Lemma replace_underscore_blank_only (s : str) :
  Forall (fun c => isspace c = true -> c = 32%N) s ->
  Forall (fun c => isspace c = true -> c = 32%N) (replace_underscore s).
Proof.
  intros H. unfold replace_underscore. apply Forall_map.
  eapply Forall_impl; [exact H|]. intros c Hc. simpl in *.
  destruct (N.eqb_spec c 95); [reflexivity|exact Hc].
Qed.

Lemma lower_latin1_no_upper (c : N) :
  ((65 <=? lower_latin1 c) && (lower_latin1 c <=? 90))%N = false.
Proof.
  unfold lower_latin1.
  destruct ((65 <=? c) && (c <=? 90)
            || (192 <=? c) && (c <=? 222) && negb (c =? 215))%N eqn:E.
  - apply andb_false_iff.
    apply orb_true_iff in E as [E|E];
      repeat (apply andb_true_iff in E as [E ?]);
      repeat match goal with
             | H : (_ <=? _)%N = true |- _ => apply N.leb_le in H
             end;
      right; apply N.leb_gt; lia.
  - apply orb_false_iff in E as [E _]. exact E.
Qed.

Section Choice.
Context {L : PyLib}.

(** C8: [norm_choice] lower-cases its input, turns each whitespace run
    into one blank, replaces underscores with blanks and trims; it returns
    the mapping's value for that key, and the default it was given when
    the key is not in the mapping.  [norm_choice("SI", vigencia_map, "No")]
    is ["Sí"]. *)
Theorem norm_choice_lookup (val : pyval) (mapping : list (str * str))
    (default : pyval) :
  (forall v, choice_get mapping (choice_key val) = Some v ->
             norm_choice val mapping default = PStr v)
  /\ (choice_get mapping (choice_key val) = None ->
      norm_choice val mapping default = default)
  /\ trimmed_of isspace
       (replace_underscore (re_sub_spaces (lower (_safe_str val))))
       (choice_key val)
  /\ Forall (fun c => c <> 95%N) (choice_key val)
  /\ Forall (fun c => isspace c = true -> c = 32%N) (choice_key val)
  /\ single_spaced false (re_sub_spaces (lower (_safe_str val))) = true
  /\ (forallb (fun c => (c <? 256)%N) (_safe_str val) = true ->
      Forall (fun c => ((65 <=? c) && (c <=? 90))%N = false) (choice_key val))
  /\ norm_choice (PStr (u "SI")) vigencia_map (PStr (u "No"))
     = PStr (u "Sí").
Proof.
  unfold norm_choice. fold (choice_key val).
  split; [intros v ->; reflexivity|].
  split; [intros ->; reflexivity|].
  split; [apply strip_with_spec|].
  split; [apply strip_with_sub, replace_underscore_none|].
  split.
  { apply strip_with_sub, replace_underscore_blank_only,
      sub_spaces_blank_only. }
  split; [apply sub_spaces_single_spaced|].
  split; [|reflexivity].
  intros Hl. unfold choice_key, lower. rewrite Hl.
  apply strip_with_sub. unfold replace_underscore. apply Forall_map.
  assert (H : Forall (fun c => ((65 <=? c) && (c <=? 90))%N = false)
                (map lower_latin1 (_safe_str val))).
  { apply Forall_map, Forall_forall. intros c _. apply lower_latin1_no_upper. }
  assert (Hsub : forall b s,
    Forall (fun c => ((65 <=? c) && (c <=? 90))%N = false) s ->
    Forall (fun c => ((65 <=? c) && (c <=? 90))%N = false)
      (sub_spaces_from b s)).
  { intros b s Hs. revert b.
    induction Hs as [|c r Hc Hr IH]; intros b; simpl; [constructor|].
    destruct (isspace c); [destruct b|]; try constructor; auto. }
  eapply Forall_impl; [apply Hsub, H|].
  intros c Hc. simpl. destruct (N.eqb_spec c 95); [reflexivity|exact Hc].
Qed.

End Choice.

Lemma norm_choice_lookup_witness :
  @norm_choice narrow_lib (PStr (u " en_PROCESO ")) estado_map
    (PStr (u "Emitido")) = PStr (u "En proceso")
  /\ @norm_choice narrow_lib (PStr (u "archivado")) estado_map
       (PStr (u "En proceso")) = PStr (u "En proceso").
Proof.
  split.
  - apply (proj1 (@norm_choice_lookup narrow_lib (PStr (u " en_PROCESO "))
                    estado_map (PStr (u "Emitido")))).
    reflexivity.
  - apply (proj1 (proj2 (@norm_choice_lookup narrow_lib
                           (PStr (u "archivado")) estado_map
                           (PStr (u "En proceso"))))).
    reflexivity.
Defined.

(** ** Record Mapper *)

Lemma get_chain_first_present (row : pydict) (keys : list string)
    (default : pyval) :
  get_chain row keys default =
    match first_present row keys with
    | Some v => v
    | None => default
    end.
Proof.
  induction keys as [|k r IH]; simpl; [reflexivity|].
  unfold get_or. destruct (dict_get row k); [reflexivity|exact IH].
Qed.

Lemma first_present_none (row : pydict) (keys : list string) :
  Forall (fun k => dict_get row k = None) keys ->
  first_present row keys = None.
Proof.
  induction 1 as [|k r Hk _ IH]; simpl; [reflexivity|].
  now rewrite Hk.
Qed.

Section MapperFacts.
Context {L : PyLib}.

Lemma set_form_state_field (row : pydict) (f : string) (keys : list string)
    (kind : field_kind) :
  In (f, keys, kind) logical_fields ->
  dict_get (set_form_state_from_row row) f
  = Some (convert kind (form_default f)
            (get_chain row keys (form_default f))).
Proof. intros H. each_field H. Qed.

Lemma form_default_get (f : string) (keys : list string) (kind : field_kind) :
  In (f, keys, kind) logical_fields ->
  dict_get FORM_DEFAULTS f = Some (form_default f).
Proof. intros H. each_field H. Qed.

Lemma convert_default (f : string) (keys : list string) (kind : field_kind) :
  In (f, keys, kind) logical_fields ->
  convert kind (form_default f) (form_default f) = form_default f.
Proof. intros H. each_field H. Qed.

Lemma convert_malformed (f : string) (keys : list string) (kind : field_kind)
    (v : pyval) :
  In (f, keys, kind) logical_fields ->
  malformed kind v ->
  convert kind (form_default f) v = form_default f.
Proof.
  intros H Hm.
  destruct kind as [mapping| | |]; simpl in Hm |- *.
  - unfold norm_choice. fold (choice_key v). now rewrite Hm.
  - assert (Hd : form_default f = PNone).
    { simpl in H.
      repeat (destruct H as [H|H];
              [injection H as <- <-; try discriminate; reflexivity|]).
      contradiction. }
    rewrite Hd. unfold _safe_date.
    destruct Hm as [Hm|[Hm|Hm]].
    + now rewrite Hm.
    + rewrite Hm. unfold str_eqb.
      rewrite bool_decide_eq_true_2 by reflexivity.
      now rewrite orb_true_r.
    + rewrite Hm. now destruct (_ || _).
  - assert (Hd : form_default f = PInt 0).
    { simpl in H.
      repeat (destruct H as [H|H];
              [injection H as <- <-; try discriminate; reflexivity|]).
      contradiction. }
    rewrite Hd. destruct Hm as [e He]. unfold _safe_int. now rewrite He.
  - assert (Hd : form_default f = PStr []).
    { simpl in H.
      repeat (destruct H as [H|H];
              [injection H as <- <-; try discriminate; reflexivity|]).
      contradiction. }
    rewrite Hd. unfold _safe_str. now rewrite Hm.
Qed.

(** C6: the Record Mapper returns a form state for every row: what
    [int()] and [pd.to_datetime()] raise is caught.  The state has the
    keys of [FORM_DEFAULTS]; a field none of whose row keys is present, or
    whose first present value is malformed, holds its default, and any
    other field holds its value as read. *)
Theorem mapper_degrades_to_defaults (row : pydict) :
  dict_keys (set_form_state_from_row row) = dict_keys FORM_DEFAULTS
  /\ (forall x, _safe_int x = match py_int x with Ok n => n | Raise _ => 0 end)
  /\ (forall x, to_datetime_date x = None -> _safe_date x = PNone)
  /\ forall f keys kind,
       In (f, keys, kind) logical_fields ->
       (Forall (fun k => dict_get row k = None) keys ->
        dict_get (set_form_state_from_row row) f = dict_get FORM_DEFAULTS f)
       /\ (forall v, first_present row keys = Some v ->
           malformed kind v ->
           dict_get (set_form_state_from_row row) f
           = dict_get FORM_DEFAULTS f)
       /\ (forall v, first_present row keys = Some v ->
           dict_get (set_form_state_from_row row) f
           = Some (convert kind (form_default f) v)).
Proof.
  split; [reflexivity|].
  split; [intros x; unfold _safe_int; now destruct (py_int x)|].
  split.
  { intros x Hx. unfold _safe_date. rewrite Hx. now destruct (_ || _). }
  intros f keys kind Hin.
  rewrite (set_form_state_field row f keys kind Hin).
  rewrite (form_default_get f keys kind Hin).
  rewrite get_chain_first_present.
  split; [|split].
  - intros Hnone. rewrite (first_present_none row keys Hnone).
    f_equal. exact (convert_default f keys kind Hin).
  - intros v -> Hm. f_equal. exact (convert_malformed f keys kind v Hin Hm).
  - intros v ->. reflexivity.
Qed.

End MapperFacts.

Lemma mapper_degrades_to_defaults_witness :
  dict_get (@set_form_state_from_row narrow_lib legacy_row) "tipo_pei"
    = Some (PStr (u "Formulado"))
  /\ dict_get (@set_form_state_from_row narrow_lib legacy_row) "vigencia"
     = Some (PStr (u "Sí"))
  /\ dict_get (@set_form_state_from_row narrow_lib legacy_row)
       "cantidad_revisiones" = Some (PInt 0)
  /\ dict_get (@set_form_state_from_row narrow_lib legacy_row) "fecha_it"
     = Some PNone
  /\ dict_get (@set_form_state_from_row narrow_lib legacy_row) "estado"
     = Some (PStr (u "Emitido")).
Proof.
  destruct (@mapper_degrades_to_defaults narrow_lib legacy_row)
    as (_ & _ & _ & H).
  split; [|split; [|split; [|split]]].
  - apply (proj1 (H "tipo_pei"%string ["tipo_pei"; "Tipo de PEI"]%string
                    (KChoice tipo_pei_map) ltac:(simpl; tauto))).
    repeat constructor.
  - apply (proj1 (proj2 (H "vigencia"%string ["vigencia"; "Vigencia"]%string
                           (KChoice vigencia_map) ltac:(simpl; tauto)))
             (PStr (u "quizás"))); reflexivity.
  - apply (proj1 (proj2 (H "cantidad_revisiones"%string
                           ["cantidad_revisiones";
                            "Cantidad de revisiones"]%string
                           KInt ltac:(simpl; tauto)))
             (PStr (u "3.0"))); [reflexivity|].
    eexists. reflexivity.
  - apply (proj1 (proj2 (H "fecha_it"%string
                           ["fecha_it"; "Fecha de I.T"]%string
                           KDate ltac:(simpl; tauto)))
             (PStr (u "   "))); [reflexivity|].
    right. left. reflexivity.
  - rewrite (proj2 (proj2 (H "estado"%string ["estado"; "Estado"]%string
                             (KChoice estado_map) ltac:(simpl; tauto)))
               (PStr (u " EMITIDO ")) eq_refl).
    reflexivity.
Defined.

(** ** Field Normalizer: unit codes

    [normalizar_codigo] applied twice: what [float()] rounds, what
    [str.strip()] and the number parser take for whitespace, and what the
    parser accepts as a literal. *)

(** *** Rounding to binary64 *)

Lemma round_half_even_bounds (a b : Z) :
  0 <= a -> 0 < b ->
  a / b <= round_half_even a b <= a / b + 1.
Proof.
  intros Ha Hb. unfold round_half_even.
  destruct (2 * (a mod b) <? b); [lia|].
  destruct (b <? 2 * (a mod b)); [lia|].
  destruct (Z.even (a / b)); lia.
Qed.

Lemma round_half_even_exact (a b : Z) :
  0 < b -> a mod b = 0 -> round_half_even a b = a / b.
Proof.
  intros Hb Hm. unfold round_half_even. rewrite Hm.
  destruct (Z.ltb_spec (2 * 0) b); [reflexivity|lia].
Qed.

Lemma floor_log2_ratio_int (k : Z) :
  0 < k -> floor_log2_ratio k 1 = Z.log2 k.
Proof.
  intros Hk. unfold floor_log2_ratio.
  change (Z.log2 1) with 0. rewrite Z.sub_0_r.
  pose proof (Z.log2_nonneg k) as Hn.
  destruct (Z.leb_spec 0 (Z.log2 k)); [|lia].
  destruct (Z.log2_spec k Hk) as [Hlo _].
  destruct (Z.ltb_spec k (1 * 2 ^ Z.log2 k)); [lia|reflexivity].
Qed.

Lemma floor_log2_ratio_upper (n d : Z) :
  0 < n -> 0 < d ->
  (0 <= floor_log2_ratio n d + 1 -> n < d * 2 ^ (floor_log2_ratio n d + 1))
  /\ (floor_log2_ratio n d + 1 < 0 ->
      n * 2 ^ (- (floor_log2_ratio n d + 1)) < d).
Proof.
  intros Hn Hd. unfold floor_log2_ratio.
  destruct (Z.log2_spec n Hn) as [_ Hnu].
  destruct (Z.log2_spec d Hd) as [Hdl _].
  pose proof (Z.log2_nonneg n) as Ha.
  pose proof (Z.log2_nonneg d) as Hb.
  set (a := Z.log2 n) in *. set (b := Z.log2 d) in *.
  destruct (Z.leb_spec 0 (a - b)) as [He|He].
  - destruct (Z.ltb_spec n (d * 2 ^ (a - b))) as [Hlt|Hge].
    + replace (a - b - 1 + 1) with (a - b) by lia. split; [auto|lia].
    + split; [|lia]. intros _.
      assert (E : 2 ^ Z.succ a = 2 ^ b * 2 ^ (a - b + 1)).
      { rewrite <- Z.pow_add_r by lia. f_equal; lia. }
      assert (0 < 2 ^ (a - b + 1)) by (apply Z.pow_pos_nonneg; lia).
      nia.
  - destruct (Z.ltb_spec (n * 2 ^ (- (a - b))) d) as [Hlt|Hge].
    + replace (a - b - 1 + 1) with (a - b) by lia. split; [lia|auto].
    + split.
      * intros H0. assert (a - b + 1 = 0) as -> by lia.
        assert (E : 2 ^ Z.succ a = 2 ^ b).
        { f_equal; lia. }
        lia.
      * intros H0.
        assert (E : 2 ^ Z.succ a * 2 ^ (- (a - b + 1)) = 2 ^ b).
        { rewrite <- Z.pow_add_r by lia. f_equal; lia. }
        assert (0 < 2 ^ (- (a - b + 1))) by (apply Z.pow_pos_nonneg; lia).
        nia.
Qed.

Lemma round_binary64_parts (n d m q : Z) :
  0 <= n -> 0 < d ->
  round_binary64 n d = Some (m, q) -> float_parts m q.
Proof.
  intros Hn Hd. unfold round_binary64, float_parts.
  destruct (Z.eqb_spec n 0) as [->|Hn0].
  { intros [= <- <-].
    split; [split; [lia|apply Z.pow_nonneg; lia]|].
    intros _. rewrite Z.mul_0_l. apply Z.pow_pos_nonneg; lia. }
  assert (Hn' : 0 < n) by lia.
  destruct (floor_log2_ratio_upper n d Hn' Hd) as [Hu1 Hu2].
  set (fl := floor_log2_ratio n d) in *.
  set (q0 := Z.max (fl - 52) (-1074)).
  assert (Hq0 : fl - 52 <= q0) by (unfold q0; lia).
  destruct (Z.leb_spec 0 q0) as [Hq|Hq].
  - simpl andb.
    destruct (Z.leb_spec (2 ^ 1024) (round_half_even n (d * 2 ^ q0) * 2 ^ q0))
      as [|Hov]; [discriminate|].
    intros [= <- <-].
    assert (Hp : 0 < 2 ^ q0) by (apply Z.pow_pos_nonneg; lia).
    assert (Hb : 0 < d * 2 ^ q0) by nia.
    pose proof (round_half_even_bounds n (d * 2 ^ q0) Hn Hb) as [Hlo Hhi].
    assert (Hdiv : n / (d * 2 ^ q0) < 2 ^ 53).
    { apply Z.div_lt_upper_bound; [exact Hb|].
      assert (E : d * 2 ^ q0 * 2 ^ 53 = d * 2 ^ (q0 + 53)).
      { rewrite Z.pow_add_r by lia. ring. }
      rewrite E.
      destruct (Z.leb_spec 0 (fl + 1)) as [Hf|Hf].
      - specialize (Hu1 Hf).
        assert (2 ^ (fl + 1) <= 2 ^ (q0 + 53))
          by (apply Z.pow_le_mono_r; lia).
        nia.
      - specialize (Hu2 Hf).
        assert (0 < 2 ^ (- (fl + 1))) by (apply Z.pow_pos_nonneg; lia).
        assert (0 < 2 ^ (q0 + 53)) by (apply Z.pow_pos_nonneg; lia).
        nia. }
    assert (0 <= n / (d * 2 ^ q0)) by (apply Z.div_pos; lia).
    split; [lia|intros _; exact Hov].
  - rewrite andb_false_l. intros [= <- <-].
    assert (Hp : 0 < 2 ^ (- q0)) by (apply Z.pow_pos_nonneg; lia).
    assert (Ha : 0 <= n * 2 ^ (- q0)) by nia.
    pose proof (round_half_even_bounds (n * 2 ^ (- q0)) d Ha Hd) as [Hlo Hhi].
    assert (Hdiv : n * 2 ^ (- q0) / d < 2 ^ 53).
    { apply Z.div_lt_upper_bound; [exact Hd|].
      destruct (Z.leb_spec 0 (fl + 1)) as [Hf|Hf].
      - specialize (Hu1 Hf).
        assert (E : 2 ^ (fl + 1) * 2 ^ (- q0) = 2 ^ (fl + 1 - q0)).
        { rewrite <- Z.pow_add_r by lia. f_equal; lia. }
        assert (2 ^ (fl + 1 - q0) <= 2 ^ 53)
          by (apply Z.pow_le_mono_r; lia).
        nia.
      - specialize (Hu2 Hf).
        assert (Hle : 2 ^ (- q0) <= 2 ^ 53 * 2 ^ (- (fl + 1))).
        { rewrite <- Z.pow_add_r by lia. apply Z.pow_le_mono_r; lia. }
        assert (0 < 2 ^ 53) by (apply Z.pow_pos_nonneg; lia).
        nia. }
    assert (0 <= n * 2 ^ (- q0) / d) by (apply Z.div_pos; lia).
    split; [lia|lia].
Qed.

Lemma float_parts_binary64 (m e : Z) :
  is_binary64 m e = true -> float_parts m e.
Proof.
  unfold is_binary64, float_parts. rewrite !andb_true_iff.
  intros [[[H1 H2] H3] H4].
  apply Z.leb_le in H1, H3, H4. apply Z.ltb_lt in H2.
  split; [lia|]. intros He.
  assert (2 ^ e <= 2 ^ 971) by (apply Z.pow_le_mono_r; lia).
  assert (0 < 2 ^ e) by (apply Z.pow_pos_nonneg; lia).
  assert (E : 2 ^ 1024 = 2 ^ 53 * 2 ^ 971)
    by (rewrite <- Z.pow_add_r; reflexivity || lia).
  rewrite E. nia.
Qed.

Lemma trunc_float_nonneg (m q : Z) : 0 <= m -> 0 <= trunc_float m q.
Proof.
  intros Hm. unfold trunc_float.
  destruct (Z.leb_spec 0 q).
  - assert (0 < 2 ^ q) by (apply Z.pow_pos_nonneg; lia). nia.
  - apply Z.div_pos; [lia|]. apply Z.pow_pos_nonneg; lia.
Qed.

(** An integer that is the integer part of a float is itself a float:
    rounding it changes nothing. *)
Lemma round_trunc_fixed (m q : Z) :
  float_parts m q ->
  exists m' q',
    round_binary64 (trunc_float m q) 1 = Some (m', q')
    /\ trunc_float m' q' = trunc_float m q.
Proof.
  intros [[Hm0 Hm] Hov].
  pose proof (trunc_float_nonneg m q Hm0) as Hk0.
  set (k := trunc_float m q) in *.
  unfold round_binary64.
  destruct (Z.eqb_spec k 0) as [->|Hk].
  { exists 0, 0. split; reflexivity. }
  assert (Hk' : 0 < k) by lia.
  rewrite (floor_log2_ratio_int k Hk').
  destruct (Z.log2_spec k Hk') as [Hlo Hhi].
  set (q' := Z.max (Z.log2 k - 52) (-1074)).
  destruct (Z.leb_spec 0 q') as [Hq'|Hq'].
  - (* the exponent is not negative: [2^q'] divides [k] *)
    assert (Hq'e : q' = Z.log2 k - 52) by (unfold q' in *; lia).
    assert (Hp : 0 < 2 ^ q') by (apply Z.pow_pos_nonneg; lia).
    assert (Hdiv : k mod 2 ^ q' = 0 /\ k < 2 ^ 1024).
    { subst k. unfold trunc_float in *.
      destruct (Z.leb_spec 0 q) as [Hq|Hq].
      - assert (Hm' : 0 < m) by nia.
        rewrite (Z.log2_mul_pow2 m q Hm' Hq) in Hq'e.
        split; [|auto].
        destruct (Z.le_gt_cases (Z.log2 m) 52) as [Hl|Hl].
        + replace q with (q - q' + q') by lia.
          rewrite Z.pow_add_r by lia. rewrite Z.mul_assoc.
          apply Z.mod_mul. lia.
        + destruct (Z.log2_spec m Hm') as [Hml _].
          assert (2 ^ 53 <= 2 ^ Z.log2 m) by (apply Z.pow_le_mono_r; lia).
          assert (m = 2 ^ 53) as -> by lia.
          change (Z.log2 (2 ^ 53)) with 53 in Hq'e.
          replace q' with (q + 1) by lia.
          replace (2 ^ 53) with (2 ^ 52 * 2 ^ 1) by reflexivity.
          rewrite <- Z.mul_assoc, <- Z.pow_add_r by lia.
          rewrite (Z.add_comm 1 q). apply Z.mod_mul.
          assert (0 < 2 ^ (q + 1)) by (apply Z.pow_pos_nonneg; lia). lia.
      - assert (Hp2 : 2 <= 2 ^ (- q)).
        { change 2 with (2 ^ 1) at 1. apply Z.pow_le_mono_r; lia. }
        assert (Hle : m / 2 ^ (- q) <= 2 ^ 52).
        { apply Z.div_le_upper_bound; [lia|].
          change (2 ^ 53) with (2 * 2 ^ 52) in Hm. nia. }
        assert (2 ^ 52 <= 2 ^ Z.log2 (m / 2 ^ (- q)))
          by (apply Z.pow_le_mono_r; lia).
        assert (Ek : m / 2 ^ (- q) = 2 ^ 52) by lia.
        rewrite Ek in *. change (Z.log2 (2 ^ 52)) with 52 in Hq'e.
        assert (q' = 0) as -> by lia.
        split; [reflexivity|].
        apply Z.pow_lt_mono_r; lia. }
    destruct Hdiv as [Hmod Hlt].
    rewrite Z.mul_1_l, (round_half_even_exact k (2 ^ q') Hp Hmod).
    assert (Ek : k / 2 ^ q' * 2 ^ q' = k).
    { rewrite Z.mul_comm. symmetry. apply Z.div_exact; lia. }
    simpl andb. rewrite Ek.
    destruct (Z.leb_spec (2 ^ 1024) k); [lia|].
    eexists _, _. split; [reflexivity|].
    unfold trunc_float. destruct (Z.leb_spec 0 q'); [exact Ek|lia].
  - rewrite andb_false_l.
    assert (Hp : 0 < 2 ^ (- q')) by (apply Z.pow_pos_nonneg; lia).
    rewrite round_half_even_exact by (try lia; apply Z.mod_1_r).
    rewrite Z.div_1_r.
    eexists _, _. split; [reflexivity|].
    unfold trunc_float. destruct (Z.leb_spec 0 q'); [lia|].
    apply Z.div_mul. lia.
Qed.

(** *** Decimal digits *)

Lemma lsd_digits_value (fuel : nat) (n : N) :
  (n < 2 ^ N.of_nat fuel)%N ->
  fold_right (fun d a => (10 * a + d)%N) 0%N (lsd_digits fuel n) = n.
Proof.
  revert n. induction fuel as [|f IH]; intros n Hn.
  - simpl in *. lia.
  - cbn [lsd_digits fold_right].
    pose proof (N.div_mod n 10 ltac:(lia)) as Hdm.
    destruct (N.eqb_spec (n / 10) 0) as [E|E].
    + simpl. lia.
    + rewrite IH; [lia|].
      rewrite Nat2N.inj_succ, N.pow_succ_r' in Hn.
      apply N.Div0.div_lt_upper_bound. lia.
Qed.

Lemma digits_value_rev (l : list N) :
  digits_value (rev l) = fold_right (fun d a => (10 * a + d)%N) 0%N l.
Proof.
  unfold digits_value. rewrite <- (rev_involutive l) at 2.
  symmetry. apply (fold_left_rev_right (fun d a => (10 * a + d)%N)).
Qed.

Lemma digits_of_N_value (n : N) : digits_value (digits_of_N n) = n.
Proof.
  unfold digits_of_N. rewrite digits_value_rev. apply lsd_digits_value.
  rewrite Nat2N.inj_succ, N2Nat.id.
  destruct n as [|p]; [reflexivity|].
  apply N.log2_spec. lia.
Qed.

Lemma lsd_digits_small (fuel : nat) (n : N) :
  Forall (fun d => (d < 10)%N) (lsd_digits fuel n).
Proof.
  revert n. induction fuel as [|f IH]; intros n; simpl; constructor.
  - apply N.mod_lt. lia.
  - destruct (n / 10 =? 0)%N; [constructor|apply IH].
Qed.

Lemma digits_of_N_small (n : N) : Forall (fun d => (d < 10)%N) (digits_of_N n).
Proof.
  unfold digits_of_N. apply Forall_rev, lsd_digits_small.
Qed.

Lemma digits_of_N_not_nil (n : N) : digits_of_N n <> [].
Proof.
  unfold digits_of_N. simpl. intros H.
  apply (f_equal (@length N)) in H. rewrite length_app in H.
  simpl in H. lia.
Qed.

Lemma is_ascii_digit_add (d : N) :
  (d < 10)%N -> is_ascii_digit (48 + d) = true.
Proof.
  intros Hd. unfold is_ascii_digit.
  apply andb_true_iff. split; apply N.leb_le; lia.
Qed.

Lemma digit_chars_all_digits (n : N) : all_digits (digit_chars n).
Proof.
  unfold all_digits, digit_chars. apply List.Forall_forall.
  intros c Hc. apply in_map_iff in Hc as (d & <- & Hd).
  apply is_ascii_digit_add.
  pose proof (digits_of_N_small n) as Hs.
  rewrite List.Forall_forall in Hs. now apply Hs.
Qed.

Lemma digit_chars_not_nil (n : N) : digit_chars n <> [].
Proof.
  unfold digit_chars. intros H. apply map_eq_nil in H.
  exact (digits_of_N_not_nil n H).
Qed.

Lemma span_digits_chars (ds : list N) (rest : str) :
  Forall (fun d => (d < 10)%N) ds ->
  (forall c t, rest = c :: t -> is_ascii_digit c = false) ->
  span_digits (map (N.add 48) ds ++ rest) = (ds, rest).
Proof.
  intros Hds Hrest. induction Hds as [|d r Hd _ IH]; cbn [map app span_digits].
  - destruct rest as [|c t]; [reflexivity|]. cbn [span_digits].
    now rewrite (Hrest c t eq_refl).
  - rewrite (is_ascii_digit_add d Hd), IH. f_equal. f_equal. lia.
Qed.

(** *** Trimming, continued *)

Lemma drop_while_app_all (p : N -> bool) (l x : str) :
  forallb p l = true -> drop_while p (l ++ x) = drop_while p x.
Proof.
  induction l as [|c r IH]; simpl; [reflexivity|].
  intros H. apply andb_true_iff in H as [Hc Hr]. rewrite Hc. auto.
Qed.

Lemma drop_while_head (p : N -> bool) (s : str) :
  (forall c t, s = c :: t -> p c = false) -> drop_while p s = s.
Proof.
  destruct s as [|c t]; simpl; [reflexivity|].
  intros H. now rewrite (H c t eq_refl).
Qed.

Lemma strip_with_margins (p : N -> bool) (l t r : str) :
  forallb p l = true -> forallb p r = true ->
  (forall c t', t = c :: t' -> p c = false) ->
  (forall c t', t = t' ++ [c] -> p c = false) ->
  strip_with p (l ++ t ++ r) = t.
Proof.
  intros Hl Hr Hhd Hlast. unfold strip_with.
  rewrite drop_while_app_all by exact Hl.
  destruct t as [|c t'].
  - simpl. rewrite <- (app_nil_r r), drop_while_app_all by exact Hr.
    reflexivity.
  - rewrite (drop_while_head p ((c :: t') ++ r)).
    2:{ intros c0 t0 E. simpl in E. injection E as <- _.
        exact (Hhd c t' eq_refl). }
    rewrite rev_app_distr, drop_while_app_all by now rewrite forallb_rev.
    rewrite (drop_while_head p (rev (c :: t'))); [apply rev_involutive|].
    intros c0 t0 E. apply (Hlast c0 (rev t0)).
    rewrite <- (rev_involutive (c :: t')), E. reflexivity.
Qed.

Lemma strip_with_trimmed (p : N -> bool) (s t : str) :
  trimmed_of p s t -> strip_with p s = t.
Proof.
  intros (l & r & -> & Hl & Hr & Hhd & Hlast).
  now apply strip_with_margins.
Qed.

Lemma strip_with_idem (p : N -> bool) (s : str) :
  strip_with p (strip_with p s) = strip_with p s.
Proof.
  destruct (strip_with_spec p s) as (l & r & _ & _ & _ & Hhd & Hlast).
  rewrite <- (app_nil_r (strip_with p s)) at 1.
  now apply (strip_with_margins p [] _ []).
Qed.

Lemma strip_with_pad (p : N -> bool) (l t r : str) :
  forallb p l = true -> forallb p r = true ->
  strip_with p (l ++ t ++ r) = strip_with p t.
Proof.
  intros Hl Hr.
  destruct (strip_with_spec p t) as (l2 & r2 & Ht & Hl2 & Hr2 & Hhd & Hlast).
  rewrite Ht at 1.
  replace (l ++ (l2 ++ strip_with p t ++ r2) ++ r)
    with ((l ++ l2) ++ strip_with p t ++ (r2 ++ r))
    by (rewrite <- !app_assoc; reflexivity).
  apply strip_with_margins; auto; rewrite forallb_app; now apply andb_true_iff.
Qed.

Lemma strip_with_keeps (p : N -> bool) (s : str) (c : N) :
  In c s -> p c = false -> In c (strip_with p s).
Proof.
  intros Hin Hc.
  destruct (strip_with_spec p s) as (l & r & Hs & Hl & Hr & _).
  rewrite Hs in Hin.
  assert (Hno : forall x, forallb p x = true -> ~ In c x).
  { intros x Hx Hcx. rewrite forallb_forall in Hx.
    specialize (Hx c Hcx). congruence. }
  apply in_app_or in Hin as [Hin|Hin]; [now apply Hno in Hin|].
  apply in_app_or in Hin as [Hin|Hin]; [exact Hin|now apply Hno in Hin].
Qed.

(** *** Underscores *)

Lemma scan_underscores_plain (prev : N) (s : str) :
  (prev =? 95)%N = false -> Forall (fun c => c <> 95%N) s ->
  scan_underscores prev s = Some s.
Proof.
  intros Hp Hs. revert prev Hp.
  induction Hs as [|c r Hc _ IH]; intros prev Hp; simpl.
  - now rewrite Hp.
  - apply N.eqb_neq in Hc. rewrite Hc, Hp. simpl.
    now rewrite (IH c Hc).
Qed.

Lemma scan_underscores_neutral (p1 p2 : N) (x : str) :
  neutral p1 -> neutral p2 -> scan_underscores p1 x = scan_underscores p2 x.
Proof.
  intros [H1 D1] [H2 D2]. destruct x as [|c r]; simpl.
  - now rewrite H1, H2.
  - now rewrite H1, H2, D1, D2.
Qed.

Lemma c_isspace_neutral (c : N) : c_isspace c = true -> neutral c.
Proof.
  unfold c_isspace, neutral, is_ascii_digit. intros H.
  apply orb_true_iff in H as [H|H].
  - apply andb_true_iff in H as [H1 H2]. apply N.leb_le in H1, H2.
    split; [apply N.eqb_neq; lia|].
    apply andb_false_iff. left. apply N.leb_gt. lia.
  - apply N.eqb_eq in H. subst. split; reflexivity.
Qed.

Lemma scan_underscores_lead (prev : N) (l x : str) :
  neutral prev -> forallb c_isspace l = true ->
  scan_underscores prev (l ++ x)
  = option_map (app l) (scan_underscores prev x).
Proof.
  revert prev. induction l as [|c r IH]; intros prev Hp Hl; simpl.
  - now destruct (scan_underscores prev x).
  - apply andb_true_iff in Hl as [Hc Hr].
    pose proof (c_isspace_neutral c Hc) as Hn.
    destruct Hn as [Hc95 Hcd]. destruct Hp as [Hp95 Hpd].
    rewrite Hc95, Hp95. simpl.
    rewrite (IH c (conj Hc95 Hcd) Hr).
    rewrite (scan_underscores_neutral c prev x (conj Hc95 Hcd) (conj Hp95 Hpd)).
    now destruct (scan_underscores prev x).
Qed.

Lemma scan_underscores_trail (prev : N) (t r : str) :
  forallb c_isspace r = true ->
  scan_underscores prev (t ++ r)
  = option_map (fun x => x ++ r) (scan_underscores prev t).
Proof.
  intros Hr. revert prev. induction t as [|c t' IH]; intros prev.
  - cbn [app]. destruct r as [|c r'].
    + simpl. now destruct (prev =? 95)%N.
    + cbn [scan_underscores]. simpl in Hr.
      apply andb_true_iff in Hr as [Hc Hr'].
      destruct (c_isspace_neutral c Hc) as [Hc95 Hcd].
      rewrite Hc95, Hcd. simpl.
      destruct (prev =? 95)%N; [reflexivity|]. simpl.
      rewrite scan_underscores_plain; [reflexivity|exact Hc95|].
      apply List.Forall_forall. intros x Hx.
      rewrite forallb_forall in Hr'. specialize (Hr' x Hx).
      destruct (c_isspace_neutral x Hr') as [Hx95 _].
      now apply N.eqb_neq.
  - cbn [app scan_underscores].
    destruct (c =? 95)%N.
    + destruct (is_ascii_digit prev); [apply IH|reflexivity].
    + destruct ((prev =? 95)%N && negb (is_ascii_digit c)); [reflexivity|].
      rewrite IH. now destruct (scan_underscores c t').
Qed.

Lemma scan_underscores_keeps (prev : N) (t t' : str) (c : N) :
  scan_underscores prev t = Some t' -> c <> 95%N -> In c t -> In c t'.
Proof.
  revert prev t'. induction t as [|a r IH]; intros prev t' Hs Hc Hin.
  - contradiction.
  - cbn [scan_underscores] in Hs.
    destruct (N.eqb_spec a 95) as [->|Ha].
    + destruct (is_ascii_digit prev); [|discriminate].
      destruct Hin as [<-|Hin]; [contradiction|]. eauto.
    + destruct ((prev =? 95)%N && negb (is_ascii_digit a)); [discriminate|].
      destruct (scan_underscores a r) as [r'|] eqn:E; [|discriminate].
      injection Hs as <-.
      destruct Hin as [<-|Hin]; [now left|right; eauto].
Qed.

Lemma float_of_ascii_pad (l t r : str) :
  forallb c_isspace l = true -> forallb c_isspace r = true ->
  float_of_ascii (l ++ t ++ r) = float_of_ascii t.
Proof.
  intros Hl Hr. unfold float_of_ascii.
  rewrite scan_underscores_lead; [|split; reflexivity|exact Hl].
  rewrite scan_underscores_trail by exact Hr.
  destruct (scan_underscores 0 t) as [t'|]; [|reflexivity].
  simpl. now rewrite strip_with_pad.
Qed.

(** *** What the literal parsers consume *)

Lemma span_digits_app (pre rest : str) :
  all_digits pre ->
  (forall c t, rest = c :: t -> is_ascii_digit c = false) ->
  span_digits (pre ++ rest) = (map (fun c => (c - 48)%N) pre, rest).
Proof.
  intros Hpre Hrest.
  induction Hpre as [|c r Hc _ IH]; cbn [map app span_digits].
  - destruct rest as [|c t]; [reflexivity|]. cbn [span_digits].
    now rewrite (Hrest c t eq_refl).
  - now rewrite Hc, IH.
Qed.

Lemma span_digits_split (s : str) :
  exists pre,
    s = pre ++ snd (span_digits s) /\ all_digits pre.
Proof.
  induction s as [|c r (pre & Hs & Hpre)]; cbn [span_digits].
  - exists []. split; [reflexivity|constructor].
  - destruct (is_ascii_digit c) eqn:E.
    + destruct (span_digits r) as [ds t]. cbn [snd] in *.
      exists (c :: pre). split; [now rewrite Hs at 1|].
      constructor; assumption.
    + exists []. split; [reflexivity|constructor].
Qed.

Lemma digit_not_bad (c : N) : is_ascii_digit c = true -> bad_char c = false.
Proof.
  unfold is_ascii_digit, bad_char. intros H.
  apply andb_true_iff in H as [H1 H2]. apply N.leb_le in H1, H2.
  apply orb_false_iff. split; apply N.eqb_neq; lia.
Qed.

Lemma all_digits_no_bad (s : str) : all_digits s -> no_bad s.
Proof.
  intros H. eapply Forall_impl; [exact H|]. apply digit_not_bad.
Qed.

Lemma parse_sign_split (s : str) :
  exists pre, s = pre ++ snd (parse_sign s) /\ no_bad pre.
Proof.
  destruct s as [|c r]; cbn [parse_sign].
  - exists []. split; [reflexivity|constructor].
  - destruct (N.eqb_spec c 45) as [->|H45].
    + exists [45%N]. split; [reflexivity|]. repeat constructor.
    + destruct (N.eqb_spec c 43) as [->|H43].
      * exists [43%N]. split; [reflexivity|]. repeat constructor.
      * exists []. split; [reflexivity|constructor].
Qed.

Lemma no_bad_app (a b : str) : no_bad a -> no_bad b -> no_bad (a ++ b).
Proof. intros Ha Hb. apply Forall_app. split; assumption. Qed.

Lemma parse_exponent_split (s : str) :
  exists pre, s = pre ++ snd (parse_exponent s) /\ no_bad pre.
Proof.
  destruct s as [|c r]; cbn [parse_exponent].
  - exists []. split; [reflexivity|constructor].
  - destruct ((c =? 101) || (c =? 69))%N eqn:E.
    + destruct (parse_sign_split r) as (p1 & H1 & B1).
      destruct (parse_sign r) as [neg r1]. cbn [snd] in *.
      destruct (span_digits_split r1) as (p2 & H2 & B2).
      destruct (span_digits r1) as [ds r2]. cbn [snd] in *.
      destruct ds as [|d ds'].
      * exists []. split; [reflexivity|constructor].
      * exists (c :: p1 ++ p2). cbn [snd]. split.
        -- rewrite H1 at 1. rewrite H2 at 1.
           cbn [app]. now rewrite <- ?app_assoc.
        -- constructor.
           ++ unfold bad_char.
              apply orb_true_iff in E as [E|E]; apply N.eqb_eq in E;
                subst; reflexivity.
           ++ apply no_bad_app; [exact B1|now apply all_digits_no_bad].
    + exists []. split; [reflexivity|constructor].
Qed.

Lemma parse_decimal_split (s : str) (lit : literal) (rest : str) :
  parse_decimal s = Some (lit, rest) ->
  exists pre, s = pre ++ rest /\ no_bad pre.
Proof.
  unfold parse_decimal.
  destruct (parse_sign_split s) as (p1 & H1 & B1).
  destruct (parse_sign s) as [neg s1]. cbn [snd] in *.
  destruct (span_digits_split s1) as (p2 & H2 & B2).
  destruct (span_digits s1) as [ip s2]. cbn [snd] in *.
  assert (Hfrac : exists p3,
    s2 = p3 ++ snd (match s2 with
                    | [] => ([], [])
                    | c :: t => if (c =? 46)%N then span_digits t
                                else ([], s2)
                    end) /\ no_bad p3).
  { destruct s2 as [|c t].
    - exists []. split; [reflexivity|constructor].
    - destruct (N.eqb_spec c 46) as [->|H46].
      + destruct (span_digits_split t) as (p & Hp & Bp).
        exists (46%N :: p). split; [now rewrite Hp at 1|].
        constructor; [reflexivity|now apply all_digits_no_bad].
      + exists []. split; [reflexivity|constructor]. }
  destruct Hfrac as (p3 & H3 & B3).
  destruct (match s2 with
            | [] => ([], [])
            | c :: t => if (c =? 46)%N then span_digits t else ([], s2)
            end) as [fp s3]. cbn [snd] in *.
  destruct (ip ++ fp); [discriminate|].
  destruct (parse_exponent_split s3) as (p4 & H4 & B4).
  destruct (parse_exponent s3) as [ex s4]. cbn [snd] in *.
  intros [= _ <-].
  exists (p1 ++ p2 ++ p3 ++ p4). split.
  - rewrite H1 at 1. rewrite H2 at 1. rewrite H3 at 1. rewrite H4 at 1.
    now rewrite <- ?app_assoc.
  - repeat apply no_bad_app; auto. now apply all_digits_no_bad.
Qed.

Lemma bad_char_lower (c : N) :
  bad_char (ascii_lower c) = false -> bad_char c = false.
Proof.
  unfold ascii_lower, bad_char.
  destruct ((65 <=? c) && (c <=? 90))%N eqn:E; [|auto].
  intros _. apply andb_true_iff in E as [H1 H2]. apply N.leb_le in H1, H2.
  apply orb_false_iff. split; apply N.eqb_neq; lia.
Qed.

Lemma starts_with_split (p r : str) :
  starts_with p r = true -> no_bad p ->
  r = firstn (length p) r ++ skipn (length p) r
  /\ no_bad (firstn (length p) r).
Proof.
  intros Hs Hp. split; [symmetry; apply firstn_skipn|].
  revert r Hs. induction Hp as [|a p' Ha _ IH]; intros r Hs.
  - constructor.
  - destruct r as [|b r']; [discriminate|].
    cbn [starts_with] in Hs. apply andb_true_iff in Hs as [Hab Hs].
    apply N.eqb_eq in Hab. cbn [length firstn].
    constructor; [|now apply IH].
    apply bad_char_lower. now rewrite <- Hab.
Qed.

Lemma parse_inf_nan_split (s : str) (lit : literal) (rest : str) :
  parse_inf_nan s = Some (lit, rest) ->
  exists pre, s = pre ++ rest /\ no_bad pre.
Proof.
  unfold parse_inf_nan.
  destruct (parse_sign_split s) as (p1 & H1 & B1).
  destruct (parse_sign s) as [neg r]. cbn [snd] in *.
  assert (Binf : no_bad (u "inf")) by (repeat constructor).
  assert (Binity : no_bad (u "inity")) by (repeat constructor).
  assert (Bnan : no_bad (u "nan")) by (repeat constructor).
  destruct (starts_with (u "inf") r) eqn:E1.
  - destruct (starts_with_split _ _ E1 Binf) as [Hr Br].
    change (length (u "inf")) with 3%nat in *.
    destruct (starts_with (u "inity") (skipn 3 r)) eqn:E2.
    + destruct (starts_with_split _ _ E2 Binity) as [Hr2 Br2].
      change (length (u "inity")) with 5%nat in *.
      intros [= _ <-].
      exists (p1 ++ firstn 3 r ++ firstn 5 (skipn 3 r)). split.
      * rewrite H1 at 1. rewrite Hr at 1. rewrite Hr2 at 1.
        now rewrite <- ?app_assoc.
      * repeat apply no_bad_app; assumption.
    + intros [= _ <-]. exists (p1 ++ firstn 3 r). split.
      * rewrite H1 at 1. rewrite Hr at 1. now rewrite <- ?app_assoc.
      * now apply no_bad_app.
  - destruct (starts_with (u "nan") r) eqn:E3; [|discriminate].
    destruct (starts_with_split _ _ E3 Bnan) as [Hr Br].
    change (length (u "nan")) with 3%nat in *.
    intros [= _ <-]. exists (p1 ++ firstn 3 r). split.
    + rewrite H1 at 1. rewrite Hr at 1. now rewrite <- ?app_assoc.
    + now apply no_bad_app.
Qed.

Lemma parse_float_literal_no_bad (t : str) (f : pyfloat) :
  parse_float_literal t = Ok f -> no_bad t.
Proof.
  unfold parse_float_literal.
  destruct (parse_decimal t) as [[lit rest]|] eqn:E.
  - destruct (parse_decimal_split t lit rest E) as (pre & -> & B).
    destruct rest; [|discriminate]. intros _. now rewrite app_nil_r.
  - destruct (parse_inf_nan t) as [[lit rest]|] eqn:E2; [|discriminate].
    destruct (parse_inf_nan_split t lit rest E2) as (pre & -> & B).
    destruct rest; [|discriminate]. intros _. now rewrite app_nil_r.
Qed.

Lemma parse_float_literal_raise (t : str) (e : exn) :
  parse_float_literal t = Raise e -> e = ValueError [].
Proof.
  unfold parse_float_literal.
  destruct (parse_decimal t) as [[lit [|c rest]]|].
  - discriminate.
  - now intros [= <-].
  - destruct (parse_inf_nan t) as [[lit [|c rest]]|];
      [discriminate|now intros [= <-]|now intros [= <-]].
Qed.

Lemma float_of_ascii_bad (t : str) (c : N) :
  In c t -> bad_char c = true -> float_of_ascii t = Raise (ValueError []).
Proof.
  intros Hin Hbad. unfold float_of_ascii.
  destruct (scan_underscores 0 t) as [t'|] eqn:E; [|reflexivity].
  assert (Hc95 : c <> 95%N).
  { intros ->. discriminate. }
  assert (Hsp : c_isspace c = false).
  { unfold bad_char in Hbad.
    apply orb_true_iff in Hbad as [H|H]; apply N.eqb_eq in H; subst;
      reflexivity. }
  pose proof (scan_underscores_keeps 0 t t' c E Hc95 Hin) as Hin'.
  pose proof (strip_with_keeps c_isspace t' c Hin' Hsp) as Hin''.
  destruct (parse_float_literal (strip_with c_isspace t')) as [f|e] eqn:P.
  - apply parse_float_literal_no_bad in P.
    unfold no_bad in P. rewrite List.Forall_forall in P.
    specialize (P c Hin''). congruence.
  - now rewrite (parse_float_literal_raise _ e P).
Qed.

(** *** Bringing a string to ASCII *)

Lemma plain_space_ascii (c : N) :
  plain_space c = true -> (c <? 127)%N = true -> c_isspace c = true.
Proof.
  unfold plain_space, isspace, is_separator, c_isspace.
  intros H Hc. apply N.ltb_lt in Hc.
  apply andb_true_iff in H as [Hs Hn]. apply negb_true_iff in Hn.
  repeat match goal with
         | H : (_ || _) = true |- _ => apply orb_true_iff in H as [H|H]
         | H : (_ && _) = true |- _ => apply andb_true_iff in H as [H ?]
         | H : (_ <=? _)%N = true |- _ => apply N.leb_le in H
         | H : (_ =? _)%N = true |- _ => apply N.eqb_eq in H
         end;
    try lia.
  - apply orb_true_iff. left. apply andb_true_iff.
    split; apply N.leb_le; lia.
  - apply andb_false_iff in Hn as [Hn|Hn]; apply N.leb_gt in Hn; try lia.
    apply orb_true_iff. right. apply N.eqb_eq. lia.
Qed.

Lemma plain_space_isspace (c : N) : plain_space c = true -> isspace c = true.
Proof. unfold plain_space. intros H. now apply andb_true_iff in H as [H _]. Qed.

Section Transform.
Context {L : PyLib}.

Lemma transform_wide_app (a b : str) :
  transform_wide (a ++ b)
  = if clean a then transform_wide a ++ transform_wide b
    else transform_wide a.
Proof.
  induction a as [|c r IH]; [reflexivity|].
  cbn [app transform_wide clean forallb].
  destruct (c <? 127)%N; cbn [orb andb].
  { rewrite IH. fold (clean r). now destruct (clean r). }
  destruct (isspace c); cbn [orb andb].
  { rewrite IH. fold (clean r). now destruct (clean r). }
  destruct (decimal_value c); cbn [andb]; [|reflexivity].
  rewrite IH. fold (clean r). now destruct (clean r).
Qed.

Lemma transform_wide_spaces (l : str) :
  forallb plain_space l = true ->
  clean l = true /\ forallb c_isspace (transform_wide l) = true.
Proof.
  induction l as [|c r IH]; [now split|].
  cbn [forallb clean transform_wide]. intros H.
  apply andb_true_iff in H as [Hc Hr].
  destruct (IH Hr) as [IH1 IH2]. fold (clean r).
  rewrite (plain_space_isspace c Hc), orb_true_r, IH1. cbn [orb andb].
  split; [reflexivity|].
  destruct (c <? 127)%N eqn:E; cbn [forallb].
  - now rewrite (plain_space_ascii c Hc E), IH2.
  - now rewrite IH2.
Qed.

Lemma transform_wide_below_127 (a : str) :
  forallb (fun c => (c <? 127)%N) a = true -> transform_wide a = a.
Proof.
  induction a as [|c r IH]; [reflexivity|].
  cbn [forallb transform_wide]. intros H.
  apply andb_true_iff in H as [Hc Hr]. now rewrite Hc, IH.
Qed.

Lemma transform_wide_del (a : str) :
  forallb (fun c => (c <? 128)%N) a = true ->
  forallb (fun c => (c <? 127)%N) a = false ->
  In 63%N (transform_wide a) /\ In 127%N a.
Proof.
  induction a as [|c r IH]; [discriminate|].
  cbn [forallb transform_wide]. intros H8 H7.
  apply andb_true_iff in H8 as [Hc Hr].
  destruct (c <? 127)%N eqn:E.
  - destruct (IH Hr H7) as [I1 I2]. split; now right.
  - apply N.ltb_lt in Hc. apply N.ltb_ge in E.
    assert (c = 127%N) as -> by lia.
    split; [|now left].
    unfold decimal_value. simpl. now left.
Qed.

Lemma forallb_app_inv (p : N -> bool) (a b c : str) :
  forallb p (a ++ b ++ c) = true ->
  forallb p a = true /\ forallb p b = true /\ forallb p c = true.
Proof.
  rewrite !forallb_app, !andb_true_iff. tauto.
Qed.

(** [float(s)] reads the same from [s] and from [s.strip()] when no
    information separator stands in the margins of [s]. *)
Lemma float_of_str_strip (s : str) :
  plain_margins s = true -> float_of_str (strip s) = float_of_str s.
Proof.
  unfold plain_margins, str_eqb. intros H.
  apply bool_decide_eq_true_1 in H.
  destruct (strip_with_spec plain_space s) as (l & r & Hs & Hl & Hr & _).
  rewrite H in Hs. set (core := strip s) in *. clearbody core.
  rewrite Hs. clear H Hs s.
  unfold float_of_str, to_ascii_decimal.
  destruct (transform_wide_spaces l Hl) as [Cl Tl].
  destruct (transform_wide_spaces r Hr) as [Cr Tr].
  destruct (forallb (fun c => (c <? 128)%N) (l ++ core ++ r)) eqn:Eall.
  - (* the whole string is ASCII *)
    destruct (forallb_app_inv _ _ _ _ Eall) as (Al & Ac & Ar).
    rewrite Ac.
    assert (Hsp : forall x, forallb plain_space x = true ->
                  forallb (fun c => (c <? 128)%N) x = true ->
                  forallb c_isspace x = true).
    { intros x Hx Ax. apply forallb_forall. intros c Hc.
      rewrite forallb_forall in Hx, Ax.
      specialize (Hx c Hc). specialize (Ax c Hc).
      destruct (c <? 127)%N eqn:E; [now apply plain_space_ascii|].
      apply N.ltb_lt in Ax. apply N.ltb_ge in E.
      assert (c = 127%N) as -> by lia. discriminate. }
    apply eq_sym, float_of_ascii_pad; auto.
  - (* a wide character somewhere *)
    rewrite transform_wide_app, Cl.
    assert (Hcore : exists r',
      transform_wide (core ++ r) = transform_wide core ++ r'
      /\ forallb c_isspace r' = true).
    { rewrite transform_wide_app. destruct (clean core).
      - now exists (transform_wide r).
      - exists []. now rewrite app_nil_r. }
    destruct Hcore as (r' & -> & Hr').
    rewrite float_of_ascii_pad by assumption.
    destruct (forallb (fun c => (c <? 128)%N) core) eqn:Ac; [|reflexivity].
    destruct (forallb (fun c => (c <? 127)%N) core) eqn:Ac7.
    + now rewrite transform_wide_below_127.
    + destruct (transform_wide_del core Ac Ac7) as [I63 I127].
      rewrite (float_of_ascii_bad core 127 I127 eq_refl).
      now rewrite (float_of_ascii_bad _ 63 I63 eq_refl).
Qed.

End Transform.

(** *** Strings of digits and hyphens *)

Lemma token_char_facts (c : N) :
  token_char c = true ->
  (c <? 128)%N = true /\ c <> 95%N /\ isspace c = false
  /\ c_isspace c = false.
Proof.
  unfold token_char, is_ascii_digit. intros H.
  assert (Hc : (48 <= c <= 57)%N \/ c = 45%N).
  { apply orb_true_iff in H as [H|H].
    - apply andb_true_iff in H as [H1 H2]. apply N.leb_le in H1, H2. now left.
    - apply N.eqb_eq in H. now right. }
  assert (Hcases : c = 45%N \/ c = 48%N \/ c = 49%N \/ c = 50%N \/ c = 51%N
                   \/ c = 52%N \/ c = 53%N \/ c = 54%N \/ c = 55%N
                   \/ c = 56%N \/ c = 57%N) by lia.
  repeat (destruct Hcases as [->|Hcases];
          [repeat split; discriminate || reflexivity|]).
  subst. repeat split; discriminate || reflexivity.
Qed.

Lemma all_digits_token (s : str) : all_digits s -> token s.
Proof.
  intros H. eapply Forall_impl; [exact H|].
  intros c Hc. unfold token_char. now rewrite Hc.
Qed.

Lemma token_app (a b : str) : token a -> token b -> token (a ++ b).
Proof. intros Ha Hb. apply Forall_app. split; assumption. Qed.

Lemma token_ends (p : N -> bool) (s : str) :
  (forall c, token_char c = true -> p c = false) ->
  token s -> strip_with p s = s.
Proof.
  intros Hp Hs. unfold token in Hs. rewrite List.Forall_forall in Hs.
  rewrite <- (app_nil_r s) at 1.
  apply (strip_with_margins p [] s []); try reflexivity.
  - intros c t ->. apply Hp, Hs. now left.
  - intros c t ->. apply Hp, Hs. apply in_or_app. right. now left.
Qed.

Lemma strip_token (s : str) : token s -> strip s = s.
Proof.
  apply token_ends. intros c Hc. now apply token_char_facts in Hc.
Qed.

Lemma str_of_Z_token (n : Z) : token (str_of_Z n).
Proof.
  unfold str_of_Z. destruct (n <? 0).
  - constructor; [reflexivity|].
    apply all_digits_token, digit_chars_all_digits.
  - apply all_digits_token, digit_chars_all_digits.
Qed.

Lemma zero_pad_all_digits (w : nat) (s : str) :
  all_digits s -> all_digits (zero_pad w s).
Proof.
  intros H. unfold zero_pad. apply Forall_app. split; [|exact H].
  apply List.Forall_forall. intros c Hc. apply repeat_spec in Hc. now subst.
Qed.

Lemma zero_pad_token (w : nat) (s : str) : token s -> token (zero_pad w s).
Proof.
  intros H. unfold zero_pad. apply token_app; [|exact H].
  apply List.Forall_forall. intros c Hc. apply repeat_spec in Hc. now subst.
Qed.

Lemma zero_pad_not_nil (w : nat) (s : str) : s <> [] -> zero_pad w s <> [].
Proof.
  intros H E. unfold zero_pad in E. apply app_eq_nil in E as [_ E].
  contradiction.
Qed.

(** *** Literals *)

Lemma parse_sign_digit (c : N) (r : str) :
  is_ascii_digit c = true -> parse_sign (c :: r) = (false, c :: r).
Proof.
  intros H. cbn [parse_sign].
  assert (Ht : token_char c = true) by (unfold token_char; now rewrite H).
  unfold is_ascii_digit in H. apply andb_true_iff in H as [H1 H2].
  apply N.leb_le in H1, H2.
  destruct (N.eqb_spec c 45); [lia|]. destruct (N.eqb_spec c 43); [lia|].
  reflexivity.
Qed.

Lemma parse_float_literal_digits (neg : bool) (cs : str) :
  all_digits cs -> cs <> [] ->
  (forall c r, cs = c :: r ->
     parse_sign (if neg then 45%N :: cs else cs) = (neg, cs)) ->
  parse_float_literal (if neg then 45%N :: cs else cs)
  = Ok (float_of_literal
          (LitDec neg (digits_value (map (fun c => (c - 48)%N) cs)) 0)).
Proof.
  intros Hd Hne Hsign.
  destruct cs as [|c r] eqn:Ecs; [contradiction|]. rewrite <- Ecs in *.
  unfold parse_float_literal, parse_decimal.
  rewrite (Hsign c r Ecs).
  rewrite <- (app_nil_r cs) at 1.
  rewrite (span_digits_app cs []) by (auto; discriminate).
  rewrite app_nil_r.
  destruct (map (fun c0 => (c0 - 48)%N) cs) as [|d ds] eqn:Em.
  { apply map_eq_nil in Em. contradiction. }
  reflexivity.
Qed.

Lemma map_sub_add (ds : list N) :
  map (fun c => (c - 48)%N) (map (N.add 48) ds) = ds.
Proof.
  induction ds as [|d r IH]; simpl; [reflexivity|].
  rewrite IH. f_equal. lia.
Qed.

Lemma parse_float_literal_int (n : Z) :
  parse_float_literal (str_of_Z n)
  = Ok (float_of_literal (LitDec (n <? 0) (Z.to_N (Z.abs n)) 0)).
Proof.
  unfold str_of_Z.
  destruct (Z.ltb_spec n 0) as [Hn|Hn].
  - replace (Z.to_N (Z.abs n)) with (Z.to_N (- n)) by (f_equal; lia).
    rewrite (parse_float_literal_digits true (digit_chars (Z.to_N (- n)))).
    + unfold digit_chars. now rewrite map_sub_add, digits_of_N_value.
    + apply digit_chars_all_digits.
    + apply digit_chars_not_nil.
    + intros c r _. reflexivity.
  - replace (Z.to_N (Z.abs n)) with (Z.to_N n) by (f_equal; lia).
    rewrite (parse_float_literal_digits false (digit_chars (Z.to_N n))).
    + unfold digit_chars. now rewrite map_sub_add, digits_of_N_value.
    + apply digit_chars_all_digits.
    + apply digit_chars_not_nil.
    + intros c r Hc. rewrite Hc. apply parse_sign_digit.
      pose proof (digit_chars_all_digits (Z.to_N n)) as Hall.
      rewrite Hc in Hall. now inversion Hall.
Qed.

Lemma float_of_literal_int (neg : bool) (k : N) :
  float_of_literal (LitDec neg k 0)
  = match round_binary64 (Z.of_N k) 1 with
    | Some (m, e) => FFin neg m e
    | None => FInf neg
    end.
Proof.
  unfold float_of_literal. cbn [Z.leb Z.compare].
  change (10 ^ 0) with 1. now rewrite Z.mul_1_r.
Qed.

Lemma parse_float_literal_hyphen (pre rest : str) :
  all_digits pre -> pre <> [] ->
  parse_float_literal (pre ++ 45%N :: rest) = Raise (ValueError []).
Proof.
  intros Hd Hne.
  destruct pre as [|c r] eqn:E; [contradiction|]. rewrite <- E in *.
  unfold parse_float_literal, parse_decimal.
  assert (Hs : parse_sign (pre ++ 45%N :: rest) = (false, pre ++ 45%N :: rest)).
  { rewrite E. cbn [app]. apply parse_sign_digit. rewrite E in Hd.
    now inversion Hd. }
  rewrite Hs, (span_digits_app pre (45%N :: rest)); auto.
  2:{ intros c0 t [= <- _]. reflexivity. }
  cbn [N.eqb Pos.eqb].
  destruct (map (fun c0 => (c0 - 48)%N) pre) as [|d ds] eqn:Em.
  { apply map_eq_nil in Em. contradiction. }
  reflexivity.
Qed.

Lemma parse_float_literal_of (t : str) (f : pyfloat) :
  parse_float_literal t = Ok f -> exists lit, f = float_of_literal lit.
Proof.
  unfold parse_float_literal.
  destruct (parse_decimal t) as [[lit [|c rest]]|].
  - intros [= <-]. now exists lit.
  - discriminate.
  - destruct (parse_inf_nan t) as [[lit [|c rest]]|]; try discriminate.
    intros [= <-]. now exists lit.
Qed.

Lemma float_of_literal_parts (lit : literal) (neg : bool) (m e : Z) :
  float_of_literal lit = FFin neg m e -> float_parts m e.
Proof.
  destruct lit as [|b|b mant e10]; cbn [float_of_literal]; try discriminate.
  destruct (Z.leb_spec 0 e10) as [He|He].
  - destruct (round_binary64 (Z.of_N mant * 10 ^ e10) 1) as [[m' e']|] eqn:R;
      [|discriminate].
    intros [= _ <- <-]. eapply round_binary64_parts; [| |exact R]; [|lia].
    assert (0 <= 10 ^ e10) by (apply Z.pow_nonneg; lia). lia.
  - destruct (round_binary64 (Z.of_N mant) (10 ^ (- e10))) as [[m' e']|] eqn:R;
      [|discriminate].
    intros [= _ <- <-]. eapply round_binary64_parts; [| |exact R]; [lia|].
    apply Z.pow_pos_nonneg; lia.
Qed.

Section Codigo.
Context {L : PyLib}.

Lemma float_of_str_token (s : str) :
  token s -> float_of_str s = parse_float_literal s.
Proof.
  intros Hs. unfold float_of_str, to_ascii_decimal, float_of_ascii.
  assert (Ha : forallb (fun c => (c <? 128)%N) s = true).
  { apply forallb_forall. intros c Hc. unfold token in Hs.
    rewrite List.Forall_forall in Hs. now apply token_char_facts, Hs. }
  rewrite Ha, scan_underscores_plain; [|reflexivity|].
  - rewrite token_ends; [reflexivity| |exact Hs].
    intros c Hc. now apply token_char_facts in Hc.
  - eapply Forall_impl; [exact Hs|].
    intros c Hc. now apply token_char_facts in Hc.
Qed.

Lemma normalizar_codigo_unfold (x : pyval) :
  normalizar_codigo x =
    if isna x || is_none x then []
    else match int_via_float x with
         | Ok n => str_of_Z n
         | Raise _ => strip (py_str x)
         end.
Proof.
  unfold normalizar_codigo, int_via_float, try_except, bind.
  destruct (isna x || is_none x); [reflexivity|].
  destruct (py_float x) as [f|e]; [|reflexivity].
  now destruct (int_of_float f).
Qed.

Lemma py_float_parts (x : pyval) (neg : bool) (m e : Z) :
  wf_val x = true -> py_float x = Ok (FFin neg m e) -> float_parts m e.
Proof.
  intros Hwf.
  destruct x as [|b|n|f|s|y mo d|]; cbn [py_float]; try discriminate.
  - intros [= _ <- <-]. split; [destruct b; lia|].
    intros _. destruct b; [|rewrite Z.mul_0_l];
      apply Z.pow_pos_nonneg || (rewrite Z.mul_1_l; reflexivity); lia.
  - destruct (round_binary64 (Z.abs n) 1) as [[m' e']|] eqn:R; [|discriminate].
    intros [= _ <- <-]. eapply round_binary64_parts; [| |exact R]; lia.
  - intros [= ->]. cbn [wf_val] in Hwf. now apply float_parts_binary64.
  - unfold float_of_str, float_of_ascii.
    destruct (scan_underscores 0 (to_ascii_decimal s)); [|discriminate].
    intros H. destruct (parse_float_literal_of _ _ H) as (lit & Hlit).
    symmetry in Hlit. exact (float_of_literal_parts lit neg m e Hlit).
Qed.

Lemma int_via_float_fixed (neg : bool) (m e : Z) :
  float_parts m e ->
  int_via_float
    (PStr (str_of_Z (if neg then - trunc_float m e else trunc_float m e)))
  = Ok (if neg then - trunc_float m e else trunc_float m e).
Proof.
  intros Hp.
  pose proof (trunc_float_nonneg m e (proj1 (proj1 Hp))) as Hk.
  destruct (round_trunc_fixed m e Hp) as (m' & q' & Hr & Ht).
  set (k := trunc_float m e) in *.
  set (n := if neg then - k else k).
  assert (Habs : Z.of_N (Z.to_N (Z.abs n)) = k).
  { unfold n. destruct neg; lia. }
  unfold int_via_float. cbn [py_float].
  rewrite (float_of_str_token _ (str_of_Z_token n)).
  rewrite parse_float_literal_int, float_of_literal_int, Habs, Hr.
  cbn [bind int_of_float]. rewrite Ht. f_equal.
  unfold n. destruct neg.
  - destruct (Z.ltb_spec (- k) 0); [reflexivity|lia].
  - destruct (Z.ltb_spec k 0); [lia|reflexivity].
Qed.

Lemma py_str_date_hyphen (y m d : Z) :
  0 <= y ->
  token (py_str (PDate y m d))
  /\ exists pre rest,
       py_str (PDate y m d) = pre ++ 45%N :: rest
       /\ all_digits pre /\ pre <> [].
Proof.
  intros Hy. cbn [py_str].
  assert (Ey : str_of_Z y = digit_chars (Z.to_N y)).
  { unfold str_of_Z. destruct (Z.ltb_spec y 0); [lia|reflexivity]. }
  split.
  - assert (Hh : token [45%N]) by (repeat constructor).
    apply token_app; [apply zero_pad_token, str_of_Z_token|].
    apply token_app; [exact Hh|].
    apply token_app; [apply zero_pad_token, str_of_Z_token|].
    apply token_app; [exact Hh|].
    apply zero_pad_token, str_of_Z_token.
  - eexists (zero_pad 4 (str_of_Z y)), _. split; [reflexivity|].
    rewrite Ey. split.
    + apply zero_pad_all_digits, digit_chars_all_digits.
    + apply zero_pad_not_nil, digit_chars_not_nil.
Qed.

(** When [float(x)] or [int] of it raises, so does the float of the
    trimmed string form. *)
Lemma int_via_float_raises (x : pyval) (e : exn) :
  wf_val x = true ->
  (forall s, x = PStr s -> plain_margins s = true) ->
  isna x || is_none x = false ->
  int_via_float x = Raise e ->
  exists e', int_via_float (PStr (strip (py_str x))) = Raise e'.
Proof.
  intros Hwf Hm Hna Hr.
  destruct x as [|b|n|f|s|y mo d|]; try discriminate.
  - (* an int too large for a float *)
    unfold int_via_float in Hr. cbn [py_float] in Hr.
    destruct (round_binary64 (Z.abs n) 1) as [[m' e']|] eqn:R;
      [discriminate|].
    cbn [py_str]. rewrite (strip_token _ (str_of_Z_token n)).
    unfold int_via_float. cbn [py_float].
    rewrite (float_of_str_token _ (str_of_Z_token n)).
    rewrite parse_float_literal_int, float_of_literal_int.
    replace (Z.of_N (Z.to_N (Z.abs n))) with (Z.abs n) by lia.
    rewrite R. eexists. reflexivity.
  - destruct f as [|neg|neg m q]; try discriminate.
    destruct neg; eexists; vm_compute; reflexivity.
  - cbn [py_str]. exists e. unfold int_via_float in *. cbn [py_float] in *.
    now rewrite (float_of_str_strip s (Hm s eq_refl)).
  - cbn [wf_val] in Hwf.
    assert (Hy : 0 <= y).
    { repeat (apply andb_true_iff in Hwf as [Hwf ?]).
      apply Z.leb_le in Hwf. lia. }
    destruct (py_str_date_hyphen y mo d Hy)
      as (Htok & pre & rest & Hs & Hpre & Hne).
    rewrite (strip_token _ Htok).
    unfold int_via_float. cbn [py_float].
    rewrite (float_of_str_token _ Htok), Hs.
    rewrite (parse_float_literal_hyphen pre rest Hpre Hne).
    eexists. reflexivity.
Qed.

Lemma normalizar_codigo_idempotent (x : pyval) :
  wf_val x = true ->
  (forall s, x = PStr s -> plain_margins s = true) ->
  normalizar_codigo (PStr (normalizar_codigo x)) = normalizar_codigo x.
Proof.
  intros Hwf Hm.
  rewrite (normalizar_codigo_unfold x).
  destruct (isna x || is_none x) eqn:Hna; [reflexivity|].
  destruct (int_via_float x) as [n|e] eqn:Hv.
  - unfold int_via_float in Hv.
    destruct (py_float x) as [f|] eqn:Hf; [|discriminate].
    destruct f as [|b|neg m q]; try discriminate.
    cbn [bind int_of_float] in Hv. injection Hv as <-.
    pose proof (py_float_parts x neg m q Hwf Hf) as Hp.
    rewrite normalizar_codigo_unfold. cbn [isna is_none orb].
    now rewrite (int_via_float_fixed neg m q Hp).
  - destruct (int_via_float_raises x e Hwf Hm Hna Hv) as (e' & He').
    rewrite normalizar_codigo_unfold. cbn [isna is_none orb].
    rewrite He'. cbn [py_str]. apply strip_with_idem.
Qed.

End Codigo.

Section CodigoSpec.
Context {L : PyLib}.

(** C7 (amended): [normalizar_codigo] is idempotent on every input that
    is not a string with an information separator (U+001C to U+001F) in
    its leading or trailing whitespace; it maps "23.0", "23" and " 23 " to
    "23"; a missing (None, NaN, NaT) or empty input gives the empty
    string; an input [float()] turns into a finite number gives the
    decimal string of its integer part; any other input, also one that
    [float()] reads as an infinity or as not-a-number, gives its trimmed
    string form. *)
Theorem normalizar_codigo_spec :
  (forall x, wf_val x = true -> plain_input x = true ->
     normalizar_codigo (PStr (normalizar_codigo x)) = normalizar_codigo x)
  /\ normalizar_codigo (PStr (u "23.0")) = u "23"
  /\ normalizar_codigo (PStr (u "23")) = u "23"
  /\ normalizar_codigo (PStr (u " 23 ")) = u "23"
  /\ normalizar_codigo (PFloat (FFin false 23 0)) = u "23"
  /\ (forall x, isna x = true \/ x = PNone \/ x = PStr [] ->
      normalizar_codigo x = [])
  /\ (forall x neg m e,
        isna x = false -> py_float x = Ok (FFin neg m e) ->
        normalizar_codigo x
        = str_of_Z (if neg then - trunc_float m e else trunc_float m e))
  /\ (forall x,
        isna x || is_none x = false ->
        (forall neg m e, py_float x <> Ok (FFin neg m e)) ->
        normalizar_codigo x = strip (py_str x)).
Proof.
  split.
  { intros x Hwf Hp. apply normalizar_codigo_idempotent; [exact Hwf|].
    intros s ->. exact Hp. }
  do 4 (split; [vm_compute; reflexivity|]).
  split; [|split].
  - intros x [H|[->| ->]]; [|reflexivity|reflexivity].
    unfold normalizar_codigo. now rewrite H.
  - intros x neg m e Hna Hf. rewrite normalizar_codigo_unfold.
    assert (Hn : is_none x = false)
      by (destruct x; try reflexivity; discriminate).
    rewrite Hna, Hn. unfold int_via_float. rewrite Hf. reflexivity.
  - intros x Hna Hf. rewrite normalizar_codigo_unfold, Hna.
    unfold int_via_float. destruct (py_float x) as [f|e]; [|reflexivity].
    destruct f as [| |neg m e]; try reflexivity.
    now destruct (Hf neg m e).
Qed.

End CodigoSpec.

Lemma normalizar_codigo_spec_witness :
  wf_val (PStr (u " 23.7 ")) = true
  /\ plain_input (PStr (u " 23.7 ")) = true
  /\ @normalizar_codigo narrow_lib
       (PStr (@normalizar_codigo narrow_lib (PStr (u " 23.7 "))))
     = @normalizar_codigo narrow_lib (PStr (u " 23.7 "))
  /\ @normalizar_codigo narrow_lib (PStr (u "PE-23 ")) = u "PE-23".
Proof.
  split; [reflexivity|]. split; [reflexivity|]. split.
  - apply (proj1 (@normalizar_codigo_spec narrow_lib)); reflexivity.
  - destruct (@normalizar_codigo_spec narrow_lib)
      as (_ & _ & _ & _ & _ & _ & _ & H).
    rewrite H; [reflexivity|reflexivity|].
    intros neg m e. vm_compute. discriminate.
Defined.

(** C7 as stated fails.  The string U+001C "23.0" is not a float for
    [float()], which does not skip the separator, so its trimmed form
    "23.0" comes back; normalising that gives "23".  And "inf" is read by
    [float()] yet comes back as it is, not as an integer. *)
Lemma normalizar_codigo_separator_not_idempotent :
  wf_val (PStr (28%N :: u "23.0")) = true
  /\ plain_input (PStr (28%N :: u "23.0")) = false
  /\ @normalizar_codigo narrow_lib (PStr (28%N :: u "23.0")) = u "23.0"
  /\ @normalizar_codigo narrow_lib
       (PStr (@normalizar_codigo narrow_lib (PStr (28%N :: u "23.0"))))
     = u "23"
  /\ @normalizar_codigo narrow_lib
       (PStr (@normalizar_codigo narrow_lib (PStr (28%N :: u "23.0"))))
     <> @normalizar_codigo narrow_lib (PStr (28%N :: u "23.0"))
  /\ @py_float narrow_lib (PStr (u "inf")) = Ok (FInf false)
  /\ @normalizar_codigo narrow_lib (PStr (u "inf")) = u "inf".
Proof. vm_compute. repeat split. discriminate. Qed.

(** * Further properties *)

(** ** Select boxes *)

Lemma eq_str_val_true (o : str) (value : pyval) :
  eq_str_val o value = true <-> value = PStr o.
Proof.
  unfold eq_str_val, str_eqb. destruct value; try (split; discriminate).
  rewrite bool_decide_eq_true. split; [intros ->|intros [= ->]]; reflexivity.
Qed.

Lemma list_index_ok (options : list str) (value : pyval) (i : nat) :
  list_index options value = Ok i ->
  nth_error options i = Some (nth i options [])
  /\ value = PStr (nth i options [])
  /\ forall j, (j < i)%nat -> value <> PStr (nth j options []).
Proof.
  revert i. induction options as [|o r IH]; intros i; cbn [list_index].
  - discriminate.
  - destruct (eq_str_val o value) eqn:E.
    + intros [= <-]. apply eq_str_val_true in E.
      repeat split; [exact E|]. intros j Hj. lia.
    + destruct (list_index r value) as [k|e]; cbn [bind]; [|discriminate].
      intros [= <-]. destruct (IH k eq_refl) as (H1 & H2 & H3).
      repeat split; [exact H1|exact H2|].
      intros [|j] Hj; cbn [nth].
      * intros Hv. apply eq_str_val_true in Hv. congruence.
      * apply H3. lia.
Qed.

Lemma list_index_raise (options : list str) (value : pyval) (e : exn) :
  list_index options value = Raise e ->
  forall s, In s options -> value <> PStr s.
Proof.
  revert e. induction options as [|o r IH]; intros e; cbn [list_index];
    [intros _ s []|].
  destruct (eq_str_val o value) eqn:E; [discriminate|].
  destruct (list_index r value) as [k|e'] eqn:Er; cbn [bind]; [discriminate|].
  intros _ s [<-|Hs].
  - intros Hv. apply eq_str_val_true in Hv. congruence.
  - exact (IH e' eq_refl s Hs).
Qed.

(** X1: [index_of] returns the position of the first option equal to the
    value; with no such option it returns the fallback; and with the
    fallback 0 the position it returns is one of a list that is not
    empty. *)
Theorem index_of_first_or_fallback (options : list str) (value : pyval)
    (fallback : nat) :
  (forall s, value = PStr s -> In s options ->
     nth_error options (index_of options value fallback) = Some s
     /\ forall j, (j < index_of options value fallback)%nat ->
          nth j options [] <> s)
  /\ ((forall s, In s options -> value <> PStr s) ->
      index_of options value fallback = fallback)
  /\ (options <> [] -> (index_of options value 0 < length options)%nat).
Proof.
  unfold index_of, try_except. split; [|split].
  - intros s -> Hin.
    destruct (list_index options (PStr s)) as [i|e] eqn:E.
    + destruct (list_index_ok _ _ _ E) as (H1 & [= H2] & H3).
      rewrite H1, <- H2. split; [reflexivity|].
      intros j Hj Hn. apply (H3 j Hj). congruence.
    + now destruct (list_index_raise _ _ _ E s Hin).
  - intros Hno. destruct (list_index options value) as [i|e] eqn:E;
      [|reflexivity].
    destruct (list_index_ok _ _ _ E) as (H1 & H2 & _).
    destruct (Hno (nth i options [])); [|exact H2].
    eapply nth_error_In. exact H1.
  - intros Hne. destruct (list_index options value) as [i|e] eqn:E.
    + destruct (list_index_ok _ _ _ E) as (H1 & _).
      apply nth_error_Some. now rewrite H1.
    + destruct options; [contradiction|simpl; lia].
Qed.

Lemma index_of_first_or_fallback_witness :
  nth_error estado_opts (index_of estado_opts (PStr (u "Emitido")) 0)
    = Some (u "Emitido")
  /\ index_of estado_opts PNone 0 = 0%nat.
Proof.
  split.
  - apply (proj1 (index_of_first_or_fallback estado_opts
                    (PStr (u "Emitido")) 0) (u "Emitido") eq_refl).
    right. left. reflexivity.
  - apply (proj1 (proj2 (index_of_first_or_fallback estado_opts PNone 0))).
    intros s _. discriminate.
Defined.

Lemma opciones_articulacion_cases (nivel : str) :
  opciones_articulacion nivel = [u "PEDN 2050"; u "PDRC"]
  \/ opciones_articulacion nivel
     = [u "PEDN 2050"; u "PESEM NO vigente"; u "PESEM vigente"]
  \/ opciones_articulacion nivel
     = [u "PEDN 2050"; u "PDRC"; u "PDLC Provincial"; u "PDLC Distrital"]
  \/ opciones_articulacion nivel = [].
Proof.
  unfold opciones_articulacion, str_eqb.
  case_bool_decide; [left; reflexivity|].
  case_bool_decide; [right; left; reflexivity|].
  case_bool_decide; [do 2 right; left; reflexivity|].
  case_bool_decide; [do 2 right; left; reflexivity|do 3 right; reflexivity].
Qed.

(** X2: the index given to the Articulación select box lies within the
    options of the unit's level whenever that level has options; a level
    other than the four the form knows has none. *)
Theorem articulacion_index_in_range (nivel : str) (form : pydict) :
  (opciones_articulacion nivel <> [] ->
   (articulacion_index nivel form < length (opciones_articulacion nivel))%nat
   /\ hd [] (opciones_articulacion nivel) = u "PEDN 2050")
  /\ (opciones_articulacion nivel = [] <->
      ~ In nivel [u "Gobierno regional"; u "Gobierno nacional";
                  u "Municipalidad distrital"; u "Municipalidad provincial"]).
Proof.
  split.
  - intros Hne. split.
    + unfold articulacion_index.
      destruct (opciones_articulacion nivel) as [|o r] eqn:E; [contradiction|].
      apply (proj2 (proj2 (index_of_first_or_fallback (o :: r) _ 0%nat))).
      discriminate.
    + destruct (opciones_articulacion_cases nivel) as [E|[E|[E|E]]];
        rewrite E in Hne |- *; [reflexivity..|contradiction].
  - unfold opciones_articulacion, str_eqb. cbn [In].
    repeat case_bool_decide; cbn [orb];
      (split; [try (intros E; symmetry in E; destruct (nil_cons E))|]).
    + intros Hnot. destruct Hnot. left. now symmetry.
    + intros Hnot. destruct Hnot. right. left. now symmetry.
    + intros Hnot. destruct Hnot. right. right. left. now symmetry.
    + intros Hnot. destruct Hnot. right. right. left. now symmetry.
    + intros Hnot. destruct Hnot. right. right. right. left. now symmetry.
    + intros _ [E|[E|[E|[E|[]]]]]; congruence.
    + reflexivity.
Qed.

Lemma articulacion_index_in_range_witness :
  (articulacion_index (u "Gobierno nacional")
     [("articulacion"%string, PStr (u "PDRC"))]
   < length (opciones_articulacion (u "Gobierno nacional")))%nat
  /\ opciones_articulacion (u "Ministerio") = [].
Proof.
  split.
  - apply (proj1 (articulacion_index_in_range (u "Gobierno nacional")
                    [("articulacion"%string, PStr (u "PDRC"))])).
    discriminate.
  - apply (proj2 (articulacion_index_in_range (u "Ministerio") [])).
    vm_compute. intuition discriminate.
Defined.

Lemma choice_get_in (mapping : list (str * str)) (s v : str) :
  choice_get mapping s = Some v -> In v (map snd mapping).
Proof.
  induction mapping as [|[k w] r IH]; simpl; [discriminate|].
  destruct (str_eqb k s); [intros [= ->]; now left|auto].
Qed.

Section FormFacts.
Context {L : PyLib}.

Lemma norm_choice_range (val : pyval) (mapping : list (str * str))
    (d : str) :
  exists v, norm_choice val mapping (PStr d) = PStr v
            /\ In v (d :: map snd mapping).
Proof.
  unfold norm_choice.
  destruct (choice_get mapping _) as [v|] eqn:E.
  - exists v. split; [reflexivity|]. right. eapply choice_get_in, E.
  - exists d. split; [reflexivity|now left].
Qed.

(** X3: for every row, each choice field of the form state the Record
    Mapper builds is an option of its select box, so that [index_of]
    finds it there and the box opens on it. *)
Theorem mapper_choice_is_option (row : pydict) (f : string)
    (opts : list str) :
  In (f, opts) select_boxes ->
  exists o,
    dict_get (set_form_state_from_row row) f = Some (PStr o)
    /\ nth_error opts
         (index_of opts (get_or (set_form_state_from_row row) f PNone) 0)
       = Some o.
Proof.
  intros Hin. unfold get_or. simpl in Hin.
  destruct Hin as [E|[E|[E|[E|[]]]]]; injection E as <- <-.
  - rewrite (set_form_state_field row "tipo_pei" _ (KChoice tipo_pei_map))
      by pick_field.
    cbn [convert].
    destruct (norm_choice_range
                (get_chain row ["tipo_pei"; "Tipo de PEI"]%string
                   (form_default "tipo_pei")) tipo_pei_map (u "Formulado"))
      as (v & Hv & Hin).
    change (PStr (u "Formulado")) with (form_default "tipo_pei") in Hv.
    rewrite Hv. exists v. split; [reflexivity|].
    cbn [In map snd tipo_pei_map] in Hin.
    repeat (destruct Hin as [<-|Hin]; [vm_compute; reflexivity|]).
    destruct Hin.
  - rewrite (set_form_state_field row "etapa_revision" _ (KChoice etapa_map))
      by pick_field.
    cbn [convert].
    destruct (norm_choice_range
                (get_chain row ["etapas_revision"; "etapa_revision";
                                "Etapas de revisión"]%string
                   (form_default "etapa_revision")) etapa_map
                (u "IT Emitido"))
      as (v & Hv & Hin).
    change (PStr (u "IT Emitido")) with (form_default "etapa_revision") in Hv.
    rewrite Hv. exists v. split; [reflexivity|].
    cbn [In map snd etapa_map] in Hin.
    repeat (destruct Hin as [<-|Hin]; [vm_compute; reflexivity|]).
    destruct Hin.
  - rewrite (set_form_state_field row "vigencia" _ (KChoice vigencia_map))
      by pick_field.
    cbn [convert].
    destruct (norm_choice_range
                (get_chain row ["vigencia"; "Vigencia"]%string
                   (form_default "vigencia")) vigencia_map (u "Sí"))
      as (v & Hv & Hin).
    change (PStr (u "Sí")) with (form_default "vigencia") in Hv.
    rewrite Hv. exists v. split; [reflexivity|].
    cbn [In map snd vigencia_map] in Hin.
    repeat (destruct Hin as [<-|Hin]; [vm_compute; reflexivity|]).
    destruct Hin.
  - rewrite (set_form_state_field row "estado" _ (KChoice estado_map))
      by pick_field.
    cbn [convert].
    destruct (norm_choice_range
                (get_chain row ["estado"; "Estado"]%string
                   (form_default "estado")) estado_map (u "En proceso"))
      as (v & Hv & Hin).
    change (PStr (u "En proceso")) with (form_default "estado") in Hv.
    rewrite Hv. exists v. split; [reflexivity|].
    cbn [In map snd estado_map] in Hin.
    repeat (destruct Hin as [<-|Hin]; [vm_compute; reflexivity|]).
    destruct Hin.
Qed.

End FormFacts.

(** ** Gateway: coercions and the statement built *)

Lemma round_small (k : Z) :
  0 <= k <= 2 ^ 53 ->
  exists m e, round_binary64 k 1 = Some (m, e) /\ trunc_float m e = k.
Proof.
  intros Hk.
  assert (Ht : trunc_float k 0 = k).
  { unfold trunc_float. cbn [Z.leb Z.compare]. rewrite Z.pow_0_r. lia. }
  destruct (round_trunc_fixed k 0) as (m & e & H1 & H2).
  { split; [exact Hk|]. intros _. rewrite Z.pow_0_r, Z.mul_1_r.
    assert (2 ^ 53 < 2 ^ 1024) by (apply Z.pow_lt_mono_r; lia). lia. }
  rewrite Ht in H1, H2. now exists m, e.
Qed.

Lemma dict_keys_set (d : pydict) (k : string) (v : pyval) :
  dict_keys (dict_set d k v)
  = match dict_get d k with
    | Some _ => dict_keys d
    | None => dict_keys d ++ [k]
    end.
Proof.
  unfold dict_keys. induction d as [|[k' v'] r IH]; simpl; [reflexivity|].
  destruct (String.eqb_spec k' k) as [->|Hne]; simpl; [reflexivity|].
  rewrite IH. now destruct (dict_get r k).
Qed.

Lemma dict_get_some_in_keys (d : pydict) (k : string) (v : pyval) :
  dict_get d k = Some v -> In k (dict_keys d).
Proof.
  induction d as [|[k' v'] r IH]; simpl; [discriminate|].
  destruct (String.eqb_spec k' k) as [->|Hne]; [now left|].
  intros H. right. exact (IH H).
Qed.

Section GatewayMore.
Context {L : PyLib}.

Lemma to_int_int (n : Z) : Z.abs n <= 2 ^ 53 -> _to_int (PInt n) = PInt n.
Proof.
  intros Hn. unfold _to_int. cbn [is_none is_float_nan orb py_float].
  destruct (round_small (Z.abs n)) as (m & e & -> & Ht); [lia|].
  cbn [bind int_of_float try_except]. rewrite Ht.
  destruct (Z.ltb_spec n 0); f_equal; lia.
Qed.

Lemma to_int_range (x : pyval) :
  _to_int x = PNone \/ exists n, _to_int x = PInt n.
Proof.
  unfold _to_int. destruct (_ || _); [now left|].
  destruct (py_float x) as [f|e]; cbn [bind try_except]; [|now left].
  destruct (int_of_float f) as [n|e]; cbn [bind try_except]; [|now left].
  right. now exists n.
Qed.

Lemma to_int_idem (x : pyval) :
  wf_val x = true -> _to_int (_to_int x) = _to_int x.
Proof.
  intros Hwf.
  assert (Hnone : _to_int PNone = PNone) by reflexivity.
  destruct (is_none x || is_float_nan x) eqn:E0.
  { assert (E : _to_int x = PNone) by (unfold _to_int; now rewrite E0).
    now rewrite E. }
  destruct (py_float x) as [f|e] eqn:Ef.
  2:{ assert (E : _to_int x = PNone)
        by (unfold _to_int; now rewrite E0, Ef).
      now rewrite E. }
  destruct f as [|neg|neg m e].
  1,2: assert (E : _to_int x = PNone)
         by (unfold _to_int; now rewrite E0, Ef); now rewrite E.
  pose proof (py_float_parts x neg m e Hwf Ef) as Hp.
  pose proof (trunc_float_nonneg m e (proj1 (proj1 Hp))) as Hk.
  destruct (round_trunc_fixed m e Hp) as (m' & q' & Hr & Ht).
  set (k := trunc_float m e) in *.
  assert (E : _to_int x = PInt (if neg then - k else k))
    by (unfold _to_int; now rewrite E0, Ef).
  rewrite E. unfold _to_int. cbn [is_none is_float_nan orb py_float].
  replace (Z.abs (if neg then - k else k)) with k by (destruct neg; lia).
  rewrite Hr. cbn [bind int_of_float try_except]. rewrite Ht.
  destruct neg; destruct (Z.ltb_spec (- k) 0); destruct (Z.ltb_spec k 0);
    f_equal; lia.
Qed.

(** X4: [_to_int] returns None or an int; it keeps every int of absolute
    value at most 2^53 and moves 2^53 + 1 to 2^53; applied to its own
    result it changes nothing. *)
Theorem to_int_exact_below_2p53 (x : pyval) :
  (_to_int x = PNone \/ exists n, _to_int x = PInt n)
  /\ (forall n, x = PInt n -> Z.abs n <= 2 ^ 53 -> _to_int x = x)
  /\ _to_int (PInt (2 ^ 53 + 1)) = PInt (2 ^ 53)
  /\ (wf_val x = true -> _to_int (_to_int x) = _to_int x).
Proof.
  split; [apply to_int_range|].
  split; [intros n -> Hn; now apply to_int_int|].
  split; [vm_compute; reflexivity|].
  apply to_int_idem.
Qed.

Lemma missing_of_nuevo_pg (ss : session) (w : widgets) :
  missing_of (nuevo_pg ss w) = [] <->
  strip (codigo ss) <> [] /\ truthy (fecha_recepcion w) = true.
Proof.
  rewrite missing_of_nil.
  change (get_or (nuevo_pg ss w) "id_ue" PNone)
    with (PStr (strip (codigo ss))).
  change (get_or (nuevo_pg ss w) "fecha_recepcion" PNone)
    with (fecha_recepcion w).
  cbn [truthy]. destruct (strip (codigo ss)); split; intros [H1 H2];
    (split; [discriminate || congruence || reflexivity|exact H2]).
Qed.

Lemma clean_str_trimmed (s : str) :
  strip s <> [] -> _clean_str (PStr (strip s)) = PStr (strip s).
Proof.
  intros Hs. unfold _clean_str. cbn [is_none py_str].
  unfold strip. rewrite strip_with_idem. fold (strip s).
  destruct (strip s); [contradiction|reflexivity].
Qed.

Lemma revisiones_int_abs (w : widgets) :
  revisiones_int w = cantidad_revisiones w.
Proof.
  unfold revisiones_int. cbn [truthy].
  destruct (Z.eqb_spec (cantidad_revisiones w) 0) as [->|]; reflexivity.
Qed.

Lemma insert_nuevo_pg (ss : session) (w : widgets) :
  strip (codigo ss) <> [] -> truthy (fecha_recepcion w) = true ->
  insert_it_pei (nuevo_pg ss w)
  = Ok (InsertInto (dict_keys (nuevo_pg ss w))
          (dict_set
             (dict_set (nuevo_pg ss w) "anio" (_to_int (PInt (year_now ss))))
             "cantidad_revisiones"
             (_to_int (PInt (cantidad_revisiones w))))).
Proof.
  intros Hc Hf. unfold insert_it_pei.
  rewrite (proj2 (missing_of_nuevo_pg ss w) (conj Hc Hf)).
  change (get_or (nuevo_pg ss w) "id_ue" PNone)
    with (PStr (strip (codigo ss))).
  rewrite (clean_str_trimmed _ Hc).
  rewrite <- (revisiones_int_abs w).
  reflexivity.
Qed.

(** X5: the record the form builds is refused exactly when the unit's code
    is blank or the reception date is falsy; otherwise, with the year and
    the number of revisions within 2^53, the statement binds the record
    as built, one column per key. *)
Theorem form_insert_binds_record (ss : session) (w : widgets) :
  (strip (codigo ss) = [] \/ truthy (fecha_recepcion w) = false ->
   exists msg, insert_it_pei (nuevo_pg ss w) = Raise (ValueError msg))
  /\ (strip (codigo ss) <> [] -> truthy (fecha_recepcion w) = true ->
      Z.abs (year_now ss) <= 2 ^ 53 ->
      Z.abs (cantidad_revisiones w) <= 2 ^ 53 ->
      insert_it_pei (nuevo_pg ss w)
      = Ok (InsertInto (dict_keys (nuevo_pg ss w)) (nuevo_pg ss w))).
Proof.
  split.
  - intros H. eexists. apply insert_raises_iff_missing.
    intros E. apply missing_of_nuevo_pg in E as [H1 H2].
    destruct H as [H|H]; congruence.
  - intros Hc Hf Hy Hn. rewrite (insert_nuevo_pg ss w Hc Hf).
    rewrite (to_int_int _ Hy), (to_int_int _ Hn).
    rewrite <- (revisiones_int_abs w) at 1. reflexivity.
Qed.

(** X6: a unit code of blanks only passes the check of the required
    fields, and the statement binds [id_ue] to None. *)
Theorem insert_blank_unit_binds_none (record : pydict) (s : str)
    (fecha : pyval) :
  dict_get record "id_ue" = Some (PStr s) ->
  s <> [] -> strip s = [] ->
  dict_get record "fecha_recepcion" = Some fecha -> truthy fecha = true ->
  exists stmt,
    insert_it_pei record = Ok stmt
    /\ In "id_ue"%string (stmt_cols stmt)
    /\ dict_get (stmt_params stmt) "id_ue" = Some PNone.
Proof.
  intros Hid Hs Hb Hf Ht.
  destruct (insert_ok_params record) as (stmt & H1 & H2 & H3 & _).
  { apply missing_of_nil. unfold get_or. rewrite Hid, Hf.
    split; [|exact Ht]. cbn [truthy]. destruct s; [contradiction|reflexivity]. }
  exists stmt. split; [exact H1|].
  unfold get_or in H3. rewrite Hid in H3.
  unfold _clean_str in H3. cbn [is_none py_str] in H3. rewrite Hb in H3.
  split; [|exact H3].
  rewrite H2. exact (dict_get_some_in_keys _ _ _ H3).
Qed.

End GatewayMore.

(** ** From the form to the store and back *)

Section RoundTrip.
Context {L : PyLib}.

Lemma safe_date_date (y m d : Z) :
  to_datetime_date (PDate y m d) = Some (PDate y m d) ->
  _safe_date (PDate y m d) = PDate y m d.
Proof.
  intros H. unfold _safe_date. cbn [isna is_none orb]. rewrite H.
  unfold str_eqb. rewrite bool_decide_eq_false_2; [reflexivity|].
  intros E.
  assert (Hin : In 45%N (strip (py_str (PDate y m d)))).
  { apply strip_with_keeps; [|reflexivity].
    cbn [py_str]. apply in_or_app. right. now left. }
  rewrite E in Hin. destruct Hin.
Qed.

Lemma option_is_fixed (f : string) (opts : list str) (keys : list string)
    (mapping : list (str * str)) (o : str) :
  In (f, opts) select_boxes ->
  In (f, keys, KChoice mapping) logical_fields ->
  In o opts ->
  norm_choice (PStr o) mapping (form_default f) = PStr o.
Proof.
  intros Hb Hf Ho. simpl in Hb.
  destruct Hb as [E|[E|[E|[E|[]]]]]; injection E as <- <-;
    simpl in Hf;
    repeat (destruct Hf as [Hf|Hf];
            [try discriminate Hf; injection Hf as <- <-|]);
    try destruct Hf;
    cbn [In tipo_pei_opts etapas_opts vigencia_opts estado_opts] in Ho;
    repeat (destruct Ho as [<-|Ho]; [vm_compute; reflexivity|]);
    destruct Ho.
Qed.

Lemma safe_str_str (s : str) : _safe_str (PStr s) = strip s.
Proof. reflexivity. Qed.

(** X8: a record the form inserts, read back by the Record Mapper, gives
    the form state the user entered: each select box its chosen option,
    each text field its text without the blank margins, each date that
    [pd.to_datetime] returns unchanged, and the number of revisions when
    it is at most 2^53. *)
Theorem insert_then_load_round_trip (ss : session) (w : widgets) :
  strip (codigo ss) <> [] -> truthy (fecha_recepcion w) = true ->
  exists stmt,
    insert_it_pei (nuevo_pg ss w) = Ok stmt
    /\ let form := set_form_state_from_row (stmt_params stmt) in
       (forall f opts o,
          In (f, opts, o)
            [("tipo_pei", tipo_pei_opts, tipo_pei w);
             ("etapa_revision", etapas_opts, etapa_revision w);
             ("vigencia", vigencia_opts, vigencia w);
             ("estado", estado_opts, estado w)]%string ->
          In o opts -> dict_get form f = Some (PStr o))
       /\ (forall f s,
             In (f, s)
               [("periodo", periodo w); ("comentario", comentario w);
                ("expediente", expediente w); ("numero_it", numero_it w);
                ("numero_oficio", numero_oficio w)]%string ->
             dict_get form f = Some (PStr (strip s)))
       /\ (forall nivel o,
             articulacion w = PStr o -> In o (opciones_articulacion nivel) ->
             dict_get form "articulacion" = Some (PStr o))
       /\ (forall f y m d,
             In (f, PDate y m d)
               [("fecha_recepcion", fecha_recepcion w);
                ("fecha_derivacion", fecha_derivacion w);
                ("fecha_it", fecha_it w);
                ("fecha_oficio", fecha_oficio w)]%string ->
             to_datetime_date (PDate y m d) = Some (PDate y m d) ->
             dict_get form f = Some (PDate y m d))
       /\ (Z.abs (cantidad_revisiones w) <= 2 ^ 53 ->
           dict_get form "cantidad_revisiones"
           = Some (PInt (cantidad_revisiones w))).
Proof.
  intros Hc Hf. rewrite (insert_nuevo_pg ss w Hc Hf).
  eexists. split; [reflexivity|]. cbn [stmt_params].
  set (params := dict_set _ _ _). cbv zeta.
  split; [|split; [|split; [|split]]].
  - intros f opts o Hin Ho.
    destruct Hin as [E|[E|[E|[E|[]]]]]; injection E as <- <- <-.
    + rewrite (set_form_state_field params "tipo_pei" _ (KChoice tipo_pei_map))
        by pick_field.
      change (get_chain params _ _) with (PStr (tipo_pei w)).
      cbn [convert]. f_equal.
      apply (option_is_fixed "tipo_pei" tipo_pei_opts
               ["tipo_pei"; "Tipo de PEI"]%string);
        [pick_field|pick_field|exact Ho].
    + rewrite (set_form_state_field params "etapa_revision" _
                 (KChoice etapa_map)) by pick_field.
      change (get_chain params _ _) with (PStr (etapa_revision w)).
      cbn [convert]. f_equal.
      apply (option_is_fixed "etapa_revision" etapas_opts
               ["etapas_revision"; "etapa_revision";
                "Etapas de revisión"]%string);
        [pick_field|pick_field|exact Ho].
    + rewrite (set_form_state_field params "vigencia" _
                 (KChoice vigencia_map)) by pick_field.
      change (get_chain params _ _) with (PStr (vigencia w)).
      cbn [convert]. f_equal.
      apply (option_is_fixed "vigencia" vigencia_opts
               ["vigencia"; "Vigencia"]%string);
        [pick_field|pick_field|exact Ho].
    + rewrite (set_form_state_field params "estado" _ (KChoice estado_map))
        by pick_field.
      change (get_chain params _ _) with (PStr (estado w)).
      cbn [convert]. f_equal.
      apply (option_is_fixed "estado" estado_opts
               ["estado"; "Estado"]%string);
        [pick_field|pick_field|exact Ho].
  - intros f s Hin.
    destruct Hin as [E|[E|[E|[E|[E|[]]]]]]; injection E as <- <-.
    + rewrite (set_form_state_field params "periodo" _ KStr) by pick_field.
      reflexivity.
    + rewrite (set_form_state_field params "comentario" _ KStr)
        by pick_field.
      reflexivity.
    + rewrite (set_form_state_field params "expediente" _ KStr)
        by pick_field.
      reflexivity.
    + rewrite (set_form_state_field params "numero_it" _ KStr)
        by pick_field.
      reflexivity.
    + rewrite (set_form_state_field params "numero_oficio" _ KStr)
        by pick_field.
      reflexivity.
  - intros nivel o Ha Ho.
    rewrite (set_form_state_field params "articulacion" _ KStr)
      by pick_field.
    change (get_chain params _ _) with (articulacion w).
    rewrite Ha. cbn [convert]. rewrite safe_str_str. do 2 f_equal.
    destruct (opciones_articulacion_cases nivel) as [E|[E|[E|E]]];
      rewrite E in Ho; cbn [In] in Ho;
      repeat (destruct Ho as [<-|Ho]; [vm_compute; reflexivity|]);
      destruct Ho.
  - intros f y m d Hin Hd.
    destruct Hin as [E|[E|[E|[E|[]]]]]; injection E as <- E.
    + rewrite (set_form_state_field params "fecha_recepcion" _ KDate)
        by pick_field.
      change (get_chain params _ _) with (fecha_recepcion w).
      rewrite E. cbn [convert]. now rewrite safe_date_date.
    + rewrite (set_form_state_field params "fecha_derivacion" _ KDate)
        by pick_field.
      change (get_chain params _ _) with (fecha_derivacion w).
      rewrite E. cbn [convert]. now rewrite safe_date_date.
    + rewrite (set_form_state_field params "fecha_it" _ KDate)
        by pick_field.
      change (get_chain params _ _) with (fecha_it w).
      rewrite E. cbn [convert]. now rewrite safe_date_date.
    + rewrite (set_form_state_field params "fecha_oficio" _ KDate)
        by pick_field.
      change (get_chain params _ _) with (fecha_oficio w).
      rewrite E. cbn [convert]. now rewrite safe_date_date.
  - intros Hn.
    rewrite (set_form_state_field params "cantidad_revisiones" _ KInt)
      by pick_field.
    change (get_chain params _ _)
      with (_to_int (PInt (cantidad_revisiones w))).
    rewrite (to_int_int _ Hn). reflexivity.
Qed.

End RoundTrip.

(** ** Session state *)

Lemma dict_get_setdefault (d : pydict) (k k' : string) (v : pyval) :
  dict_get (dict_setdefault d k v) k'
  = match dict_get d k' with
    | Some x => Some x
    | None => if String.eqb k k' then Some v else None
    end.
Proof.
  unfold dict_setdefault.
  destruct (String.eqb_spec k k') as [<-|Hne].
  - destruct (dict_get d k) eqn:E; [now rewrite E|].
    now rewrite dict_get_set_eq.
  - destruct (dict_get d k) eqn:E.
    + now destruct (dict_get d k').
    + rewrite dict_get_set_ne by exact Hne. now destruct (dict_get d k').
Qed.

Lemma fold_setdefault_get (l d : pydict) (k : string) :
  dict_get
    (fold_left (fun acc kv => dict_setdefault acc (fst kv) (snd kv)) l d) k
  = match dict_get d k with
    | Some x => Some x
    | None => dict_get l k
    end.
Proof.
  revert d. induction l as [|[k0 v0] r IH]; intros d; cbn [fold_left].
  - cbn [dict_get]. now destruct (dict_get d k).
  - rewrite IH, dict_get_setdefault. cbn [fst snd dict_get].
    destruct (dict_get d k); [reflexivity|].
    now destruct (String.eqb k0 k).
Qed.

Lemma fold_setdefault_full (l d : pydict) :
  (forall k, In k (dict_keys l) -> dict_get d k <> None) ->
  fold_left (fun acc kv => dict_setdefault acc (fst kv) (snd kv)) l d = d.
Proof.
  revert d. induction l as [|[k0 v0] r IH]; intros d H; cbn [fold_left];
    [reflexivity|].
  assert (E : dict_setdefault d k0 v0 = d).
  { unfold dict_setdefault.
    destruct (dict_get d k0) eqn:E; [reflexivity|].
    destruct (H k0); [now left|exact E]. }
  cbn [fst snd]. rewrite E. apply IH. intros k Hk. apply H. now right.
Qed.

(** X9: [init_form_state] leaves a form state with every key of
    [FORM_DEFAULTS]: a stored dict keeps each of its entries and gains the
    default of each key it lacks, anything else is replaced by the
    defaults; a second call changes nothing. *)
Theorem init_form_state_completes (st : app_state) :
  exists d',
    st_form (init_form_state st) = Some (SlotDict d')
    /\ (forall k, In k (dict_keys FORM_DEFAULTS) -> dict_get d' k <> None)
    /\ (forall d, st_form st = Some (SlotDict d) ->
        forall k, dict_get d' k
                  = match dict_get d k with
                    | Some v => Some v
                    | None => dict_get FORM_DEFAULTS k
                    end)
    /\ ((forall d, st_form st <> Some (SlotDict d)) -> d' = FORM_DEFAULTS)
    /\ init_form_state (init_form_state st) = init_form_state st.
Proof.
  assert (Hdef : forall k, In k (dict_keys FORM_DEFAULTS) ->
                           dict_get FORM_DEFAULTS k <> None).
  { intros k Hk E. now apply dict_get_in_keys in E. }
  unfold init_form_state at 1 3 4.
  destruct (st_form st) as [[d|v]|] eqn:Est.
  - eexists. split; [reflexivity|].
    assert (Hfull : forall k, In k (dict_keys FORM_DEFAULTS) ->
      dict_get (fold_left
                  (fun acc kv => dict_setdefault acc (fst kv) (snd kv))
                  FORM_DEFAULTS d) k <> None).
    { intros k Hk. rewrite fold_setdefault_get.
      destruct (dict_get d k); [discriminate|now apply Hdef]. }
    split; [exact Hfull|].
    split; [intros d0 [= <-] k; apply fold_setdefault_get|].
    split; [intros H; now destruct (H d)|].
    unfold init_form_state. cbn [st_form with_form].
    now rewrite (fold_setdefault_full _ _ Hfull).
  - exists FORM_DEFAULTS. split; [reflexivity|].
    split; [exact Hdef|]. split; [discriminate|]. split; [reflexivity|].
    unfold init_form_state. cbn [st_form with_form].
    now rewrite (fold_setdefault_full _ _ Hdef).
  - exists FORM_DEFAULTS. split; [reflexivity|].
    split; [exact Hdef|]. split; [discriminate|]. split; [reflexivity|].
    unfold init_form_state. cbn [st_form with_form].
    now rewrite (fold_setdefault_full _ _ Hdef).
Qed.

Section SessionFacts.
Context {L : PyLib}.

Lemma mapper_keys (row : pydict) :
  dict_keys (set_form_state_from_row row) = dict_keys FORM_DEFAULTS.
Proof. reflexivity. Qed.

Lemma update_target_of (st : app_state) (c r : str) (y : Z) (n : Z) :
  st_edit_mode st = Some true -> st_edit_id st = Some (Some n) ->
  update_target (session_of st c r y) = if n =? 0 then None else Some n.
Proof.
  intros H1 H2. unfold update_target, session_of.
  cbn [edit_mode edit_id]. rewrite H1, H2. cbn [truthy].
  now destruct (n =? 0).
Qed.

(** X10: the button that loads the latest record puts the mapped row in
    the form state, where the next [init_form_state] leaves it as it is,
    and opens the form; a submit that passes the issue check then updates
    the row of the loaded identifier, and inserts a new row when that
    identifier is 0. *)
Theorem load_opens_update (st : app_state) (row : pydict) (v : pyval)
    (n : Z) :
  dict_get row "id" = Some v -> py_int v = Ok n ->
  let st' := fst (click_cargar st row) in
  snd (click_cargar st row) = Loaded
  /\ st_modo st' = Some (u "nuevo")
  /\ form_of (init_form_state st') = set_form_state_from_row row
  /\ forall c r y w,
       on_submit (session_of st' c r y) w
       = if str_eqb (estado w) (u "Emitido") && negb (puede_emitir w)
         then Stop
         else if n =? 0 then CallInsert (nuevo_pg (session_of st' c r y) w)
         else CallUpdate n (cambios (session_of st' c r y) w).
Proof.
  intros Hid Hint. unfold click_cargar. rewrite Hid, Hint.
  cbn [fst snd]. split; [reflexivity|]. split; [reflexivity|].
  split.
  - unfold init_form_state at 1.
    cbn [st_form with_form with_modo].
    rewrite fold_setdefault_full; [reflexivity|].
    intros k Hk E. apply dict_get_in_keys in E. apply E.
    now rewrite mapper_keys.
  - intros c r y w. unfold on_submit.
    rewrite (update_target_of _ c r y n) by reflexivity.
    now destruct (n =? 0).
Qed.

(** X11: the button for a new record resets the form state to the defaults
    and keeps the edit flags: after a record with an identifier other
    than 0 was loaded, a submit that passes the issue check still updates
    that record. *)
Theorem nuevo_keeps_update_target (st : app_state) (row : pydict)
    (v : pyval) (n : Z) :
  dict_get row "id" = Some v -> py_int v = Ok n -> n <> 0 ->
  let st' := click_nuevo (fst (click_cargar st row)) in
  form_of st' = FORM_DEFAULTS
  /\ st_modo st' = Some (u "nuevo")
  /\ forall c r y w,
       str_eqb (estado w) (u "Emitido") && negb (puede_emitir w) = false ->
       on_submit (session_of st' c r y) w
       = CallUpdate n (cambios (session_of st' c r y) w).
Proof.
  intros Hid Hint Hn. unfold click_cargar. rewrite Hid, Hint.
  cbn [fst]. split; [reflexivity|]. split; [reflexivity|].
  intros c r y w Hok. unfold on_submit. rewrite Hok.
  rewrite (update_target_of _ c r y n) by reflexivity.
  destruct (Z.eqb_spec n 0); [contradiction|reflexivity].
Qed.

(** X12: a submit stopped by the issue check, or whose gateway call raises,
    leaves the session as it was; one whose call returns goes back to the
    history with the form state untouched and the edit flags cleared, so
    that the next submit inserts. *)
Theorem submit_outcomes (st : app_state) (c r : str) (y : Z) (w : widgets)
    (store : submit_step -> result unit) :
  let step := on_submit (session_of st c r y) w in
  let st' := submit_form st c r y w store in
  (step = Stop \/ (exists e, store step = Raise e) -> st' = st)
  /\ (step <> Stop -> store step = Ok tt ->
      st_modo st' = Some (u "historial")
      /\ st_form st' = st_form st
      /\ forall c' r' y' w',
           update_target (session_of st' c' r' y') = None
           /\ forall id changes,
                on_submit (session_of st' c' r' y') w'
                <> CallUpdate id changes).
Proof.
  cbv zeta. unfold submit_form.
  split.
  - intros [H|[e H]].
    + now rewrite H.
    + destruct (on_submit _ w); [reflexivity| |]; now rewrite H.
  - intros Hs Hok.
    destruct (on_submit (session_of st c r y) w) as [|id ch|rec] eqn:E;
      [contradiction| |]; rewrite Hok;
      (split; [reflexivity|]; split; [reflexivity|];
       intros c' r' y' w'; split; [reflexivity|];
       intros id' ch' H; apply on_submit_update_inv in H as [H _];
       discriminate H).
Qed.

End SessionFacts.

(** ** [search_history] *)

Lemma dict_get_not_none_in_keys (d : pydict) (k : string) :
  dict_get d k <> None -> In k (dict_keys d).
Proof.
  intros H. destruct (in_dec string_dec k (dict_keys d)) as [Hin|Hn];
    [exact Hin|]. now apply dict_get_in_keys in Hn.
Qed.

(** X13: [search_history] binds what its text names: each of the six
    names stands after a colon in the text exactly when it is bound, no
    other name is bound, [limit] always is, and a filter is bound, to its
    value, exactly when that value is truthy. *)
Theorem search_history_binds_named (filters : pydict) (limit : pyval) :
  let text := fst (search_history filters limit) in
  let params := snd (search_history filters limit) in
  (forall name,
     In name ["id_ue"; "estado"; "tipo_pei"; "fr_desde"; "fr_hasta";
              "limit"]%string ->
     occurs_in (":" ++ name) text = true <-> dict_get params name <> None)
  /\ (forall k, dict_get params k <> None ->
        In k ["id_ue"; "estado"; "tipo_pei"; "fr_desde"; "fr_hasta";
              "limit"]%string)
  /\ dict_get params "limit" = Some limit
  /\ forall key name,
       In (key, name)
         [("id_ue", "id_ue"); ("estado", "estado"); ("tipo_pei", "tipo_pei");
          ("fecha_recepcion_desde", "fr_desde");
          ("fecha_recepcion_hasta", "fr_hasta")]%string ->
       dict_get params name
       = if truthy (get_or filters key PNone)
         then Some (get_or filters key PNone) else None.
Proof.
  unfold search_history.
  destruct (search_where filters) as [clauses params] eqn:E.
  cbv zeta. cbn [fst snd].
  unfold search_where, add_filter in E.
  remember (truthy (get_or filters "id_ue" PNone)) as b1 eqn:T1.
  remember (truthy (get_or filters "estado" PNone)) as b2 eqn:T2.
  remember (truthy (get_or filters "tipo_pei" PNone)) as b3 eqn:T3.
  remember (truthy (get_or filters "fecha_recepcion_desde" PNone)) as b4
    eqn:T4.
  remember (truthy (get_or filters "fecha_recepcion_hasta" PNone)) as b5
    eqn:T5.
  destruct b1, b2, b3, b4, b5;
    cbn [fst snd app dict_set String.eqb Ascii.eqb Bool.eqb] in E;
    injection E as <- <-;
    (split; [|split; [|split; [reflexivity|]]]).
  all: match goal with
       | |- forall name, In name _ -> _ <-> _ =>
         intros name Hn; cbn [In] in Hn;
         repeat (destruct Hn as [E|Hn];
                 [destruct E; vm_compute;
                  first [ split; [intros _ H; discriminate H|reflexivity]
                        | split; [discriminate|intros H; now destruct H] ]
                 |]);
         contradiction
       | |- forall k, dict_get _ k <> None -> _ =>
         intros k Hk; apply dict_get_not_none_in_keys in Hk;
         cbn [dict_keys dict_set map fst In String.eqb Ascii.eqb Bool.eqb]
           in Hk;
         repeat (destruct Hk as [E|Hk]; [destruct E; pick_field|]);
         contradiction
       | |- _ =>
         intros key name Hin; cbn [In] in Hin;
         repeat (destruct Hin as [E|Hin];
                 [injection E as <- <-;
                  rewrite <- ?T1, <- ?T2, <- ?T3, <- ?T4, <- ?T5; reflexivity|]);
         contradiction
       end.
Qed.

(** ** The selected option *)

Lemma split_from_not_nil (sep cur : str) (skip : nat) (s : str) :
  split_from sep cur skip s <> [].
Proof.
  revert cur skip. induction s as [|c r IH]; intros cur skip;
    cbn [split_from]; [discriminate|].
  destruct skip; [|apply IH].
  destruct (has_prefix sep (c :: r)); [discriminate|apply IH].
Qed.

Lemma has_prefix_app (p s : str) : has_prefix p (p ++ s) = true.
Proof.
  induction p as [|a p IH]; cbn [has_prefix app]; [reflexivity|].
  now rewrite N.eqb_refl, IH.
Qed.

(** A separator somewhere in the string gives at least two parts. *)
Lemma split_from_two (sep cur a b : str) :
  sep <> [] ->
  exists x y r, split_from sep cur 0 (a ++ sep ++ b) = x :: y :: r.
Proof.
  intros Hsep. revert cur.
  assert (Hhit : forall cur c r,
    has_prefix sep (c :: r) = true ->
    exists x y t, split_from sep cur 0 (c :: r) = x :: y :: t).
  { intros cur c r Hp. cbn [split_from]. rewrite Hp.
    destruct (split_from sep [] (length sep - 1) r) as [|y t] eqn:E.
    - now apply split_from_not_nil in E.
    - now exists (rev cur), y, t. }
  induction a as [|c a IH]; intros cur.
  - destruct sep as [|s0 sep']; [contradiction|].
    cbn [app]. apply Hhit. apply (has_prefix_app (s0 :: sep') b).
  - cbn [app]. destruct (has_prefix sep (c :: a ++ sep ++ b)) eqn:Hp.
    + now apply Hhit.
    + cbn [split_from]. rewrite Hp. apply IH.
Qed.

(** With no blank in [c], the first part of [c ++ " - " ++ rest] is
    [c]. *)
Lemma split_from_blank_free (cur c rest : str) :
  Forall (fun x => x <> 32%N) c ->
  exists t,
    split_from (u " - ") cur 0 (c ++ u " - " ++ rest) = (rev cur ++ c) :: t.
Proof.
  intros Hc. revert cur. induction Hc as [|x c Hx Hc IH]; intros cur.
  - change (u " - ") with [32%N; 45%N; 32%N]. cbn [app split_from has_prefix].
    rewrite !N.eqb_refl. cbn [andb]. eexists. now rewrite app_nil_r.
  - cbn [app split_from].
    assert (Hp : has_prefix (u " - ") (x :: c ++ u " - " ++ rest) = false).
    { change (u " - ") with [32%N; 45%N; 32%N] at 1. cbn [has_prefix].
      destruct (N.eqb_spec 32 x) as [E|_]; [now destruct Hx|reflexivity]. }
    rewrite Hp. destruct (IH (x :: cur)) as (t & Ht). exists t.
    rewrite Ht. cbn [rev]. now rewrite <- app_assoc.
Qed.

Section Selection.
Context {L : PyLib}.

(** X15: an option of the unit select box, built from a code and a name,
    always has a second part, so [seleccion.split(" - ")[1]] raises no
    IndexError; and its first part, trimmed, is the trimmed code whenever
    that code holds no blank. *)
Theorem selected_option_parts (codigo nombre : pyval) :
  selected_name (option_label codigo nombre) <> None
  /\ (Forall (fun x => x <> 32%N) (strip (py_str codigo)) ->
      selected_code (option_label codigo nombre) = strip (py_str codigo)).
Proof.
  unfold selected_name, selected_code, option_label, split. split.
  - destruct (split_from_two (u " - ") [] (strip (py_str codigo))
                (strip (py_str nombre))) as (x & y & r & ->).
    { vm_compute. discriminate. }
    cbn [nth_error option_map]. discriminate.
  - intros Hc.
    destruct (split_from_blank_free [] (strip (py_str codigo))
                (strip (py_str nombre)) Hc) as (t & ->).
    cbn [hd rev app]. unfold strip. apply strip_with_idem.
Qed.

End Selection.

(** X14: filters that are absent or falsy leave the query without a WHERE
    clause and with [limit] as its only parameter, and a key other than
    the five filters changes nothing. *)
Theorem search_history_skips_falsy (filters : pydict) (limit : pyval) :
  ((forall key,
      In key ["id_ue"; "estado"; "tipo_pei"; "fecha_recepcion_desde";
              "fecha_recepcion_hasta"]%string ->
      truthy (get_or filters key PNone) = false) ->
   search_history filters limit = (query_text "", [("limit"%string, limit)])
   /\ occurs_in "WHERE" (fst (search_history filters limit)) = false)
  /\ forall k v,
       ~ In k ["id_ue"; "estado"; "tipo_pei"; "fecha_recepcion_desde";
               "fecha_recepcion_hasta"]%string ->
       search_history (dict_set filters k v) limit
       = search_history filters limit.
Proof.
  split.
  - intros H.
    assert (E : search_history filters limit
                = (query_text "", [("limit"%string, limit)])).
    { unfold search_history, search_where, add_filter.
      rewrite !H by pick_field. reflexivity. }
    rewrite E. split; [reflexivity|]. vm_compute. reflexivity.
  - intros k v Hk. unfold search_history, search_where, add_filter, get_or.
    rewrite !(dict_get_set_ne filters k); [reflexivity|..];
      intros ->; apply Hk; pick_field.
Qed.

(** ** The pattern of the period *)

Section Pattern.
Context {L : PyLib}.

(** X16: the pattern of the period matches exactly four decimal digits, a
    hyphen and four decimal digits, alone or followed by one newline. *)
Theorem pattern_shape (s : str) :
  re_match pattern s = true <->
  exists a b,
    length a = 4%nat /\ length b = 4%nat
    /\ forallb is_decimal (a ++ b) = true
    /\ (s = a ++ [45%N] ++ b \/ s = a ++ [45%N] ++ b ++ [10%N]).
Proof.
  unfold re_match, pattern. cbn [app repeat]. split.
  - intros H. cbn [match_items andb] in H.
    destruct s as [|c1 s]; [discriminate|].
    apply andb_true_iff in H as [D1 H].
    destruct s as [|c2 s]; [discriminate|].
    apply andb_true_iff in H as [D2 H].
    destruct s as [|c3 s]; [discriminate|].
    apply andb_true_iff in H as [D3 H].
    destruct s as [|c4 s]; [discriminate|].
    apply andb_true_iff in H as [D4 H].
    destruct s as [|h s]; [discriminate|].
    apply andb_true_iff in H as [Hh H]. apply N.eqb_eq in Hh. subst h.
    destruct s as [|c5 s]; [discriminate|].
    apply andb_true_iff in H as [D5 H].
    destruct s as [|c6 s]; [discriminate|].
    apply andb_true_iff in H as [D6 H].
    destruct s as [|c7 s]; [discriminate|].
    apply andb_true_iff in H as [D7 H].
    destruct s as [|c8 s]; [discriminate|].
    apply andb_true_iff in H as [D8 H].
    exists [c1; c2; c3; c4], [c5; c6; c7; c8].
    split; [reflexivity|]. split; [reflexivity|].
    split; [cbn [app forallb]; now rewrite D1, D2, D3, D4, D5, D6, D7, D8|].
    destruct s as [|n s]; [now left|].
    destruct n as [|p]; [discriminate|].
    do 4 (destruct p as [p|p|]; try discriminate).
    destruct s; [now right|discriminate].
  - intros (a & b & Ha & Hb & Hd & Hs).
    destruct a as [|c1 [|c2 [|c3 [|c4 [|]]]]]; try discriminate.
    destruct b as [|c5 [|c6 [|c7 [|c8 [|]]]]]; try discriminate.
    cbn [app forallb] in Hd.
    repeat (apply andb_true_iff in Hd as [?D Hd]).
    destruct Hs as [-> | ->]; cbn [app match_items];
      rewrite D, D0, D1, D2, D3, D4, D5, D6; reflexivity.
Qed.

End Pattern.

(** ** The key of the history and the key of an insert *)

Lemma digits_value_zeros (k : nat) (ds : list N) :
  digits_value (repeat 0%N k ++ ds) = digits_value ds.
Proof.
  unfold digits_value. induction k as [|k IH]; [reflexivity|].
  cbn [repeat app fold_left]. exact IH.
Qed.

Lemma map_sub_zeros (k : nat) :
  map (fun c => (c - 48)%N) (repeat 48%N k) = repeat 0%N k.
Proof.
  induction k as [|k IH]; [reflexivity|]. cbn [repeat map]. now f_equal.
Qed.

Lemma zeros_all_digits (k : nat) (s : str) :
  all_digits s -> all_digits (repeat 48%N k ++ s).
Proof.
  intros H. apply Forall_app. split; [|exact H].
  apply List.Forall_forall. intros c Hc. apply repeat_spec in Hc. now subst.
Qed.

Section Keys.
Context {L : PyLib}.

Lemma codigo_norm_padded (n : Z) (k : nat) :
  0 <= n <= 2 ^ 53 ->
  normalizar_codigo (PStr (repeat 48%N k ++ str_of_Z n)) = str_of_Z n.
Proof.
  intros Hn. rewrite normalizar_codigo_unfold. cbn [isna is_none orb].
  unfold str_of_Z at 1. destruct (Z.ltb_spec n 0) as [Hlt|_]; [lia|].
  set (cs := repeat 48%N k ++ digit_chars (Z.to_N n)).
  assert (Hd : all_digits cs)
    by apply zeros_all_digits, digit_chars_all_digits.
  assert (Hne : cs <> []).
  { unfold cs. intros E. apply app_eq_nil in E as [_ E].
    now apply digit_chars_not_nil in E. }
  unfold int_via_float. cbn [py_float].
  rewrite (float_of_str_token cs (all_digits_token cs Hd)).
  rewrite (parse_float_literal_digits false cs Hd Hne).
  2:{ intros c r Hc. rewrite Hc. apply parse_sign_digit.
      rewrite Hc in Hd. now inversion Hd. }
  unfold cs, digit_chars. rewrite map_app, map_sub_add, map_sub_zeros.
  rewrite digits_value_zeros, digits_of_N_value, float_of_literal_int.
  rewrite Z2N.id by lia.
  destruct (round_small n Hn) as (m & e & -> & Ht).
  cbn [bind int_of_float]. now rewrite Ht.
Qed.

(** X17: for a code written as a decimal number from 0 to 2^53, the
    history is queried under the code the insert writes; written with
    zeros in front, the insert keeps the zeros and the history query
    drops them, so the two keys differ. *)
Theorem history_key_vs_insert_key (ss : session) (w : widgets) (n : Z)
    (k : nat) :
  0 <= n <= 2 ^ 53 ->
  codigo ss = repeat 48%N k ++ str_of_Z n ->
  dict_get (nuevo_pg ss w) "id_ue" = Some (PStr (codigo ss))
  /\ codigo_norm (codigo ss) = str_of_Z n
  /\ (k = 0%nat -> codigo_norm (codigo ss) = codigo ss)
  /\ (k <> 0%nat -> codigo_norm (codigo ss) <> codigo ss).
Proof.
  intros Hn Hc. unfold codigo_norm. rewrite Hc, (codigo_norm_padded n k Hn).
  split; [|split; [reflexivity|split]].
  - change (dict_get (nuevo_pg ss w) "id_ue")
      with (Some (PStr (strip (codigo ss)))).
    rewrite Hc. do 2 f_equal. apply strip_token.
    apply Forall_app. split; [|apply str_of_Z_token].
    apply List.Forall_forall. intros c Hin. apply repeat_spec in Hin.
    now subst.
  - intros ->. reflexivity.
  - intros Hk E. apply (f_equal (@length N)) in E.
    rewrite length_app, repeat_length in E. lia.
Qed.

End Keys.

(** ** The columns of an insert *)

Lemma existsb_keys (d : pydict) (k : string) :
  existsb (String.eqb k) (dict_keys d)
  = match dict_get d k with Some _ => true | None => false end.
Proof.
  unfold dict_keys. induction d as [|[k' v'] r IH]; simpl; [reflexivity|].
  rewrite String.eqb_sym. destruct (String.eqb k' k); [reflexivity|exact IH].
Qed.

Lemma dict_get_set (d : pydict) (k k' : string) (v : pyval) :
  dict_get (dict_set d k v) k'
  = if String.eqb k k' then Some v else dict_get d k'.
Proof.
  destruct (String.eqb_spec k k') as [<-|Hne].
  - apply dict_get_set_eq.
  - now apply dict_get_set_ne.
Qed.

Section Columns.
Context {L : PyLib}.

(** X7: an insert that passes the check names the keys of the record in
    their order, then [anio] and [cantidad_revisiones] when the record
    lacks them, bound to None; no column of a record without repeated
    keys is named twice. *)
Theorem insert_columns (record : pydict) :
  missing_of record = [] ->
  exists stmt,
    insert_it_pei record = Ok stmt
    /\ stmt_cols stmt
       = dict_keys record
         ++ List.filter
              (fun k => negb (existsb (String.eqb k) (dict_keys record)))
              ["anio"; "cantidad_revisiones"]%string
    /\ (forall k, In k ["anio"; "cantidad_revisiones"]%string ->
        dict_get record k = None -> dict_get (stmt_params stmt) k = Some PNone)
    /\ (List.NoDup (dict_keys record) -> List.NoDup (stmt_cols stmt)).
Proof.
  intros Hm. unfold insert_it_pei. rewrite Hm.
  apply missing_of_nil in Hm as [Hid _].
  eexists. split; [reflexivity|]. cbn [stmt_cols stmt_params].
  assert (Hid' : exists v, dict_get record "id_ue" = Some v).
  { unfold get_or in Hid. destruct (dict_get record "id_ue") as [v|];
      [now exists v|discriminate]. }
  destruct Hid' as [vid Hid'].
  assert (Hcols : forall v1 v2 v3,
    dict_keys
      (dict_set (dict_set (dict_set record "id_ue" v1) "anio" v2)
         "cantidad_revisiones" v3)
    = dict_keys record
      ++ List.filter
           (fun k => negb (existsb (String.eqb k) (dict_keys record)))
           ["anio"; "cantidad_revisiones"]%string).
  { intros v1 v2 v3.
    rewrite !dict_keys_set, !dict_get_set, Hid'. cbn [List.filter].
    rewrite !existsb_keys.
    change (String.eqb "id_ue" "anio") with false.
    change (String.eqb "id_ue" "cantidad_revisiones") with false.
    change (String.eqb "anio" "cantidad_revisiones") with false.
    cbv iota.
    destruct (dict_get record "anio"),
      (dict_get record "cantidad_revisiones"); cbn [negb];
      rewrite <- ?app_assoc, ?app_nil_r; reflexivity. }
  split; [apply Hcols|]. split.
  - intros k Hk Hnone. unfold get_or.
    destruct Hk as [<-|[<-|[]]]; rewrite !dict_get_set.
    + change (String.eqb "cantidad_revisiones" "anio") with false.
      change (String.eqb "anio" "anio") with true.
      change (String.eqb "id_ue" "anio") with false.
      cbv iota. now rewrite Hnone.
    + change (String.eqb "cantidad_revisiones" "cantidad_revisiones")
        with true.
      change (String.eqb "anio" "cantidad_revisiones") with false.
      change (String.eqb "id_ue" "cantidad_revisiones") with false.
      cbv iota. now rewrite Hnone.
  - intros Hnd. rewrite Hcols. apply List.NoDup_app.
    + exact Hnd.
    + apply List.NoDup_filter.
      repeat constructor; simpl; intuition discriminate.
    + intros k Hin Hf. apply List.filter_In in Hf as [_ Hf].
      apply negb_true_iff in Hf.
      assert (Hex : existsb (String.eqb k) (dict_keys record) = true).
      { apply existsb_exists. exists k. split; [exact Hin|].
        apply String.eqb_refl. }
      congruence.
Qed.

End Columns.

(** ** Instances *)

Lemma mapper_choice_is_option_witness :
  exists o,
    dict_get (@set_form_state_from_row narrow_lib legacy_row) "estado"
    = Some (PStr o)
    /\ nth_error estado_opts
         (index_of estado_opts
            (get_or (@set_form_state_from_row narrow_lib legacy_row)
               "estado" PNone) 0)
       = Some o.
Proof.
  apply (@mapper_choice_is_option narrow_lib legacy_row "estado" estado_opts).
  do 3 right. left. reflexivity.
Defined.

Lemma to_int_exact_below_2p53_witness :
  @_to_int narrow_lib (PInt 2024) = PInt 2024
  /\ @_to_int narrow_lib (@_to_int narrow_lib (PStr (u "3.7")))
     = @_to_int narrow_lib (PStr (u "3.7")).
Proof.
  split.
  - apply (proj1 (proj2 (@to_int_exact_below_2p53 narrow_lib (PInt 2024)))
             2024 eq_refl).
    vm_compute. discriminate.
  - apply (proj2 (proj2 (proj2
             (@to_int_exact_below_2p53 narrow_lib (PStr (u "3.7")))))).
    reflexivity.
Defined.

Lemma form_insert_binds_record_witness :
  @insert_it_pei narrow_lib (@nuevo_pg narrow_lib new_session sample_widgets)
  = Ok (InsertInto
          (dict_keys (@nuevo_pg narrow_lib new_session sample_widgets))
          (@nuevo_pg narrow_lib new_session sample_widgets)).
Proof.
  apply (proj2 (@form_insert_binds_record narrow_lib new_session
                  sample_widgets)).
  - vm_compute. discriminate.
  - reflexivity.
  - vm_compute. discriminate.
  - vm_compute. discriminate.
Defined.

Lemma insert_blank_unit_binds_none_witness :
  exists stmt,
    @insert_it_pei narrow_lib blank_unit_record = Ok stmt
    /\ In "id_ue"%string (stmt_cols stmt)
    /\ dict_get (stmt_params stmt) "id_ue" = Some PNone.
Proof.
  apply (@insert_blank_unit_binds_none narrow_lib blank_unit_record
           (u "   ") (PDate 2024 1 10)).
  - reflexivity.
  - vm_compute. discriminate.
  - reflexivity.
  - reflexivity.
  - reflexivity.
Defined.

Lemma insert_then_load_round_trip_witness :
  exists stmt,
    @insert_it_pei narrow_lib
      (@nuevo_pg narrow_lib new_session sample_widgets) = Ok stmt
    /\ dict_get (@set_form_state_from_row narrow_lib (stmt_params stmt))
         "etapa_revision" = Some (PStr (u "Revisión DNCP"))
    /\ dict_get (@set_form_state_from_row narrow_lib (stmt_params stmt))
         "periodo" = Some (PStr (u "2025-2027")).
Proof.
  destruct (@insert_then_load_round_trip narrow_lib new_session
              sample_widgets)
    as (stmt & H1 & H2 & H3 & _).
  - vm_compute. discriminate.
  - reflexivity.
  - exists stmt. split; [exact H1|]. split.
    + apply (H2 "etapa_revision"%string etapas_opts (u "Revisión DNCP")).
      * right. left. reflexivity.
      * do 2 right. left. reflexivity.
    + apply (H3 "periodo"%string (u "2025-2027")). left. reflexivity.
Defined.

Lemma init_form_state_completes_witness :
  exists d',
    st_form (init_form_state partial_state) = Some (SlotDict d')
    /\ dict_get d' "estado" = Some (PStr (u "Emitido"))
    /\ dict_get d' "periodo" = Some (PStr []).
Proof.
  destruct (init_form_state_completes partial_state)
    as (d' & H1 & _ & H3 & _).
  exists d'. split; [exact H1|]. split.
  - exact (H3 _ eq_refl "estado"%string).
  - exact (H3 _ eq_refl "periodo"%string).
Defined.

Lemma load_opens_update_witness :
  snd (@click_cargar narrow_lib empty_state stored_row) = Loaded
  /\ @on_submit narrow_lib
       (session_of (fst (@click_cargar narrow_lib empty_state stored_row))
          (u "23") (u "DNCP") 2024) sample_widgets
     = CallUpdate 7
         (cambios
            (session_of (fst (@click_cargar narrow_lib empty_state stored_row))
               (u "23") (u "DNCP") 2024) sample_widgets).
Proof.
  destruct (@load_opens_update narrow_lib empty_state stored_row (PInt 7) 7
              eq_refl eq_refl) as (H1 & _ & _ & H4).
  split; [exact H1|].
  exact (H4 (u "23") (u "DNCP") 2024 sample_widgets).
Defined.

Lemma nuevo_keeps_update_target_witness :
  @on_submit narrow_lib
    (session_of
       (click_nuevo (fst (@click_cargar narrow_lib empty_state stored_row)))
       (u "23") (u "DNCP") 2024) sample_widgets
  = CallUpdate 7
      (cambios
         (session_of
            (click_nuevo
               (fst (@click_cargar narrow_lib empty_state stored_row)))
            (u "23") (u "DNCP") 2024) sample_widgets).
Proof.
  apply (proj2 (proj2 (@nuevo_keeps_update_target narrow_lib empty_state
                         stored_row (PInt 7) 7 eq_refl eq_refl
                         ltac:(discriminate)))).
  reflexivity.
Defined.

Lemma submit_outcomes_witness :
  @submit_form narrow_lib empty_state (u "23") (u "DNCP") 2024
    sample_widgets (fun _ => Raise NotFoundError)
  = empty_state.
Proof.
  apply (proj1 (@submit_outcomes narrow_lib empty_state (u "23") (u "DNCP")
                  2024 sample_widgets (fun _ => Raise NotFoundError))).
  right. exists NotFoundError. reflexivity.
Defined.

Lemma search_history_binds_named_witness :
  dict_get (snd (search_history sample_filters (PInt 500))) "id_ue"
  = Some (PStr (u "23"))
  /\ occurs_in ":id_ue" (fst (search_history sample_filters (PInt 500)))
     = true.
Proof.
  destruct (search_history_binds_named sample_filters (PInt 500))
    as (H1 & _ & _ & H4).
  split.
  - exact (H4 "id_ue"%string "id_ue"%string (or_introl eq_refl)).
  - apply (H1 "id_ue"%string); [left; reflexivity|].
    rewrite (H4 "id_ue"%string "id_ue"%string (or_introl eq_refl)).
    discriminate.
Defined.

Lemma search_history_skips_falsy_witness :
  search_history [("estado"%string, PStr [])] (PInt 500)
  = (query_text "", [("limit"%string, PInt 500)]).
Proof.
  apply (proj1 (search_history_skips_falsy
                  [("estado"%string, PStr [])] (PInt 500))).
  intros key Hk. cbn [In] in Hk.
  repeat (destruct Hk as [<-|Hk]; [reflexivity|]). destruct Hk.
Defined.

Lemma selected_option_parts_witness :
  selected_code
    (@option_label narrow_lib (PStr (u "23"))
       (PStr (u "Municipalidad - Lima")))
  = @strip (@py_str narrow_lib (PStr (u "23"))).
Proof.
  apply (proj2 (@selected_option_parts narrow_lib (PStr (u "23"))
                  (PStr (u "Municipalidad - Lima")))).
  vm_compute. repeat (constructor; [discriminate|]). constructor.
Defined.

Lemma pattern_shape_witness :
  @re_match narrow_lib pattern (u "2025-2027") = true.
Proof.
  apply (proj2 (@pattern_shape narrow_lib (u "2025-2027"))).
  exists (u "2025"), (u "2027").
  split; [reflexivity|]. split; [reflexivity|]. split; [reflexivity|].
  left. reflexivity.
Defined.

Lemma history_key_vs_insert_key_witness :
  @codigo_norm narrow_lib (codigo padded_session) = u "23"
  /\ @codigo_norm narrow_lib (codigo padded_session)
     <> codigo padded_session.
Proof.
  destruct (@history_key_vs_insert_key narrow_lib padded_session
              sample_widgets 23 1) as (_ & H2 & _ & H4).
  - split; vm_compute; discriminate.
  - reflexivity.
  - split; [exact H2|]. apply H4. discriminate.
Defined.

Lemma insert_columns_witness :
  exists stmt,
    @insert_it_pei narrow_lib sample_record = Ok stmt
    /\ stmt_cols stmt
       = ["id_ue"; "fecha_recepcion"; "estado"; "anio";
          "cantidad_revisiones"]%string.
Proof.
  destruct (@insert_columns narrow_lib sample_record eq_refl)
    as (stmt & H1 & H2 & _).
  exists stmt. split; [exact H1|exact H2].
Defined.
